(** * StyLua VS Code extension: binary resolution, version reconciliation
      and acquisition

    A shallow embedding of [stylua-vscode/src/utilities.ts],
    [stylua-vscode/src/github.ts], of [stylua.ts] (the module that exports
    [executeStylua]) and of [download.ts] (the module that exports
    [StyluaDownloader]), followed by the properties of the written
    specification that these functions decide.  Line numbers in comments
    are those of [download.ts].

    Conventions.
    - A JavaScript string is a Rocq [string]; its characters are the code
      units below 256.
    - Synchronous code that may throw returns [result]; an [async] function
      is a state transformer over [World] whose promise is [Fulfilled],
      [Rejected] or stays [Pending].
    - Whatever the extension asks of its surroundings (configuration, the
      search path, HTTP, the archive behind a URL, the answer of a binary
      to [--version], the user's clicks, the semver package) is a field of
      [Env] or a member of the class [Semver]. *)

From Stdlib Require Import Ascii String List Bool Arith Lia.
From stdpp Require Import base option list strings gmap pretty.

(* ===================================================================== *)
(** * Part I: definitions                                                 *)
(* ===================================================================== *)

(** ** JavaScript string primitives *)

Module JsString.

(** [WhiteSpace] and [LineTerminator] code units below 256: TAB, LF, VT,
    FF, CR, SP and NBSP.  These are what [String.prototype.trim] strips. *)
Definition is_white_space (c : ascii) : bool :=
  match c with
  | "009" | "010" | "011" | "012" | "013" | " " | "160" => true
  | _ => false
  end%char.

(** [LineTerminator] code units below 256 (what [.] does not match). *)
Definition is_line_terminator (c : ascii) : bool :=
  match c with
  | "010" | "013" => true
  | _ => false
  end%char.

Definition is_digit (c : ascii) : bool :=
  match c with
  | "0" | "1" | "2" | "3" | "4" | "5" | "6" | "7" | "8" | "9" => true
  | _ => false
  end%char.

Definition is_empty (s : string) : bool :=
  match s with EmptyString => true | String _ _ => false end.

(** Truthiness of a string value: the empty string is falsy. *)
Definition truthy (s : string) : bool := negb (is_empty s).

(** Truthiness of [string | null | undefined]. *)
Definition truthy_opt (o : option string) : bool :=
  match o with Some s => truthy s | None => false end.

Fixpoint trimStart (s : string) : string :=
  match s with
  | EmptyString => EmptyString
  | String c s' => if is_white_space c then trimStart s' else s
  end.

Fixpoint trimEnd (s : string) : string :=
  match s with
  | EmptyString => EmptyString
  | String c s' =>
      let t := trimEnd s' in
      if is_white_space c && is_empty t then EmptyString else String c t
  end.

(** [s.trim()] *)
Definition trim (s : string) : string := trimEnd (trimStart s).

(** [s.slice(n)] for [0 <= n]: the string without its first [n] code
    units (empty when [s] is shorter). *)
Fixpoint slice (n : nat) (s : string) : string :=
  match n, s with
  | O, _ => s
  | S _, EmptyString => EmptyString
  | S n', String _ s' => slice n' s'
  end.

(** Is the last code unit of [s] white space? *)
Fixpoint endsWithWhiteSpace (s : string) : bool :=
  match s with
  | EmptyString => false
  | String c EmptyString => is_white_space c
  | String _ s' => endsWithWhiteSpace s'
  end.

(** [s.startsWith(p)] *)
Definition startsWith (s p : string) : bool := String.prefix p s.

(** [s.slice(0, n)], used for a write that stops after [n] bytes. *)
Fixpoint take (n : nat) (s : string) : string :=
  match n, s with
  | O, _ => EmptyString
  | S _, EmptyString => EmptyString
  | S n', String c s' => String c (take n' s')
  end.

End JsString.

(** ** Regular expressions, as far as [utilities.ts] builds them *)

Module RegExp.

Inductive class_item : Type :=
| CDigit                      (* \d *)
| CChar (c : ascii)           (* a literal character *)
| CEscaped (c : ascii).       (* an identity escape such as \- and \. *)

Inductive regex : Type :=
| Fail                        (* matches nothing; derivatives need it *)
| Empty                       (* the empty pattern *)
| Chr (c : ascii)
| Dot
| Class (items : list class_item)
| Seq (r1 r2 : regex)
| Alt (r1 r2 : regex)
| Group (r : regex)
| Opt (r : regex)
| Plus (r : regex)
| Star (r : regex).

(** A literal run of characters. *)
Fixpoint lit (s : string) : regex :=
  match s with
  | EmptyString => Empty
  | String c s' => Seq (Chr c) (lit s')
  end.

(** The pattern text that denotes a regex: what is handed to
    [new RegExp(...)]. *)
Definition item_source (i : class_item) : string :=
  match i with
  | CDigit => "\d"
  | CChar c => String c EmptyString
  | CEscaped c => String "\"%char (String c EmptyString)
  end.

Fixpoint source (r : regex) : string :=
  match r with
  | Fail => "[]"
  | Empty => ""
  | Chr c => String c EmptyString
  | Dot => "."
  | Class items => "[" +:+ String.concat "" (map item_source items) +:+ "]"
  | Seq r1 r2 => source r1 +:+ source r2
  | Alt r1 r2 => source r1 +:+ "|" +:+ source r2
  | Group r1 => "(" +:+ source r1 +:+ ")"
  | Opt r1 => source r1 +:+ "?"
  | Plus r1 => source r1 +:+ "+"
  | Star r1 => source r1 +:+ "*"
  end.

Definition item_matches (c : ascii) (i : class_item) : bool :=
  match i with
  | CDigit => JsString.is_digit c
  | CChar x | CEscaped x => Ascii.eqb c x
  end.

Definition class_matches (items : list class_item) (c : ascii) : bool :=
  existsb (item_matches c) items.

(** The words a pattern denotes. *)
Inductive lang : regex -> list ascii -> Prop :=
| L_Empty : lang Empty []
| L_Chr c : lang (Chr c) [c]
| L_Dot c : JsString.is_line_terminator c = false -> lang Dot [c]
| L_Class items c : class_matches items c = true -> lang (Class items) [c]
| L_Seq r1 r2 w1 w2 : lang r1 w1 -> lang r2 w2 -> lang (Seq r1 r2) (w1 ++ w2)
| L_AltL r1 r2 w : lang r1 w -> lang (Alt r1 r2) w
| L_AltR r1 r2 w : lang r2 w -> lang (Alt r1 r2) w
| L_Group r w : lang r w -> lang (Group r) w
| L_OptNone r : lang (Opt r) []
| L_OptSome r w : lang r w -> lang (Opt r) w
| L_PlusOne r w : lang r w -> lang (Plus r) w
| L_PlusMore r w1 w2 : lang r w1 -> lang (Plus r) w2 -> lang (Plus r) (w1 ++ w2)
| L_StarNil r : lang (Star r) []
| L_StarMore r w1 w2 : lang r w1 -> lang (Star r) w2 -> lang (Star r) (w1 ++ w2).

(** Matching by derivatives. *)
Fixpoint nullable (r : regex) : bool :=
  match r with
  | Fail | Chr _ | Dot | Class _ => false
  | Empty | Opt _ | Star _ => true
  | Seq r1 r2 => nullable r1 && nullable r2
  | Alt r1 r2 => nullable r1 || nullable r2
  | Group r1 | Plus r1 => nullable r1
  end.

Fixpoint deriv (c : ascii) (r : regex) : regex :=
  match r with
  | Fail | Empty => Fail
  | Chr x => if Ascii.eqb c x then Empty else Fail
  | Dot => if JsString.is_line_terminator c then Fail else Empty
  | Class items => if class_matches items c then Empty else Fail
  | Seq r1 r2 =>
      if nullable r1
      then Alt (Seq (deriv c r1) r2) (deriv c r2)
      else Seq (deriv c r1) r2
  | Alt r1 r2 => Alt (deriv c r1) (deriv c r2)
  | Group r1 | Opt r1 => deriv c r1
  | Plus r1 | Star r1 => Seq (deriv c r1) (Star r1)
  end.

(** Does some prefix of [w] belong to the pattern? *)
Fixpoint matches_prefix (r : regex) (w : list ascii) : bool :=
  nullable r ||
  match w with
  | [] => false
  | c :: w' => matches_prefix (deriv c r) w'
  end.

(** Does the pattern match somewhere in [w]? *)
Fixpoint search (r : regex) (w : list ascii) : bool :=
  matches_prefix r w ||
  match w with
  | [] => false
  | _ :: w' => search r w'
  end.

(** [r.test(s)] for a pattern without flags: an unanchored search. *)
Definition test (r : regex) (s : string) : bool :=
  search r (list_ascii_of_string s).

End RegExp.

(** ** Untyped JSON, as [response.json()] delivers it *)

Local Set Warnings "-register-all".

Module Json.

Inductive json : Type :=
| JNull
| JBool (b : bool)
| JNumber (literal : string)
| JString (s : string)
| JArray (elements : list json)
| JObject (fields : list (string * json)).

(** [typeof v].  Note [typeof null === "object"]. *)
Definition typeof (v : json) : string :=
  match v with
  | JNull | JArray _ | JObject _ => "object"
  | JBool _ => "boolean"
  | JNumber _ => "number"
  | JString _ => "string"
  end.

(** The own property [key] of a parsed object, whose keys are distinct. *)
Fixpoint lookup_field (key : string) (fields : list (string * json)) : option json :=
  match fields with
  | [] => None
  | (k, v) :: rest => if String.eqb k key then Some v else lookup_field key rest
  end.

End Json.

(** ** Errors, synchronous results and promises *)

Inductive error : Type :=
| TypeError                              (* reading a property of [null] *)
| BadPlatformError                       (* "platform not supported" *)
| NoReleaseFoundError (message : string)
| FetchError                             (* [fetch] or [response.json()] rejected *)
| ExecError                              (* [child_process.exec] reported an error *)
| WriteError.                            (* the write stream emitted [error] *)

Inductive result (A : Type) : Type :=
| Ok (a : A)
| Throw (e : error).
Arguments Ok {A} a.
Arguments Throw {A} e.

Definition result_bind {A B} (r : result A) (k : A -> result B) : result B :=
  match r with Ok a => k a | Throw e => Throw e end.

Fixpoint result_map {A B} (f : A -> result B) (l : list A) : result (list B) :=
  match l with
  | [] => Ok []
  | x :: rest =>
      result_bind (f x) (fun y =>
      result_bind (result_map f rest) (fun ys => Ok (y :: ys)))
  end.

(** How a promise ends: it is fulfilled, it is rejected, or nothing ever
    settles it. *)
Inductive outcome (A : Type) : Type :=
| Fulfilled (a : A)
| Rejected (e : error)
| Pending.
Arguments Fulfilled {A} a.
Arguments Rejected {A} e.
Arguments Pending {A}.

(** ** Records of [github.ts] and [download.ts] *)

Record Asset : Type := mkAsset { downloadUrl : string; name : string }.

Record GitHubRelease : Type := mkRelease {
  assets : list Asset;
  htmlUrl : string;
  tagName : string
}.

Inductive ResolveMode : Type := Bundled | Configuration | Path.

(** Modelled from the spec: the enum of [meta/stylua-type.ts], which is
    not among the sources.  The spec has two variants, a standard and a
    secondary one; the code calls them [Standard] and [React], and
    [download.ts] only ever asks whether the variant is [Standard]. *)
Inductive StyluaType : Type := Standard | React.

Record StyluaInfo : Type := mkInfo {
  paths : string * string;               (* [standard, react] *)
  resolveMode : ResolveMode;
  version : option string
}.

Record AuthenticationSession : Type := mkSession { id : string; accessToken : string }.

(** The private fields of [class Credential]. *)
Record Credential : Type := mkCredential {
  _session : option string;
  _token : option string
}.

(** ** The surroundings of the extension *)

Record Config : Type := mkConfig {
  styluaPath : option string;            (* stylua.styluaPath *)
  styluaRoactPath : option string;       (* stylua.styluaRoactPath *)
  searchBinaryInPATH : bool;             (* stylua.searchBinaryInPATH *)
  targetReleaseVersion : option string;  (* stylua.targetReleaseVersion *)
  releaseVersion : option string;        (* stylua.releaseVersion (deprecated) *)
  disableVersionCheck : bool             (* stylua.disableVersionCheck *)
}.

(** What [authentication.getSession] does. *)
Inductive session_answer : Type :=
| SessionGranted (s : option AuthenticationSession)
| ConsentRefused             (* throws "User did not consent to login." *)
| SessionFailure.            (* throws anything else *)

Record Env : Type := mkEnv {
  config : Config;
  platform : string;                     (* os.platform() *)
  arch : string;                         (* process.arch *)
  storageDirectory : string;
  which_stylua : option string;          (* which("stylua", {nothrow: true}) *)
  (** stdout of a binary run with [--version]; [None] when [exec] fails *)
  version_stdout : string -> option string;
  (** the JSON behind a URL for a given token; [None] when the request or
      the decoding fails *)
  http_json : string -> option string -> option Json.json;
  (** the entries [unzip.Parse()] emits for the body behind a URL, in
      order, each with its path and bytes; [None] when the request fails.
      A damaged archive shows as a list that stops early. *)
  http_archive : string -> option (list (string * string));
  (** [Some n]: a write stream on this path fails after [n] bytes *)
  write_fault : string -> option nat;
  get_session : bool -> session_answer;
  (** the user clicks "Authenticate with GitHub" when offered *)
  picks_authenticate : bool
}.

(** The semver package, as far as [download.ts] calls it. *)
Class Semver : Type := {
  SemVer : Type;
  coerce : string -> option SemVer;      (* semver.coerce *)
  parse : string -> option SemVer;       (* semver.parse *)
  neq : SemVer -> SemVer -> bool         (* semver.neq *)
}.

(** What the extension does to its surroundings, in order of occurrence
    (latest first in [trace]). *)
Inductive event : Type :=
| LogInfo (message : string)
| LogError (message : string)
| Which                                  (* the search path is consulted *)
| Exec (path : string) (cwd : option string)
| Stat (path : string)
| CreateDirectory (path : string)
| HttpJson (url : string) (token : option string)
| HttpArchive (url : string)
| CreateWriteStream (path : string)
| Progress (title : string)
| GetSession (createIfNone : bool)
| HideUpdate                             (* statusBarUpdateItem.hide() *)
| UpdateAvailable (release : GitHubRelease)
| IncorrectVersionPrompt (currentVersion requestedVersion : string)
| WarningMessage (message : string) (cause : error)
| ErrorMessage (message : string)
| InformationMessage (message : string).

Record World : Type := mkWorld {
  fs : gmap string string;               (* path to file contents *)
  credential : Credential;
  trace : list event
}.

(** ** Asynchronous computations *)

Definition M (A : Type) : Type := World -> outcome A * World.

Definition ret {A} (a : A) : M A := fun w => (Fulfilled a, w).

Definition bind {A B} (m : M A) (k : A -> M B) : M B :=
  fun w =>
    match m w with
    | (Fulfilled a, w') => k a w'
    | (Rejected e, w') => (Rejected e, w')
    | (Pending, w') => (Pending, w')
    end.

Definition reject {A} (e : error) : M A := fun w => (Rejected e, w).

(** A promise nobody settles. *)
Definition pending {A} : M A := fun w => (Pending, w).

(** [try { ... } catch (error) { ... }] around awaited code. *)
Definition try_catch {A} (m : M A) (handler : error -> M A) : M A :=
  fun w =>
    match m w with
    | (Rejected e, w') => handler e w'
    | other => other
    end.

(** Synchronous code inside an [async] function: a throw rejects. *)
Definition lift {A} (r : result A) : M A :=
  match r with Ok a => ret a | Throw e => reject e end.

Definition emit (e : event) : M unit :=
  fun w => (Fulfilled tt, mkWorld (fs w) (credential w) (e :: trace w)).

Definition get_world : M World := fun w => (Fulfilled w, w).

Definition set_credential (c : Credential) : M unit :=
  fun w => (Fulfilled tt, mkWorld (fs w) c (trace w)).

Definition write_file (path data : string) : M unit :=
  fun w => (Fulfilled tt, mkWorld (<[path := data]> (fs w)) (credential w) (trace w)).

(** [let* x := await m in k] *)
Notation "'let*' x ':=' m 'in' k" := (bind m (fun x => k))
  (at level 10, x binder, m at level 100, k at level 200).
(** [await m; k] *)
Notation "m ';;' k" := (bind m (fun _ => k))
  (at level 100, k at level 200, right associativity).

(** The events of a run: what [m] adds to the trace, oldest first. *)
Definition new_events {A} (m : M A) (w : World) : list event :=
  rev (take (length (trace (snd (m w))) - length (trace w)) (trace (snd (m w)))).

(** ** [utilities.ts] *)

Module Utilities.
Import RegExp.

Definition getDownloadOutputFilenameFor (platform : string) : result string :=
  if String.eqb platform "win32" then Ok "stylua.exe"
  else if String.eqb platform "linux" || String.eqb platform "darwin" then Ok "stylua"
  else Throw BadPlatformError.

Definition getDownloadOutputFilename (env : Env) : result string :=
  getDownloadOutputFilenameFor (platform env).

(** The first [switch]: the platform fragment of the pattern. *)
Definition platformPattern (platform : string) : result regex :=
  if String.eqb platform "win32" then Ok (Group (Alt (lit "windows") (lit "win64")))
  else if String.eqb platform "linux" then Ok (lit "linux")
  else if String.eqb platform "darwin" then Ok (lit "macos")
  else Throw BadPlatformError.

(** The second [switch]: the architecture fragment, as text. *)
Definition architectureFragment (architecture : string) : string :=
  if String.eqb architecture "arm64" then "aarch64"
  else if String.eqb architecture "x64" then "x86_64"
  else "".

Definition architecturePattern (architecture : string) : regex :=
  lit (architectureFragment architecture).

(** The class [[\dw\-\.]]. *)
Definition versionClass : list class_item :=
  [CDigit; CChar "w"; CEscaped "-"; CEscaped "."].

(** [stylua(-[\dw\-\.]+)?-] *)
Definition patternHead : regex :=
  Seq (lit "stylua")
    (Seq (Opt (Group (Seq (Chr "-") (Plus (Class versionClass))))) (Chr "-")).

Definition getAssetFilenamePatternForPlatform
    (platform architecture : string) : result regex :=
  result_bind (platformPattern platform) (fun platformPattern =>
  Ok (Seq patternHead
       (Seq platformPattern
         (Seq (Opt (Group (Seq (Chr "-") (architecturePattern architecture))))
           (Seq Dot (lit "zip")))))).

Definition getAssetFilenamePattern (env : Env) : result regex :=
  getAssetFilenamePatternForPlatform (platform env) (arch env).

Definition getDesiredVersion (env : Env) : string :=
  let targetVersion :=
    JsString.trim (default "" (targetReleaseVersion (config env))) in
  if JsString.is_empty targetVersion
  then default "latest" (releaseVersion (config env))
  else targetVersion.

Definition fileExists (path : string) : M bool :=
  emit (Stat path) ;;
  let* w := get_world in
  ret (bool_decide (is_Some (fs w !! path))).

End Utilities.

(** ** [github.ts] *)

Module GitHub.
Import Json.

Definition RELEASES_URL : string :=
  "https://api.github.com/repos/JohnnyMorganz/StyLua/releases".
Definition RELEASES_URL_LATEST : string := RELEASES_URL +:+ "/latest".

(** [json.key] for the five keys [releaseFromJson] reads ([assets],
    [html_url], [tag_name], [browser_download_url], [name]).  None of
    them names a built-in property of an array, string, number or
    boolean, so only the fields of an object can answer; reading a
    property of [null] throws. *)
Definition member (v : json) (key : string) : result (option json) :=
  match v with
  | JNull => Throw TypeError
  | JObject fields => Ok (lookup_field key fields)
  | JBool _ | JNumber _ | JString _ | JArray _ => Ok None
  end.

(** [typeof x === "string" ? x : ""] *)
Definition string_or_empty (x : option json) : string :=
  match x with Some (JString s) => s | _ => "" end.

Definition assetFromJson (asset : json) : result Asset :=
  result_bind (member asset "browser_download_url") (fun url =>
  result_bind (member asset "name") (fun n =>
  Ok (mkAsset (string_or_empty url) (string_or_empty n)))).

Definition releaseFromJson (j : json) : result GitHubRelease :=
  if negb (String.eqb (typeof j) "object")
  then Ok (mkRelease [] "" "")
  else
    result_bind (member j "assets") (fun a =>
    result_bind (match a with
                 | Some (JArray elements) => result_map assetFromJson elements
                 | _ => Ok []
                 end) (fun assets =>
    result_bind (member j "html_url") (fun html_url =>
    result_bind (member j "tag_name") (fun tag_name =>
    Ok (mkRelease assets (string_or_empty html_url) (string_or_empty tag_name)))))).

(** [Credential.set] *)
Definition Credential_set (session : option AuthenticationSession) : Credential :=
  match session with
  | Some s => mkCredential (Some (id s)) (Some (accessToken s))
  | None => mkCredential None None
  end.

(** [Credential.authenticated]: [!!this._session] *)
Definition authenticated (c : Credential) : bool :=
  JsString.truthy_opt (_session c).

Section WithEnv.
Context (env : Env).

Definition fetchJson (url : string) (token : option string) : M json :=
  let header := if JsString.truthy_opt token then token else None in
  emit (HttpJson url header) ;;
  match http_json env url header with
  | Some j => ret j
  | None => reject FetchError
  end.

Definition authenticate (create : bool) : M bool :=
  emit (GetSession create) ;;
  match get_session env create with
  | SessionGranted s =>
      set_credential (Credential_set s) ;;
      let* w := get_world in
      ret (authenticated (credential w))
  | ConsentRefused =>
      set_credential (Credential_set None) ;;
      ret false
  | SessionFailure =>
      emit (ErrorMessage "Failed to authenticate with GitHub") ;;
      let* w := get_world in
      ret (authenticated (credential w))
  end.

Definition getAllReleases : M (list GitHubRelease) :=
  let* w := get_world in
  let* j := fetchJson RELEASES_URL (_token (credential w)) in
  match j with
  | JArray elements => lift (result_map releaseFromJson elements)
  | _ => ret []
  end.

(** [version.startsWith("v") ? version : `v${version}`] *)
Definition normalize (version : string) : string :=
  if JsString.startsWith version "v" then version else "v" +:+ version.

Definition getRelease (version : string) : M GitHubRelease :=
  if String.eqb version "latest" then
    let* w := get_world in
    let* j := fetchJson RELEASES_URL_LATEST (_token (credential w)) in
    lift (releaseFromJson j)
  else
    let version := normalize version in
    let* releases := getAllReleases in
    match List.find (fun release => JsString.startsWith (tagName release) version)
                    releases with
    | Some release => ret release
    | None =>
        reject (NoReleaseFoundError
                  ("No release version matches " +:+ version +:+ "."))
    end.

End WithEnv.

End GitHub.

(** ** [stylua.ts] and [download.ts] *)

Module Download.
Import Utilities GitHub.

(** [vscode.Uri.joinPath(directory, name).fsPath] *)
Definition joinPath (directory name : string) : string :=
  directory +:+ "/" +:+ name.

(** [styluaType === StyluaType.Standard ? standard : react] *)
Definition pick (styluaType : StyluaType) (paths : string * string) : string :=
  match styluaType with
  | Standard => fst paths
  | React => snd paths
  end.

(** [stylua.version = v] *)
Definition with_version (stylua : StyluaInfo) (v : option string) : StyluaInfo :=
  mkInfo (paths stylua) (resolveMode stylua) v.

(** [tag.startsWith("v") ? tag.slice(1) : tag] *)
Definition strip_v (tag : string) : string :=
  if JsString.startsWith tag "v" then JsString.slice 1 tag else tag.

Section WithEnv.
Context `{Semver} (env : Env).

(** [executeStylua(path, ["--version"], cwd)]: the file at [path] is
    run, and its stdout is the promise's value. *)
Definition executeStylua (path : string) (cwd : option string) : M string :=
  emit (Exec path cwd) ;;
  let* w := get_world in
  match fs w !! path with
  | Some binary =>
      match version_stdout env binary with
      | Some stdout => ret stdout
      | None => reject ExecError
      end
  | None => reject ExecError
  end.

Definition getStyluaVersion (path : string) (cwd : option string)
    : M (option string) :=
  try_catch
    (let* versionValue := executeStylua path cwd in
     let currentVersion := JsString.trim versionValue in
     ret (Some (JsString.slice (String.length "stylua ") currentVersion)))
    (fun _ => ret None).

(** The promise built for a matching asset (lines 223-236): the body
    behind the URL is unzipped, the entry named [outputFilename] is
    piped into [file], every other entry is drained.  The promise is
    fulfilled on [finish] and rejected on an [error] of the write; a
    failed request, or an archive without that entry, settles
    nothing. *)
Definition pipeEntry (url outputFilename file : string) : M unit :=
  emit (HttpArchive url) ;;
  match http_archive env url with
  | None => pending
  | Some entries =>
      match List.find (fun entry => String.eqb (fst entry) outputFilename)
                      entries with
      | None => pending
      | Some (_, bytes) =>
          match write_fault env file with
          | None => write_file file bytes
          | Some n => write_file file (JsString.take n bytes) ;; reject WriteError
          end
      end
  end.

(** The loop of [downloadStylua] (lines 217-238).  [createWriteStream]
    opens the file for writing at once, which creates or empties it. *)
Fixpoint downloadAssets (assetFilename : RegExp.regex) (outputFilename : string)
    (assets : list Asset) : M unit :=
  match assets with
  | [] => ret tt
  | asset :: rest =>
      if RegExp.test assetFilename (name asset) then
        let file := joinPath (storageDirectory env) outputFilename in
        emit (CreateWriteStream file) ;;
        write_file file "" ;;
        pipeEntry (downloadUrl asset) outputFilename file
      else downloadAssets assetFilename outputFilename rest
  end.

Definition downloadStylua (version : string) : M unit :=
  let* release := getRelease env version in
  let* assetFilename := lift (getAssetFilenamePattern env) in
  let* outputFilename := lift (getDownloadOutputFilename env) in
  downloadAssets assetFilename outputFilename (assets release).

Definition downloadStyluaVisual (version : string) : M unit :=
  emit (Progress ("Downloading StyLua (" +:+ version +:+ ")")) ;;
  downloadStylua version.

Definition findStylua (cwd : option string) : M StyluaInfo :=
  let settingPath := styluaPath (config env) in
  let reactSettingPath := styluaRoactPath (config env) in
  if JsString.truthy_opt settingPath then
    let settingPath := default "" settingPath in
    if JsString.truthy_opt reactSettingPath then
      let reactSettingPath := default "" reactSettingPath in
      emit (LogInfo ("Both Stylua paths explicitly configured: "
                     +:+ settingPath +:+ " & " +:+ reactSettingPath)) ;;
      ret (mkInfo (settingPath, reactSettingPath) Configuration None)
    else
      emit (LogInfo ("Stylua path explicitly configured: " +:+ settingPath)) ;;
      ret (mkInfo (settingPath, settingPath) Configuration None)
  else
    let* found :=
      if searchBinaryInPATH (config env) then
        emit (LogInfo "Searching for stylua on PATH") ;;
        emit Which ;;
        let resolvedPath := which_stylua env in
        if JsString.truthy_opt resolvedPath then
          let resolvedPath := default "" resolvedPath in
          emit (LogInfo ("Stylua found on PATH: " +:+ resolvedPath)) ;;
          let* v := getStyluaVersion resolvedPath cwd in
          if JsString.truthy_opt v
          then ret (Some (mkInfo (resolvedPath, resolvedPath) Path None))
          else
            emit (LogError "Stylua binary found on PATH failed to execute") ;;
            ret None
        else ret None
      else ret None in
    match found with
    | Some stylua => ret stylua
    | None =>
        emit (LogInfo "Falling back to bundled StyLua version") ;;
        let* outputFilename := lift (getDownloadOutputFilename env) in
        let downloadPath := joinPath (storageDirectory env) outputFilename in
        ret (mkInfo (downloadPath, downloadPath) Bundled None)
    end.

(** Lines 103-106: a missing bundled binary is acquired. *)
Definition acquireIfMissing (path : string) : M unit :=
  let* present := fileExists path in
  if negb present then
    emit (CreateDirectory (storageDirectory env)) ;;
    downloadStyluaVisual (getDesiredVersion env)
  else ret tt.

(** Lines 110-121: the installed version against the requested one. *)
Definition checkDesiredVersion (installed : option string) : M unit :=
  let desiredVersion := getDesiredVersion env in
  if JsString.truthy_opt installed && negb (String.eqb desiredVersion "latest") then
    let installed := default "" installed in
    match coerce desiredVersion, parse installed with
    | Some desiredVersionSemver, Some styluaVersionSemver =>
        if neq desiredVersionSemver styluaVersionSemver
        then emit (IncorrectVersionPrompt installed desiredVersion)
        else ret tt
    | _, _ => ret tt
    end
  else ret tt.

(** Lines 123-155: the installed version against the latest release.
    [retry] is the call [this.ensureStyluaExists(cwd)] of line 150;
    the value is what [ensureStyluaExists] returns. *)
Definition checkLatestVersion (retry : M (option StyluaInfo)) (stylua : StyluaInfo)
    : M (option StyluaInfo) :=
  if disableVersionCheck (config env) then
    emit HideUpdate ;;
    ret (Some stylua)
  else
    try_catch
      (let* latestRelease := getRelease env "latest" in
       (if bool_decide (version stylua = Some (strip_v (tagName latestRelease)))
        then emit HideUpdate
        else emit (UpdateAvailable latestRelease)) ;;
       ret (Some stylua))
      (fun error =>
         emit (WarningMessage
                 "Error checking the selected StyLua version, falling back to the currently installed version:"
                 error) ;;
         let* w := get_world in
         if negb (authenticated (credential w)) then
           emit (InformationMessage "Authenticating with GitHub can fix rate limits.") ;;
           if picks_authenticate env then
             let* granted := authenticate env true in
             if granted then retry else ret (Some stylua)
           else ret (Some stylua)
         else ret (Some stylua)).

(** [ensureStyluaExists]; [fuel] bounds the chain of retries of
    line 150, and a run that needs more stays pending. *)
Fixpoint ensureStyluaExists_fuel (fuel : nat) (cwd : option string)
    (styluaType : StyluaType) : M (option StyluaInfo) :=
  match fuel with
  | O => pending
  | S fuel' =>
      let* stylua := findStylua cwd in
      match resolveMode stylua with
      | Bundled =>
          let path := pick styluaType (paths stylua) in
          acquireIfMissing path ;;
          let* v := getStyluaVersion (pick styluaType (paths stylua)) cwd in
          let stylua := with_version stylua v in
          checkDesiredVersion v ;;
          checkLatestVersion (ensureStyluaExists_fuel fuel' cwd Standard) stylua
      | Configuration =>
          let path := pick styluaType (paths stylua) in
          let* present := fileExists path in
          if negb present then
            emit (ErrorMessage ("The path given for StyLua (" +:+ path
                                +:+ ") does not exist")) ;;
            ret None
          else
            let* v := getStyluaVersion (pick styluaType (paths stylua)) cwd in
            ret (Some (with_version stylua v))
      | Path =>
          let* v := getStyluaVersion (pick styluaType (paths stylua)) cwd in
          ret (Some (with_version stylua v))
      end
  end.

(** A retry happens only while no session is held, and only after one
    has been obtained, so two passes are all a run can make (see
    [ensureStyluaExists_two_passes]). *)
Definition ensureStyluaExists : option string -> StyluaType -> M (option StyluaInfo) :=
  ensureStyluaExists_fuel 2.

End WithEnv.

End Download.

(** ** Concrete surroundings for examples *)

(** The semver package on plain versions, for the examples: [parse] accepts
    exactly [MAJOR.MINOR.PATCH], [coerce] also accepts [MAJOR] and
    [MAJOR.MINOR] and fills in zeros, a numeric identifier has no leading
    zero, and two versions differ when a component differs.  Prefix
    letters, pre-release tags and build metadata are outside this
    fragment; the general statements below are about every [Semver]. *)
Module NumericSemver.

Definition digit_value (c : ascii) : option N :=
  if JsString.is_digit c then Some (N_of_ascii c - 48)%N else None.

Fixpoint digits_value (acc : N) (s : string) : option N :=
  match s with
  | EmptyString => Some acc
  | String c s' =>
      match digit_value c with
      | Some d => digits_value (10 * acc + d)%N s'
      | None => None
      end
  end.

Definition numeric (s : string) : option N :=
  match s with
  | EmptyString => None
  | String "0" (String _ _) => None
  | _ => digits_value 0%N s
  end.

Fixpoint split_dots (s : string) : list string :=
  match s with
  | EmptyString => [EmptyString]
  | String c s' =>
      match split_dots s' with
      | [] => [String c EmptyString]
      | x :: xs => if Ascii.eqb c "." then EmptyString :: x :: xs else String c x :: xs
      end
  end.

Definition triple (a b c : option N) : option (N * N * N) :=
  match a, b, c with
  | Some x, Some y, Some z => Some (x, y, z)
  | _, _, _ => None
  end.

Definition parse_plain (s : string) : option (N * N * N) :=
  match split_dots s with
  | [a; b; c] => triple (numeric a) (numeric b) (numeric c)
  | _ => None
  end.

Definition coerce_plain (s : string) : option (N * N * N) :=
  match split_dots s with
  | [a] => triple (numeric a) (Some 0%N) (Some 0%N)
  | [a; b] => triple (numeric a) (numeric b) (Some 0%N)
  | [a; b; c] => triple (numeric a) (numeric b) (numeric c)
  | _ => None
  end.

Definition neq_plain (x y : N * N * N) : bool := negb (bool_decide (x = y)).

Definition instance : Semver :=
  {| SemVer := N * N * N; coerce := coerce_plain; parse := parse_plain; neq := neq_plain |}.

End NumericSemver.

Module Examples.
Import Json.

Definition LF : string := String "010"%char EmptyString.

Definition config_with (primary secondary : option string) (searchPath : bool)
    (target : option string) (noCheck : bool) : Config :=
  mkConfig primary secondary searchPath target None noCheck.

(** Surroundings on Linux/x64 with storage under [/storage]; every
    binary prints [stdout], the release API answers [api], the archive
    behind every asset is [archive]. *)
Definition env_with (cfg : Config) (stdout : option string)
    (api : string -> option json) (archive : option (list (string * string))) : Env :=
  mkEnv cfg "linux" "x64" "/storage" None
        (fun _ => stdout) (fun url _ => api url) (fun _ => archive)
        (fun _ => None) (fun _ => SessionGranted None) false.

Definition no_api : string -> option json := fun _ => None.

(** A world whose only file is [path]. *)
Definition world_with (path contents : string) : World :=
  mkWorld {[ path := contents ]} (mkCredential None None) [].

Definition empty_world : World := mkWorld ∅ (mkCredential None None) [].

Definition release_json (tag : string) (asset_names : list string) : json :=
  JObject
    [("tag_name", JString tag);
     ("html_url", JString ("https://github.com/JohnnyMorganz/StyLua/releases/tag/" +:+ tag));
     ("assets",
      JArray (map (fun n => JObject [("name", JString n);
                                     ("browser_download_url",
                                      JString ("https://example.org/" +:+ n))])
                  asset_names))].

(** The release API with one latest release. *)
Definition latest_api (release : json) : string -> option json :=
  fun url => if String.eqb url GitHub.RELEASES_URL_LATEST then Some release else None.

(** The release API with a list of releases. *)
Definition list_api (releases : json) : string -> option json :=
  fun url => if String.eqb url GitHub.RELEASES_URL then Some releases else None.

Definition plain_config : Config := config_with None None false None false.

(** A binary that prints [stylua 2.1.0] and a newline. *)
Definition stylua_2_1_0 : Env :=
  env_with plain_config (Some ("stylua 2.1.0" +:+ LF)) no_api None.

Definition installed_world : World := world_with "/storage/stylua" "ELF".

(** Three releases, newest first. *)
Definition three_releases : Env :=
  env_with plain_config None
    (list_api (JArray [release_json "v2.1.0" []; release_json "v2.0.2" [];
                       release_json "v0.20.0" []]))
    None.

(** The latest release carries only the macOS artifact; we are on Linux. *)
Definition only_macos_asset : Env :=
  env_with plain_config None
    (latest_api (release_json "v2.1.0" ["stylua-macos-aarch64.zip"])) None.

Definition release_macos_only : GitHubRelease :=
  mkRelease [mkAsset "https://example.org/stylua-macos-aarch64.zip"
                     "stylua-macos-aarch64.zip"]
            "https://github.com/JohnnyMorganz/StyLua/releases/tag/v2.1.0" "v2.1.0".

(** The latest release carries the Linux artifact, but the request for
    it fails. *)
Definition download_fails : Env :=
  env_with plain_config None
    (latest_api (release_json "v2.1.0" ["stylua-linux-x86_64.zip"])) None.

(** The same release, with an archive that holds the binary. *)
Definition download_works : Env :=
  env_with plain_config None
    (latest_api (release_json "v2.1.0" ["stylua-linux-x86_64.zip"]))
    (Some [("LICENSE", "MPL-2.0"); ("stylua", "NEW BINARY")]).

Definition previous_world : World := world_with "/storage/stylua" "PREVIOUS BINARY".

(** Version 1.2.0 is requested. *)
Definition wants_1_2_0 : Env :=
  env_with (config_with None None false (Some "1.2.0") false) None no_api None.

(** The latest release is v2.0.0, and it is what is asked for. *)
Definition latest_is_2_0_0 : Env :=
  env_with plain_config None (latest_api (release_json "v2.0.0" [])) None.

Definition release_2_0_0 : GitHubRelease :=
  mkRelease [] "https://github.com/JohnnyMorganz/StyLua/releases/tag/v2.0.0" "v2.0.0".

Definition bundled (v : option string) : StyluaInfo :=
  mkInfo ("/storage/stylua", "/storage/stylua") Bundled v.

(** No explicit path, no search on the search path: the bundled tier.
    [target] is stylua.targetReleaseVersion, [printed] what the binary
    prints after ["stylua "], [api] the release API. *)
Definition bundled_env (target : option string) (printed : string)
    (api : string -> option json) (noCheck : bool) : Env :=
  env_with (config_with None None false target noCheck)
           (Some ("stylua " +:+ printed +:+ LF)) api None.

(** What a run of [ensureStyluaExists] on [installed_world] does, oldest
    event first. *)
Definition signals_of (env : Env) : list event :=
  new_events (@Download.ensureStyluaExists NumericSemver.instance env None Standard)
             installed_world.

(** An explicit path, version 1.2.0 requested, a binary that reports
    1.3.0, and a release API that answers. *)
Definition configured_1_3_0 : Env :=
  env_with (config_with (Some "/opt/stylua") None false (Some "1.2.0") false)
    (Some ("stylua 1.3.0" +:+ LF)) (latest_api (release_json "v2.0.0" [])) None.

Definition configured_world : World := world_with "/opt/stylua" "ELF".

End Examples.

(** ** Vocabulary for the statements *)

Module Observe.



(** Signals of the version reconciler. *)
Definition is_reconciliation_signal (e : event) : bool :=
  match e with
  | IncorrectVersionPrompt _ _ | UpdateAvailable _ | HideUpdate => true
  | _ => false
  end.

(** What the binary at [path] reports, if it runs. *)
Definition reported_version (env : Env) (w : World) (path : string) : option string :=
  match fs w !! path with
  | Some binary =>
      match version_stdout env binary with
      | Some stdout =>
          Some (JsString.slice (String.length "stylua ") (JsString.trim stdout))
      | None => None
      end
  | None => None
  end.

(** The platform fragments artifact names carry, per platform. *)
Definition platformFragments (platform : string) : list string :=
  if String.eqb platform "win32" then ["windows"; "win64"]
  else if String.eqb platform "linux" then ["linux"]
  else if String.eqb platform "darwin" then ["macos"]
  else [].




(** A version made of the characters the pattern allows in its version
    segment: digits, [w], [-] and [.]. *)
Definition version_chars (ver : string) : bool :=
  forallb (RegExp.class_matches Utilities.versionClass) (list_ascii_of_string ver).



(** The secondary path of a configured resolution: the configured
    secondary path when there is one, else the primary path [p]. *)
Definition configured_secondary (env : Env) (p : string) : string :=
  if JsString.truthy_opt (styluaRoactPath (config env))
  then default "" (styluaRoactPath (config env))
  else p.

(** A computation that leaves the credential alone. *)
Definition keeps_credential {A} (m : M A) : Prop :=
  forall w, credential (snd (m w)) = credential w.

(** The token [fetchJson] sends along. *)
Definition sent_token (w : World) : option string :=
  if JsString.truthy_opt (_token (credential w)) then _token (credential w) else None.

End Observe.

(** ** Sentences of the written specification that the code does not
       satisfy, word for word *)

Module Stated.
Import Download.

(** "A version string written with a literal prefix is parsed back to
    exactly that string." *)
Definition roundtrip_exact (s : string) : Prop :=
  forall env path cwd w binary,
    fs w !! path = Some binary ->
    version_stdout env binary = Some ("stylua " +:+ s) ->
    fst (getStyluaVersion env path cwd w) = Fulfilled (Some s).

(** "No error in this engine is permitted to corrupt the on-disk
    binary: writes target a fresh file and only replace the previous one
    on clean completion." *)
Definition previous_binary_survives_failure : Prop :=
  forall env version w outputFilename,
    Utilities.getDownloadOutputFilename env = Ok outputFilename ->
    fst (downloadStylua env version w) <> Fulfilled tt ->
    fs (snd (downloadStylua env version w))
       !! joinPath (storageDirectory env) outputFilename
    = fs w !! joinPath (storageDirectory env) outputFilename.

(** "When both the desired version and the installed binary's reported
    version coerce to semantic versions, a mismatch signal is raised if
    and only if the two differ." *)
Definition mismatch_iff_coerced_differ (S : Semver) : Prop :=
  forall env installed d i w,
    Utilities.getDesiredVersion env <> "latest" ->
    coerce (Utilities.getDesiredVersion env) = Some d ->
    coerce installed = Some i ->
    (In (IncorrectVersionPrompt installed (Utilities.getDesiredVersion env))
        (new_events (checkDesiredVersion env (Some installed)) w)
     <-> neq d i = true).

End Stated.

(* ===================================================================== *)
(** * Part I, continued: the rest of the code and its vocabulary          *)
(* ===================================================================== *)

(** ** More vocabulary for the statements *)

Module Shape.

(** Is every code unit of [s] white space? *)
Fixpoint all_white (s : string) : bool :=
  match s with
  | EmptyString => true
  | String c s' => JsString.is_white_space c && all_white s'
  end.

(** Does [s] begin with white space? *)
Definition startsWithWhiteSpace (s : string) : bool :=
  match s with
  | EmptyString => false
  | String c _ => JsString.is_white_space c
  end.




(** [stylua<version part>-<platform><architecture part>.zip], where each
    part is empty or a hyphen followed by its text. *)
Definition assetName (versionPart platformFragment architecturePart : string) : string :=
  "stylua" +:+ versionPart +:+ "-" +:+ platformFragment +:+ architecturePart +:+ ".zip".

Definition hyphenated (present : bool) (text : string) : string :=
  if present then "-" +:+ text else "".



End Shape.

Module Examples2.
Import Examples.

(** Nothing configured. *)
Definition plain_config_env : Env := env_with plain_config None no_api None.

(** A target version typed with blanks around it, and a stale deprecated
    setting. *)
Definition padded_target_env : Env :=
  env_with (mkConfig None None false (Some "  v2.1.0 ") (Some "v0.20.0") false)
           None no_api None.

(** The object the release API answers with when the rate limit is hit. *)
Definition rate_limit_answer : Json.json :=
  Json.JObject [("message", Json.JString "API rate limit exceeded");
                ("documentation_url", Json.JString "https://docs.github.com/rest")].

(** Every request is answered with [rate_limit_answer]. *)
Definition rate_limited : Env :=
  env_with plain_config None (fun _ => Some rate_limit_answer) None.

(** The user has signed out: no session is found, and something fails. *)
Definition session_lost : Env :=
  mkEnv plain_config "linux" "x64" "/storage" None
        (fun _ => None) (fun _ _ => None) (fun _ => None)
        (fun _ => None) (fun _ => SessionFailure) false.

(** A binary on the search path, and the search enabled. *)
Definition on_search_path : Env :=
  mkEnv (config_with None None true None false) "linux" "x64" "/storage"
        (Some "/usr/bin/stylua")
        (fun _ => Some ("stylua 2.1.0" +:+ LF)) (fun _ _ => None) (fun _ => None)
        (fun _ => None) (fun _ => SessionGranted None) false.

Definition search_path_world : World := world_with "/usr/bin/stylua" "ELF".

(** A world in which a session is held. *)
Definition signed_in_world : World :=
  mkWorld ∅ (mkCredential (Some "session-1") (Some "gho_token")) [].

End Examples2.

(** ** Release payloads as the release API writes them *)

Module Payload.
Import Json.

(** The keys [releaseFromJson] reads. *)
Definition read_keys : list string :=
  ["assets"; "html_url"; "tag_name"; "browser_download_url"; "name"].

(** Fields that [releaseFromJson] does not read. *)
Definition foreign (fields : list (string * json)) : bool :=
  forallb (fun field => negb (existsb (String.eqb (fst field)) read_keys)) fields.

(** An asset object: the fields of [a] after any [others]. *)
Definition asset_payload (others : list (string * json)) (a : Asset) : json :=
  JObject (others ++ [("name", JString (name a));
                      ("browser_download_url", JString (downloadUrl a))]).

(** A release object: the fields of [r] after any [others]. *)
Definition release_payload (others assetOthers : list (string * json))
    (r : GitHubRelease) : json :=
  JObject (others ++ [("tag_name", JString (tagName r));
                      ("html_url", JString (htmlUrl r));
                      ("assets", JArray (map (asset_payload assetOthers) (assets r)))]).

(** Is [j] an object whose [assets] are missing or not an array? *)
Definition object_without_assets (j : json) : bool :=
  match j with
  | JObject fields =>
      match lookup_field "assets" fields with
      | Some (JArray _) => false
      | _ => true
      end
  | _ => false
  end.

End Payload.

(** ** [github.ts]: the handler of session changes *)

Module Sessions.
Import GitHub.

(** The callback the constructor of [GitHub] registers with
    [authentication.onDidChangeSessions] (lines 88-93 of [github.ts]):
    for the provider [github] the credential is cleared and a session
    is looked up again without creating one. *)
Definition onDidChangeSessions (env : Env) (providerId : string) : M unit :=
  if String.eqb providerId "github" then
    set_credential (Credential_set None) ;;
    authenticate env false ;;
    ret tt
  else ret tt.

End Sessions.

(** ** Vocabulary for resolution *)

Module Tiers.
Import JsString Observe.

(** Is there a binary on the search path that reports a version?  This is
    what the second tier of [findStylua] asks. *)
Definition path_usable (env : Env) (w : World) : bool :=
  searchBinaryInPATH (config env)
  && truthy_opt (which_stylua env)
  && truthy_opt (reported_version env w (default "" (which_stylua env))).

(** Where the bundled binary lives, given its file name. *)
Definition bundledPath (env : Env) (outputFilename : string) : string :=
  Download.joinPath (storageDirectory env) outputFilename.

(** Events that stay on this machine and change nothing: log lines, the
    search path, running a binary, asking whether a file exists, an error
    message. *)
Definition is_local (e : event) : bool :=
  match e with
  | LogInfo _ | LogError _ | Which | Exec _ _ | Stat _ | ErrorMessage _ => true
  | _ => false
  end.

(** A run ends with a result and the files as they were; only a
    configured path can leave it without a binary. *)
Definition completes (env : Env) (w : World)
    (run : outcome (option StyluaInfo) * World) : Prop :=
  exists r, fst run = Fulfilled r /\ fs (snd run) = fs w /\
            (r = None -> truthy_opt (styluaPath (config env)) = true).

(** Requests over the network. *)
Definition is_request (e : event) : bool :=
  match e with
  | HttpJson _ _ | HttpArchive _ => true
  | _ => false
  end.

End Tiers.

(** ** [download.ts]: [getStyluaPath] *)

Module Downloader.
Import JsString Utilities Download.


End Downloader.

(** ** Vocabulary for acquisition *)

Module Acquisition.
Import GitHub.

(** The URL [getRelease] asks for a version. *)
Definition release_url (version : string) : string :=
  if String.eqb version "latest" then RELEASES_URL_LATEST else RELEASES_URL.

(** The bytes of the entry [outputFilename] in the archive behind [url],
    when the request succeeds and the archive has that entry. *)
Definition entry_bytes (env : Env) (url outputFilename : string) : option string :=
  match http_archive env url with
  | Some entries =>
      match List.find (fun entry => String.eqb (fst entry) outputFilename) entries with
      | Some (_, bytes) => Some bytes
      | None => None
      end
  | None => None
  end.

(** Does the archive behind [url] hold the entry [outputFilename]? *)
Definition delivers (env : Env) (url outputFilename : string) : bool :=
  bool_decide (is_Some (entry_bytes env url outputFilename)).

(** Events that tell the user that the release query failed. *)
Definition is_failure_notice (e : event) : bool :=
  match e with
  | WarningMessage _ _ | InformationMessage _ | GetSession _ => true
  | _ => false
  end.

(** Is [j] an object whose [tag_name] is missing or not a string? *)
Definition untagged (j : Json.json) : bool :=
  match j with
  | Json.JObject fields =>
      match Json.lookup_field "tag_name" fields with
      | Some (Json.JString _) => false
      | _ => true
      end
  | _ => false
  end.

End Acquisition.

(** ** More surroundings for examples *)

Module Examples3.
Import Examples Examples2.

(** The bundled binary prints [stylua 2.1.0], and every request is
    answered with [rate_limit_answer]. *)
Definition rate_limited_installed : Env :=
  env_with plain_config (Some ("stylua 2.1.0" +:+ LF)) (fun _ => Some rate_limit_answer)
           None.

(** The bundled binary prints [stylua 2.0.0]; the latest release is
    [v2.1.0]. *)
Definition behind_latest : Env :=
  bundled_env None "2.0.0" (latest_api (release_json "v2.1.0" [])) false.

Definition release_2_1_0 : GitHubRelease :=
  mkRelease [] "https://github.com/JohnnyMorganz/StyLua/releases/tag/v2.1.0" "v2.1.0".

End Examples3.

(** ** [extension.ts]: resolution at start-up and the command [stylua.reinstall] *)

Module Commands.
Import Utilities Download.

Section WithEnv.
Context `{Semver} (env : Env).

(** Lines 136-138 and 143-145: both variants are resolved, and the
    result for the standard one is what [styluaBinaryPath] and the status
    item get.  [cwd] is [cwdForVersionDetection]. *)
Definition resolveBoth (cwd : option string) : M (option StyluaInfo) :=
  let* styluaBinaryPath := ensureStyluaExists env cwd Standard in
  ensureStyluaExists env None React ;;
  ret styluaBinaryPath.

(** The handler of [stylua.reinstall] (lines 141-146). *)
Definition reinstall (cwd : option string) : M (option StyluaInfo) :=
  downloadStyluaVisual env (getDesiredVersion env) ;;
  resolveBoth cwd.

End WithEnv.

End Commands.
(** ** [stylua.ts]: [formatCode] *)

Module Formatter.
Import JsString.

(** The settings [formatCode] reads. *)
Record FormatSettings : Type := mkFormatSettings {
  configPath : option string;            (* stylua.configPath *)
  searchParentDirectories : bool;        (* is stylua.searchParentDirectories truthy? *)
  verify : bool                          (* is stylua.verify truthy? *)
}.

(** Truthiness of [number | undefined], for byte offsets: zero is falsy. *)
Definition truthy_number (n : option N) : bool :=
  match n with
  | Some 0%N | None => false
  | Some _ => true
  end.

(** [n.toString()] for a byte offset. *)
Definition toString (n : N) : string := pretty n.

(** [array.push(...items)] under a condition. *)
Definition push_if (condition : bool) (items array : list string) : list string :=
  if condition then array ++ items else array.

(** The arguments [formatCode] hands to [spawn] (lines 14-28). *)
Definition formatArguments (settings : FormatSettings) (filePath : option string)
    (startPosition finishPosition : option N) : list string :=
  let formatArguments := ["--respect-ignores"] in
  let formatArguments :=
    push_if (truthy_opt filePath) ["--stdin-filepath"; default "" filePath]
            formatArguments in
  let formatArguments :=
    push_if (truthy_number startPosition)
            ["--range-start"; toString (default 0%N startPosition)] formatArguments in
  let formatArguments :=
    push_if (truthy_number finishPosition)
            ["--range-end"; toString (default 0%N finishPosition)] formatArguments in
  let configurationPath := configPath settings in
  let formatArguments :=
    push_if (truthy_opt configurationPath
             && negb (String.eqb (trim (default "" configurationPath)) ""))
            ["--config-path"; default "" configurationPath] formatArguments in
  let formatArguments :=
    push_if (searchParentDirectories settings) ["--search-parent-directories"]
            formatArguments in
  let formatArguments := push_if (verify settings) ["--verify"] formatArguments in
  formatArguments ++ ["-"].

(** What the child process does, as far as [formatCode] listens: a chunk
    on stdout, the end of stdout, a chunk on stderr. *)
Inductive child_event : Type :=
| StdoutData (data : string)
| StdoutClose
| StderrData (data : string).

(** How the promise of [formatCode] is settled. *)
Inductive settlement : Type :=
| Resolved (output : string)
| RejectedWith (reason : string).

(** The variable [output] and the state of the promise. *)
Record formatting : Type := mkFormatting {
  output : string;
  settled : option settlement
}.

(** [resolve] and [reject] do nothing once the promise is settled. *)
Definition settle (s : settlement) (f : formatting) : formatting :=
  match settled f with
  | Some _ => f
  | None => mkFormatting (output f) (Some s)
  end.

(** The three listeners (lines 35-37). *)
Definition listen (f : formatting) (e : child_event) : formatting :=
  match e with
  | StdoutData data => mkFormatting (output f +:+ data) (settled f)
  | StdoutClose => settle (Resolved (output f)) f
  | StderrData data => settle (RejectedWith data) f
  end.

(** The promise of [formatCode] after the child has emitted [events];
    [None] while it is pending. *)
Definition formatCode (events : list child_event) : option settlement :=
  settled (fold_left listen events (mkFormatting "" None)).

Definition is_stdout_data (e : child_event) : bool :=
  match e with StdoutData _ => true | _ => false end.

(** The chunks of stdout among [events], joined. *)
Fixpoint stdout_of (events : list child_event) : string :=
  match events with
  | [] => ""
  | StdoutData data :: rest => data +:+ stdout_of rest
  | _ :: rest => stdout_of rest
  end.

End Formatter.

(** ** [extension.ts]: which files count as React files *)

Module React.
Import RegExp Json.

Definition REACT_KEYWORDS_SET : list string :=
  ["createElement"; "createBinding"; "createContext"; "createFragment";
   "joinBindings"; "forwardRef"; "createMutableSource"; "createRef";
   "useBinding"; "useCallback"; "useContext"; "useDebugValue"; "useEffect";
   "useImperativeHandle"; "useLayoutEffect"; "useMemo"; "useMutableSource";
   "useReducer"; "useRef"; "useState"; "PureComponent"; "oneChild";
   "isValidElement"].

(** [[...new Set(values)]]: each value once, in the order of its first
    occurrence. *)
Definition Set_of (values : list string) : list string :=
  fold_left (fun set value =>
               if existsb (String.eqb value) set then set else set ++ [value])
            values [].

(** The pattern whose text is [words.join("|")], for words without
    characters that mean something in a pattern. *)
Fixpoint alternation (words : list string) : regex :=
  match words with
  | [] => Empty
  | [word] => lit word
  | word :: rest => Alt (lit word) (alternation rest)
  end.

Definition baseReactFileRegExp : regex := alternation REACT_KEYWORDS_SET.

Definition isStringArray (value : json) : bool :=
  match value with
  | JArray elements =>
      forallb (fun element => match element with JString _ => true | _ => false end)
              elements
  | _ => false
  end.

(** The strings of an array of strings. *)
Definition strings_of (value : json) : list string :=
  match value with
  | JArray elements =>
      omap (fun element => match element with JString s => Some s | _ => None end)
           elements
  | _ => []
  end.

(** The words [getReactFileRegExp] joins with ["|"] into its pattern
    (lines 115-120); [reactKeywords] is the setting [stylua.reactKeywords],
    if set.  An array is truthy, and nothing else passes [isStringArray]. *)
Definition reactKeywordList (reactKeywords : option json) : list string :=
  match reactKeywords with
  | Some value =>
      if isStringArray value
      then Set_of (REACT_KEYWORDS_SET ++ strings_of value)
      else REACT_KEYWORDS_SET
  | None => REACT_KEYWORDS_SET
  end.

(** The text handed to [new RegExp]. *)
Definition reactFileRegExpSource (reactKeywords : option json) : string :=
  String.concat "|" (reactKeywordList reactKeywords).

End React.

(* ===================================================================== *)
(** * Part II: properties                                                 *)
(* ===================================================================== *)

Module RegExpFacts.
Import RegExp.

Lemma lang_seq_nil r1 r2 : lang (Seq r1 r2) [] -> lang r1 [] /\ lang r2 [].
Proof.
  intros H. inversion H as [| | | |? ? w1 w2 H1 H2 Hr Hw| | | | | | | | |]; subst.
  apply app_eq_nil in Hw as [-> ->]. by split.
Qed.

Lemma lang_plus_nil r : lang (Plus r) [] -> lang r [].
Proof.
  intros H. remember (Plus r) as p eqn:Hp. remember (@nil ascii) as w eqn:Hw.
  induction H; try discriminate; inversion Hp; subst; [done|].
  apply app_eq_nil in Hw as [-> ->]. done.
Qed.

Lemma nullable_lang r : nullable r = true <-> lang r [].
Proof.
  induction r; simpl; split; intros H;
    try discriminate; try (by constructor); try (by inversion H).
  - apply andb_true_iff in H as [H1 H2].
    change (@nil ascii) with (@nil ascii ++ []). constructor; tauto.
  - apply lang_seq_nil in H. apply andb_true_iff; tauto.
  - apply orb_true_iff in H as [H|H]; [apply L_AltL|apply L_AltR]; tauto.
  - apply orb_true_iff. inversion H; subst; tauto.
  - constructor; tauto.
  - inversion H; subst; tauto.
  - apply L_PlusOne; tauto.
  - apply lang_plus_nil in H. tauto.
Qed.

Lemma plus_star r w : lang (Plus r) w -> lang (Star r) w.
Proof.
  intros H. remember (Plus r) as p eqn:Hp.
  induction H; try discriminate; inversion Hp; subst.
  - rewrite <- (app_nil_r w). apply L_StarMore; [done|constructor].
  - apply L_StarMore; auto.
Qed.

Lemma star_plus r w1 w2 :
  lang r w1 -> lang (Star r) w2 -> lang (Plus r) (w1 ++ w2).
Proof.
  intros H1 H2. revert w1 H1.
  remember (Star r) as p eqn:Hp.
  induction H2; try discriminate; inversion Hp; subst; intros u Hu.
  - rewrite app_nil_r. by apply L_PlusOne.
  - apply L_PlusMore; auto.
Qed.

Lemma star_cons_inv r c w :
  lang (Star r) (c :: w) ->
  exists w1 w2, w = w1 ++ w2 /\ lang r (c :: w1) /\ lang (Star r) w2.
Proof.
  intros H. remember (Star r) as p eqn:Hp. remember (c :: w) as cw eqn:Hw.
  induction H; try discriminate; inversion Hp; subst.
  destruct w1 as [|a w1]; simpl in Hw.
  - auto.
  - inversion Hw; subst. eauto.
Qed.

Lemma plus_cons_inv r c w :
  lang (Plus r) (c :: w) ->
  exists w1 w2, w = w1 ++ w2 /\ lang r (c :: w1) /\ lang (Star r) w2.
Proof. intros H. by apply star_cons_inv, plus_star. Qed.

Lemma deriv_lang r c w : lang (deriv c r) w <-> lang r (c :: w).
Proof.
  revert w. induction r; intros w; simpl.
  - split; intros H; inversion H.
  - split; intros H; inversion H.
  - destruct (Ascii.eqb_spec c c0) as [->|Hne]; split; intros H; inversion H; subst.
    + constructor.
    + constructor.
    + done.
  - destruct (JsString.is_line_terminator c) eqn:Hc; split; intros H;
      inversion H; subst.
    + congruence.
    + by constructor.
    + constructor.
  - destruct (class_matches items c) eqn:Hc; split; intros H;
      inversion H; subst.
    + by constructor.
    + constructor.
    + congruence.
  - destruct (nullable r1) eqn:Hn.
    + split; intros H.
      * inversion H as [| | | | |? ? ? H1|? ? ? H1| | | | | | |]; subst.
        -- inversion H1; subst.
           change (c :: w1 ++ w2) with ((c :: w1) ++ w2).
           constructor; [by apply IHr1|done].
        -- change (c :: w) with ([] ++ c :: w).
           constructor; [by apply nullable_lang|by apply IHr2].
      * inversion H as [| | | |? ? w1 w2 H1 H2 Hr Hw| | | | | | | | |]; subst.
        destruct w1 as [|a w1]; simpl in Hw; subst.
        -- apply L_AltR. by apply IHr2.
        -- inversion Hw; subst. apply L_AltL. constructor; [by apply IHr1|done].
    + split; intros H.
      * inversion H; subst.
        change (c :: w1 ++ w2) with ((c :: w1) ++ w2).
        constructor; [by apply IHr1|done].
      * inversion H as [| | | |? ? w1 w2 H1 H2 Hr Hw| | | | | | | | |]; subst.
        destruct w1 as [|a w1]; simpl in Hw; subst.
        -- apply nullable_lang in H1. congruence.
        -- inversion Hw; subst. constructor; [by apply IHr1|done].
  - split; intros H; inversion H; subst.
    + apply L_AltL. by apply IHr1.
    + apply L_AltR. by apply IHr2.
    + apply L_AltL. by apply IHr1.
    + apply L_AltR. by apply IHr2.
  - split; intros H.
    + constructor. by apply IHr.
    + inversion H; subst. by apply IHr.
  - split; intros H.
    + constructor. by apply IHr.
    + inversion H; subst. by apply IHr.
  - split; intros H.
    + inversion H; subst.
      change (c :: w1 ++ w2) with ((c :: w1) ++ w2).
      apply star_plus; [by apply IHr|done].
    + apply plus_cons_inv in H as (w1 & w2 & -> & H1 & H2).
      constructor; [by apply IHr|done].
  - split; intros H.
    + inversion H; subst.
      change (c :: w1 ++ w2) with ((c :: w1) ++ w2).
      apply L_StarMore; [by apply IHr|done].
    + apply star_cons_inv in H as (w1 & w2 & -> & H1 & H2).
      constructor; [by apply IHr|done].
Qed.

(** [matches_prefix] finds exactly the words with a prefix in the
    language. *)
Lemma matches_prefix_spec r w :
  matches_prefix r w = true <-> exists m post, w = m ++ post /\ lang r m.
Proof.
  revert r. induction w as [|c w IH]; intros r; simpl.
  - rewrite orb_false_r, nullable_lang. split.
    + intros H. by exists [], [].
    + intros (m & post & Hw & H). symmetry in Hw.
      apply app_eq_nil in Hw as [-> ->]. done.
  - rewrite orb_true_iff, nullable_lang, IH. split.
    + intros [H|(m & post & -> & H)].
      * by exists [], (c :: w).
      * exists (c :: m), post. split; [done|]. by apply deriv_lang.
    + intros (m & post & Hw & H). destruct m as [|a m]; simpl in Hw.
      * by left.
      * inversion Hw; subst. right. exists m, post.
        split; [done|]. by apply deriv_lang.
Qed.

(** [search] finds exactly the words with a factor in the language. *)
Lemma search_spec r w :
  search r w = true <->
  exists pre m post, w = pre ++ m ++ post /\ lang r m.
Proof.
  induction w as [|c w IH]; cbn [search].
  - rewrite orb_false_r, matches_prefix_spec. split.
    + intros (m & post & Hw & H). by exists [], m, post.
    + intros (pre & m & post & Hw & H). symmetry in Hw.
      apply app_eq_nil in Hw as [-> Hw]. eauto.
  - rewrite orb_true_iff, matches_prefix_spec, IH. split.
    + intros [(m & post & Hw & H)|(pre & m & post & -> & H)].
      * by exists [], m, post.
      * by exists (c :: pre), m, post.
    + intros (pre & m & post & Hw & H). destruct pre as [|a pre]; simpl in Hw.
      * left. eauto.
      * inversion Hw; subst. right. eauto.
Qed.

End RegExpFacts.

(** ** Reasoning about runs *)

Module Runs.

Lemma new_events_app {A} (m : M A) (w : World) (l : list event) :
  trace (snd (m w)) = l ++ trace w -> new_events m w = rev l.
Proof.
  intros E. unfold new_events. rewrite E, length_app.
  replace (length l + length (trace w) - length (trace w)) with (length l) by lia.
  by rewrite take_app_length.
Qed.

End Runs.
Import Runs.

(** ** The version a binary reports *)

Module VersionFacts.
Import JsString Download.

Lemma trimEnd_fixed s : endsWithWhiteSpace s = false -> trimEnd s = s.
Proof.
  induction s as [|c s IH]; [done|]. cbn [endsWithWhiteSpace trimEnd].
  destruct s as [|c' s].
  - intros ->. done.
  - intros Hs. rewrite (IH Hs). cbn [is_empty]. by rewrite andb_false_r.
Qed.

Lemma trim_stylua_prefix s :
  slice (String.length "stylua ") (trim ("stylua " +:+ s)) = trimEnd s.
Proof.
  change ("stylua " +:+ s) with
    (String "s" (String "t" (String "y" (String "l" (String "u"
      (String "a" (String " " s))))))).
  unfold trim. cbn. by destruct (trimEnd s).
Qed.

Lemma getStyluaVersion_stdout env path cwd w binary stdout :
  fs w !! path = Some binary ->
  version_stdout env binary = Some stdout ->
  getStyluaVersion env path cwd w =
    (Fulfilled (Some (slice (String.length "stylua ") (trim stdout))),
     mkWorld (fs w) (credential w) (Exec path cwd :: trace w)).
Proof.
  intros Hfs Hout.
  unfold getStyluaVersion, try_catch, executeStylua, bind, emit, get_world, ret.
  cbn. by rewrite Hfs, Hout.
Qed.

(** C9, as the code has it: the prefix is stripped together with the
    white space around the output, so a binary that prints ["stylua "]
    followed by [s] is reported as [s] without its trailing white space,
    and as exactly [s] when [s] does not end in white space. *)
Theorem getStyluaVersion_strips_prefix env path cwd w binary s :
  fs w !! path = Some binary ->
  version_stdout env binary = Some ("stylua " +:+ s) ->
  fst (getStyluaVersion env path cwd w) = Fulfilled (Some (trimEnd s)) /\
  (endsWithWhiteSpace s = false ->
   fst (getStyluaVersion env path cwd w) = Fulfilled (Some s)).
Proof.
  intros Hfs Hout.
  rewrite (getStyluaVersion_stdout _ _ _ _ _ _ Hfs Hout), trim_stylua_prefix.
  split; [done|]. intros Hs. cbn. by rewrite (trimEnd_fixed _ Hs).
Qed.

(** C9 fails for a version followed by the newline a binary prints. *)
Lemma roundtrip_fails_on_trailing_newline :
  ~ Stated.roundtrip_exact ("1.2.3" +:+ Examples.LF).
Proof.
  intros Hclaim.
  specialize (Hclaim
    (Examples.env_with Examples.plain_config
       (Some ("stylua 1.2.3" +:+ Examples.LF)) Examples.no_api None)
    "/storage/stylua" None Examples.installed_world "ELF" eq_refl eq_refl).
  vm_compute in Hclaim. discriminate.
Qed.

Lemma getStyluaVersion_strips_prefix_witness :
  fs Examples.installed_world !! "/storage/stylua" = Some "ELF" /\
  version_stdout Examples.stylua_2_1_0 "ELF" = Some ("stylua " +:+ "2.1.0" +:+ Examples.LF) /\
  fst (getStyluaVersion Examples.stylua_2_1_0 "/storage/stylua" None
         Examples.installed_world) = Fulfilled (Some "2.1.0") /\
  (JsString.endsWithWhiteSpace ("2.1.0" +:+ Examples.LF) = false ->
   fst (getStyluaVersion Examples.stylua_2_1_0 "/storage/stylua" None
          Examples.installed_world) = Fulfilled (Some ("2.1.0" +:+ Examples.LF))).
Proof.
  split; [reflexivity|]. split; [reflexivity|].
  apply (getStyluaVersion_strips_prefix Examples.stylua_2_1_0 "/storage/stylua" None
           Examples.installed_world "ELF" ("2.1.0" +:+ Examples.LF)); reflexivity.
Defined.

End VersionFacts.

(** ** The release client *)

Module GitHubFacts.
Import JsString Json GitHub.

Lemma normalize_prefixed version : startsWith (normalize version) "v" = true.
Proof.
  unfold normalize. destruct (startsWith version "v") eqn:E; [done|].
  change ("v" +:+ version) with (String "v" version).
  unfold startsWith. by destruct version.
Qed.

Lemma normalize_cases version :
  (startsWith version "v" = true /\ normalize version = version) \/
  (startsWith version "v" = false /\ normalize version = "v" +:+ version).
Proof. unfold normalize. destruct (startsWith version "v"); auto. Qed.

(** [List.find] returns the first element that passes the test. *)
Lemma find_first {A} (f : A -> bool) (l : list A) :
  match List.find f l with
  | Some x => exists pre post,
      l = pre ++ x :: post /\ f x = true /\ Forall (fun y => f y = false) pre
  | None => Forall (fun y => f y = false) l
  end.
Proof.
  induction l as [|a l IH]; cbn; [constructor|].
  destruct (f a) eqn:Ha.
  - exists [], l. auto.
  - destruct (List.find f l) as [x|].
    + destruct IH as (pre & post & -> & Hx & Hpre).
      exists (a :: pre), post. auto.
    + by constructor.
Qed.

(** C7: for a version other than ["latest"], [getRelease] looks for the
    version with a leading ["v"], which it adds only when absent; given
    the list [getAllReleases] delivers, it returns the first release
    whose tag starts with that string, and is rejected with
    [NoReleaseFoundError] when no tag does. *)
Theorem getRelease_scans_for_normalized_tag env version w releases w' :
  version <> "latest" ->
  getAllReleases env w = (Fulfilled releases, w') ->
  let wanted := normalize version in
  startsWith wanted "v" = true /\
  (startsWith version "v" = true -> wanted = version) /\
  (startsWith version "v" = false -> wanted = "v" +:+ version) /\
  ((exists release pre post,
      getRelease env version w = (Fulfilled release, w') /\
      releases = pre ++ release :: post /\
      startsWith (tagName release) wanted = true /\
      Forall (fun r => startsWith (tagName r) wanted = false) pre)
   \/
   (getRelease env version w =
      (Rejected (NoReleaseFoundError
                   ("No release version matches " +:+ wanted +:+ ".")), w') /\
    Forall (fun r => startsWith (tagName r) wanted = false) releases)).
Proof.
  intros Hv Hall wanted. split; [apply normalize_prefixed|].
  split; [|split].
  - intros E. subst wanted. unfold normalize. by rewrite E.
  - intros E. subst wanted. unfold normalize. by rewrite E.
  - unfold getRelease. apply String.eqb_neq in Hv. rewrite Hv.
    unfold bind. rewrite Hall. fold wanted.
    pose proof (find_first (fun r => startsWith (tagName r) wanted) releases) as Hf.
    destruct (List.find _ releases) as [release|].
    + destruct Hf as (pre & post & E & Hr & Hpre).
      left. exists release, pre, post. auto.
    + right. auto.
Qed.

Lemma getRelease_scans_for_normalized_tag_witness :
  "2.0" <> "latest" /\
  fst (getAllReleases Examples.three_releases Examples.empty_world)
    = Fulfilled [mkRelease [] "https://github.com/JohnnyMorganz/StyLua/releases/tag/v2.1.0" "v2.1.0";
                 mkRelease [] "https://github.com/JohnnyMorganz/StyLua/releases/tag/v2.0.2" "v2.0.2";
                 mkRelease [] "https://github.com/JohnnyMorganz/StyLua/releases/tag/v0.20.0" "v0.20.0"] /\
  normalize "2.0" = "v2.0" /\
  fst (getRelease Examples.three_releases "2.0" Examples.empty_world)
    = Fulfilled (mkRelease [] "https://github.com/JohnnyMorganz/StyLua/releases/tag/v2.0.2" "v2.0.2").
Proof.
  split; [discriminate|]. split; [reflexivity|].
  pose proof (getRelease_scans_for_normalized_tag Examples.three_releases "2.0"
                Examples.empty_world _ _ ltac:(discriminate) eq_refl) as Hspec.
  cbv zeta in Hspec. destruct Hspec as (_ & _ & Hadd & _).
  split; [exact (Hadd eq_refl)|reflexivity].
Defined.

End GitHubFacts.

(** ** Decoding release payloads *)

Module JsonFacts.
Import Json GitHub.

(** C2 does not hold of the code: [typeof null] is ["object"], so a
    [null] payload, and a [null] among the assets, reach a property
    access and throw; a list of releases with a [null] element is
    rejected as a whole. *)
Theorem releaseFromJson_null_throws :
  releaseFromJson JNull = Throw TypeError /\
  releaseFromJson (JObject [("tag_name", JString "v2.1.0");
                            ("assets", JArray [JNull])]) = Throw TypeError /\
  fst (getAllReleases
         (Examples.env_with Examples.plain_config None
            (Examples.list_api (JArray [JNull])) None)
         Examples.empty_world) = Rejected TypeError.
Proof. repeat split; reflexivity. Qed.

Lemma result_map_ok {A B} (f : A -> result B) (l : list A) :
  Forall (fun x => exists y, f x = Ok y) l -> exists ys, result_map f l = Ok ys.
Proof.
  induction 1 as [|x l [y Hy] _ [ys Hys]]; cbn.
  - by exists [].
  - rewrite Hy, Hys. cbn. by eexists.
Qed.

Lemma assetFromJson_ok asset : asset <> JNull -> exists a, assetFromJson asset = Ok a.
Proof. destruct asset; try done; intros _; cbn; by eexists. Qed.

(** Away from [null], decoding is total, with the documented defaults. *)
Lemma releaseFromJson_ok j :
  j <> JNull ->
  (forall elements, member j "assets" = Ok (Some (JArray elements)) ->
                    Forall (fun e => e <> JNull) elements) ->
  exists release, releaseFromJson j = Ok release.
Proof.
  intros Hj Hassets. destruct j; try done; try (cbn; by eexists).
  unfold releaseFromJson. cbn.
  destruct (lookup_field "assets" fields) as [[| | | |elements|]|] eqn:E;
    cbn; try by eexists.
  destruct (result_map_ok assetFromJson elements) as [ys ->].
  - eapply Forall_impl; [apply Hassets; cbn; by rewrite E|].
    intros. by apply assetFromJson_ok.
  - cbn. by eexists.
Qed.

(** A payload that is not an array yields no release. *)
Lemma getAllReleases_not_array env w j :
  http_json env RELEASES_URL
    (if JsString.truthy_opt (_token (credential w)) then _token (credential w) else None)
    = Some j ->
  (forall elements, j <> JArray elements) ->
  fst (getAllReleases env w) = Fulfilled [].
Proof.
  intros Hj Harr. unfold getAllReleases, fetchJson, bind, emit, get_world, ret.
  cbn. rewrite Hj. destruct j; try done. by destruct (Harr elements).
Qed.

End JsonFacts.

(** ** Acquisition *)

Module DownloadFacts.
Import Utilities GitHub Download.

Ltac run :=
  repeat (unfold bind, ret, reject, pending, emit, get_world, lift, try_catch,
            set_credential, write_file in *;
          cbn [fst snd fs trace credential] in *;
          try case_match; simplify_eq/=).

Lemma getAllReleases_fs env w : fs (snd (getAllReleases env w)) = fs w.
Proof. unfold getAllReleases, fetchJson. by run. Qed.

Lemma getRelease_fs env version w : fs (snd (getRelease env version w)) = fs w.
Proof.
  unfold getRelease. destruct (String.eqb version "latest").
  - unfold fetchJson. by run.
  - pose proof (getAllReleases_fs env w) as Hfs. unfold bind.
    destruct (getAllReleases env w) as [[releases|e|] w']; cbn in *; try done.
    by run.
Qed.

Lemma pattern_then_filename env pattern :
  getAssetFilenamePattern env = Ok pattern ->
  exists outputFilename, getDownloadOutputFilename env = Ok outputFilename.
Proof.
  unfold getAssetFilenamePattern, getAssetFilenamePatternForPlatform,
    platformPattern, getDownloadOutputFilename, getDownloadOutputFilenameFor.
  destruct (String.eqb (platform env) "win32"); [by eexists|].
  destruct (String.eqb (platform env) "linux"); [by eexists|].
  destruct (String.eqb (platform env) "darwin"); [by eexists|done].
Qed.

Lemma downloadAssets_no_match env pattern outputFilename assets w :
  Forall (fun a => RegExp.test pattern (name a) = false) assets ->
  downloadAssets env pattern outputFilename assets w = (Fulfilled tt, w).
Proof.
  induction 1 as [|a l Ha _ IH]; cbn; [done|]. by rewrite Ha.
Qed.

(** C10: when no asset name of the release matches the pattern,
    [downloadStylua] is fulfilled, and the files are what they were. *)
Theorem downloadStylua_no_match_fulfilled env version w release w1 pattern :
  getRelease env version w = (Fulfilled release, w1) ->
  getAssetFilenamePattern env = Ok pattern ->
  Forall (fun a => RegExp.test pattern (name a) = false) (assets release) ->
  downloadStylua env version w = (Fulfilled tt, w1) /\ fs w1 = fs w.
Proof.
  intros Hrel Hpat Hnone.
  destruct (pattern_then_filename env pattern Hpat) as [outputFilename Hout].
  split.
  - unfold downloadStylua, bind. rewrite Hrel, Hpat, Hout. cbn.
    by apply downloadAssets_no_match.
  - pose proof (getRelease_fs env version w) as Hfs. by rewrite Hrel in Hfs.
Qed.

Lemma downloadStylua_no_match_fulfilled_witness :
  getRelease Examples.only_macos_asset "latest" Examples.previous_world
    = (Fulfilled Examples.release_macos_only,
       mkWorld (fs Examples.previous_world) (credential Examples.previous_world)
               [HttpJson RELEASES_URL_LATEST None]) /\
  getAssetFilenamePattern Examples.only_macos_asset
    = getAssetFilenamePatternForPlatform "linux" "x64" /\
  (exists pattern,
     getAssetFilenamePatternForPlatform "linux" "x64" = Ok pattern /\
     Forall (fun a => RegExp.test pattern (name a) = false)
            (assets Examples.release_macos_only)) /\
  downloadStylua Examples.only_macos_asset "latest" Examples.previous_world
    = (Fulfilled tt,
       mkWorld (fs Examples.previous_world) (credential Examples.previous_world)
               [HttpJson RELEASES_URL_LATEST None]) /\
  fs Examples.previous_world !! "/storage/stylua" = Some "PREVIOUS BINARY".
Proof.
  split; [reflexivity|]. split; [reflexivity|].
  split; [eexists; split; [reflexivity|repeat constructor]|].
  split; [|reflexivity].
  refine (proj1 (downloadStylua_no_match_fulfilled Examples.only_macos_asset "latest"
                   Examples.previous_world Examples.release_macos_only _ _
                   eq_refl eq_refl _)).
  repeat constructor.
Defined.

(** C1 does not hold of the code: with no matching asset the loop ends
    and the promise is fulfilled; nothing is rejected. *)
Theorem downloadStylua_no_match_is_not_rejected :
  fst (downloadStylua Examples.only_macos_asset "latest" Examples.empty_world)
    = Fulfilled tt.
Proof. reflexivity. Qed.

Lemma downloadAssets_first_match env pattern outputFilename assets w :
  downloadAssets env pattern outputFilename assets w =
    match List.find (fun a => RegExp.test pattern (name a)) assets with
    | None => (Fulfilled tt, w)
    | Some asset =>
        let file := joinPath (storageDirectory env) outputFilename in
        pipeEntry env (downloadUrl asset) outputFilename file
          (mkWorld (<[file := ""]> (fs w)) (credential w)
                   (CreateWriteStream file :: trace w))
    end.
Proof.
  induction assets as [|a l IH]; cbn; [done|].
  destruct (RegExp.test pattern (name a)); [done|apply IH].
Qed.

(** C4, as the code has it: the run writes in place.  With [asset] the
    first asset whose name matches, the file at the storage path is
    emptied before the download starts; afterwards it holds the
    extracted bytes if the write completes (fulfilled), the bytes written
    so far if the write fails (rejected), and nothing if the request
    fails or the archive lacks the entry (pending).  No other file
    changes, and without a matching asset none does. *)
Theorem downloadStylua_writes_in_place env version w release w1 pattern outputFilename :
  getRelease env version w = (Fulfilled release, w1) ->
  getAssetFilenamePattern env = Ok pattern ->
  getDownloadOutputFilename env = Ok outputFilename ->
  let file := joinPath (storageDirectory env) outputFilename in
  let run := downloadStylua env version w in
  match List.find (fun a => RegExp.test pattern (name a)) (assets release) with
  | None => fst run = Fulfilled tt /\ fs (snd run) = fs w
  | Some asset =>
      match http_archive env (downloadUrl asset) with
      | None => fst run = Pending /\ fs (snd run) = <[file := ""]> (fs w)
      | Some entries =>
          match List.find (fun entry => String.eqb (fst entry) outputFilename)
                          entries with
          | None => fst run = Pending /\ fs (snd run) = <[file := ""]> (fs w)
          | Some (_, bytes) =>
              match write_fault env file with
              | None =>
                  fst run = Fulfilled tt /\ fs (snd run) = <[file := bytes]> (fs w)
              | Some n =>
                  fst run = Rejected WriteError /\
                  fs (snd run) = <[file := JsString.take n bytes]> (fs w)
              end
          end
      end
  end.
Proof.
  intros Hrel Hpat Hout file run.
  pose proof (getRelease_fs env version w) as Hfs. rewrite Hrel in Hfs. cbn in Hfs.
  subst run. unfold downloadStylua, bind. rewrite Hrel, Hpat, Hout. cbn.
  rewrite downloadAssets_first_match. fold file.
  destruct (List.find _ (assets release)) as [asset|]; [|cbn; by rewrite Hfs].
  cbn. unfold pipeEntry, bind, emit, pending. cbn.
  destruct (http_archive env (downloadUrl asset)) as [entries|]; cbn;
    [|by rewrite Hfs].
  destruct (List.find _ entries) as [[entry bytes]|]; cbn; [|by rewrite Hfs].
  fold file. destruct (write_fault env file) as [n|];
    unfold write_file, reject; cbn; rewrite Hfs; by rewrite insert_insert_eq.
Qed.

Lemma downloadStylua_writes_in_place_witness :
  getAssetFilenamePattern Examples.download_works
    = getAssetFilenamePatternForPlatform "linux" "x64" /\
  getDownloadOutputFilename Examples.download_works = Ok "stylua" /\
  fst (downloadStylua Examples.download_works "latest" Examples.previous_world)
    = Fulfilled tt /\
  fs (snd (downloadStylua Examples.download_works "latest" Examples.previous_world))
    = <[ "/storage/stylua" := "NEW BINARY" ]> (fs Examples.previous_world).
Proof.
  split; [reflexivity|]. split; [reflexivity|].
  exact (downloadStylua_writes_in_place Examples.download_works "latest"
           Examples.previous_world _ _ _ "stylua" eq_refl eq_refl eq_refl).
Defined.

(** C4 fails: the request for the archive fails, the promise stays
    pending, and the previous binary is gone. *)
Lemma failed_download_empties_previous_binary :
  ~ Stated.previous_binary_survives_failure.
Proof.
  intros Hclaim.
  specialize (Hclaim Examples.download_fails "latest" Examples.previous_world
                "stylua" eq_refl).
  assert (fst (downloadStylua Examples.download_fails "latest"
                 Examples.previous_world) <> Fulfilled tt) as Hrun
    by (vm_compute; discriminate).
  specialize (Hclaim Hrun). vm_compute in Hclaim. discriminate.
Qed.

(** What the run of the previous lemma leaves behind. *)
Lemma failed_download_outcome :
  fst (downloadStylua Examples.download_fails "latest" Examples.previous_world)
    = Pending /\
  Examples.previous_world.(fs) !! "/storage/stylua" = Some "PREVIOUS BINARY" /\
  fs (snd (downloadStylua Examples.download_fails "latest" Examples.previous_world))
    !! "/storage/stylua" = Some "".
Proof. repeat split; reflexivity. Qed.

End DownloadFacts.

(** ** Resolution *)

Module ResolveFacts.
Import JsString Utilities GitHub Download Observe.

Lemma getStyluaVersion_run env path cwd w :
  getStyluaVersion env path cwd w =
    (Fulfilled (reported_version env w path),
     mkWorld (fs w) (credential w) (Exec path cwd :: trace w)).
Proof.
  unfold getStyluaVersion, reported_version, try_catch, executeStylua, bind, emit,
    get_world, ret, reject. cbn.
  destruct (fs w !! path) as [binary|]; [|done].
  by destruct (version_stdout env binary).
Qed.

Lemma fileExists_run path w :
  fileExists path w =
    (Fulfilled (bool_decide (is_Some (fs w !! path))),
     mkWorld (fs w) (credential w) (Stat path :: trace w)).
Proof. reflexivity. Qed.

Lemma truthy_nonempty p : p <> "" -> truthy p = true.
Proof. by destruct p. Qed.

Section WithSemver.
Context `{Semver} (env : Env).

Lemma findStylua_configured cwd w p :
  styluaPath (config env) = Some p -> p <> "" ->
  exists message,
    findStylua env cwd w =
      (Fulfilled (mkInfo (p, configured_secondary env p) Configuration None),
       mkWorld (fs w) (credential w) (LogInfo message :: trace w)).
Proof.
  intros Hp Hne. unfold findStylua, configured_secondary.
  rewrite Hp. cbn [truthy_opt default]. rewrite (truthy_nonempty p Hne).
  destruct (truthy_opt (styluaRoactPath (config env))); by eexists.
Qed.

(** A configured run, event by event. *)
Lemma ensureStyluaExists_configured fuel cwd styluaType w p :
  styluaPath (config env) = Some p -> p <> "" ->
  let path := pick styluaType (p, configured_secondary env p) in
  exists message,
    ensureStyluaExists_fuel env (S fuel) cwd styluaType w =
      if bool_decide (is_Some (fs w !! path))
      then (Fulfilled (Some (mkInfo (p, configured_secondary env p) Configuration
                                    (reported_version env w path))),
            mkWorld (fs w) (credential w)
                    (Exec path cwd :: Stat path :: LogInfo message :: trace w))
      else (Fulfilled None,
            mkWorld (fs w) (credential w)
                    (ErrorMessage ("The path given for StyLua (" +:+ path
                                   +:+ ") does not exist")
                     :: Stat path :: LogInfo message :: trace w)).
Proof.
  intros Hp Hne path.
  destruct (findStylua_configured cwd w p Hp Hne) as [message Hfind].
  exists message. cbn [ensureStyluaExists_fuel]. unfold bind at 1.
  rewrite Hfind. cbn [resolveMode paths]. fold path.
  unfold bind at 1. rewrite fileExists_run. cbn [fs].
  destruct (bool_decide (is_Some (fs w !! path))); cbn [negb].
  - unfold bind. rewrite getStyluaVersion_run. reflexivity.
  - reflexivity.
Qed.


(** A configured run raises no reconciliation signal: the checks of
    lines 110-155 belong to the [Bundled] branch alone. *)
Lemma configured_path_skips_reconciliation fuel cwd styluaType w p :
  styluaPath (config env) = Some p -> p <> "" ->
  Forall (fun e => is_reconciliation_signal e = false)
         (new_events (ensureStyluaExists_fuel env (S fuel) cwd styluaType) w).
Proof.
  intros Hp Hne.
  destruct (ensureStyluaExists_configured fuel cwd styluaType w p Hp Hne)
    as [message Hrun].
  destruct (bool_decide _) in Hrun.
  - erewrite new_events_app; [|rewrite Hrun; cbn;
      by instantiate (1 := [Exec _ cwd; Stat _; LogInfo message])].
    repeat constructor.
  - erewrite new_events_app; [|rewrite Hrun; cbn;
      by instantiate (1 := [ErrorMessage _; Stat _; LogInfo message])].
    repeat constructor.
Qed.

End WithSemver.


(** With an explicit path the run below reports 1.3.0 against a requested
    1.2.0 and a latest release v2.0.0, and raises nothing. *)
Lemma configured_mismatch_is_silent :
  @ensureStyluaExists_fuel NumericSemver.instance Examples.configured_1_3_0 1 None
    Standard Examples.configured_world
  = (Fulfilled (Some (mkInfo ("/opt/stylua", "/opt/stylua") Configuration (Some "1.3.0"))),
     mkWorld (fs Examples.configured_world) (credential Examples.configured_world)
       [Exec "/opt/stylua" None; Stat "/opt/stylua";
        LogInfo "Stylua path explicitly configured: /opt/stylua"]).
Proof. reflexivity. Qed.

End ResolveFacts.

(** ** Reconciliation *)

Module ReconcileFacts.
Import JsString Utilities GitHub Download Observe.

Lemma fetchJson_trace env url w :
  trace (snd (fetchJson env url (_token (credential w)) w))
    = HttpJson url (sent_token w) :: trace w.
Proof.
  unfold fetchJson, sent_token, bind, emit, ret, reject. cbn.
  by destruct (http_json env url _).
Qed.

Lemma getRelease_latest_trace env w :
  trace (snd (getRelease env "latest" w))
    = HttpJson RELEASES_URL_LATEST (sent_token w) :: trace w.
Proof.
  unfold getRelease, fetchJson, sent_token, bind, get_world, emit, ret, reject, lift.
  cbn. destruct (http_json env RELEASES_URL_LATEST _) as [j|]; [|done].
  by destruct (releaseFromJson j).
Qed.

Lemma strip_v_prefixed s : strip_v ("v" +:+ s) = s.
Proof.
  change ("v" +:+ s) with (String "v" s). unfold strip_v, startsWith.
  by destruct s.
Qed.

Lemma strip_v_plain tag : startsWith tag "v" = false -> strip_v tag = tag.
Proof. unfold strip_v. by intros ->. Qed.

(** C6: when version checking is not disabled and the latest release is
    fetched, no [UpdateAvailable] signal is raised if the installed
    version equals the tag of that release without its leading ["v"],
    and one carrying that release is raised if they differ. *)
Theorem checkLatestVersion_signals env retry stylua w latestRelease w1 :
  disableVersionCheck (config env) = false ->
  getRelease env "latest" w = (Fulfilled latestRelease, w1) ->
  let signals := new_events (checkLatestVersion env retry stylua) w in
  let latestVersion := strip_v (tagName latestRelease) in
  (tagName latestRelease = "v" +:+ latestVersion \/
   (startsWith (tagName latestRelease) "v" = false /\
    tagName latestRelease = latestVersion)) /\
  fst (checkLatestVersion env retry stylua w) = Fulfilled (Some stylua) /\
  (version stylua = Some latestVersion ->
   forall release, ~ In (UpdateAvailable release) signals) /\
  (version stylua <> Some latestVersion ->
   In (UpdateAvailable latestRelease) signals).
Proof.
  intros Hcheck Hrel signals latestVersion.
  pose proof (getRelease_latest_trace env w) as Ht. rewrite Hrel in Ht. cbn in Ht.
  split.
  { subst latestVersion. unfold strip_v.
    destruct (startsWith (tagName latestRelease) "v") eqn:E; [left|by right].
    unfold startsWith in E. destruct (tagName latestRelease) as [|c t]; [done|].
    cbn [String.prefix] in E. destruct (ascii_dec "v" c) as [<-|]; [done|discriminate]. }
  assert (checkLatestVersion env retry stylua w =
            (Fulfilled (Some stylua),
             mkWorld (fs w1) (credential w1)
               ((if bool_decide (version stylua = Some latestVersion)
                 then HideUpdate else UpdateAvailable latestRelease)
                :: trace w1))) as Hrun.
  { unfold checkLatestVersion. rewrite Hcheck. unfold try_catch, bind.
    rewrite Hrel. fold latestVersion.
    by destruct (bool_decide (version stylua = Some latestVersion)). }
  split; [by rewrite Hrun|].
  assert (signals =
            [HttpJson RELEASES_URL_LATEST (sent_token w);
             if bool_decide (version stylua = Some latestVersion)
             then HideUpdate else UpdateAvailable latestRelease]) as ->.
  { subst signals.
    erewrite new_events_app; [|rewrite Hrun; cbn [snd trace]; rewrite Ht;
      by instantiate (1 := [_; _])].
    reflexivity. }
  split.
  - intros E release. rewrite bool_decide_eq_true_2 by done.
    intros [?|[?|[]]]; discriminate.
  - intros E. rewrite bool_decide_eq_false_2 by done. right. by left.
Qed.

Lemma checkLatestVersion_signals_witness :
  disableVersionCheck (config Examples.latest_is_2_0_0) = false /\
  getRelease Examples.latest_is_2_0_0 "latest" Examples.installed_world
    = (Fulfilled Examples.release_2_0_0,
       mkWorld (fs Examples.installed_world) (credential Examples.installed_world)
               [HttpJson RELEASES_URL_LATEST None]) /\
  In (UpdateAvailable Examples.release_2_0_0)
     (new_events (checkLatestVersion Examples.latest_is_2_0_0 pending
                    (Examples.bundled (Some "1.9.0")))
                 Examples.installed_world) /\
  forall release,
    ~ In (UpdateAvailable release)
        (new_events (checkLatestVersion Examples.latest_is_2_0_0 pending
                       (Examples.bundled (Some "2.0.0")))
                    Examples.installed_world).
Proof.
  split; [reflexivity|]. split; [reflexivity|]. split.
  - apply (checkLatestVersion_signals Examples.latest_is_2_0_0 pending
             (Examples.bundled (Some "1.9.0")) Examples.installed_world
             Examples.release_2_0_0 _ eq_refl eq_refl).
    discriminate.
  - apply (checkLatestVersion_signals Examples.latest_is_2_0_0 pending
             (Examples.bundled (Some "2.0.0")) Examples.installed_world
             Examples.release_2_0_0 _ eq_refl eq_refl).
    reflexivity.
Defined.

Section WithSemver.
Context `{Semver} (env : Env).

Lemma checkDesiredVersion_run installed w :
  exists signals,
    checkDesiredVersion env installed w =
      (Fulfilled tt, mkWorld (fs w) (credential w) (signals ++ trace w)) /\
    signals =
      if truthy_opt installed && negb (String.eqb (getDesiredVersion env) "latest")
      then match coerce (getDesiredVersion env), parse (default "" installed) with
           | Some d, Some i =>
               if neq d i
               then [IncorrectVersionPrompt (default "" installed)
                                            (getDesiredVersion env)]
               else []
           | _, _ => []
           end
      else [].
Proof.
  unfold checkDesiredVersion.
  destruct (truthy_opt installed && _); [|exists []; by destruct w].
  destruct (coerce _) as [d|]; [|exists []; by destruct w].
  destruct (parse _) as [i|]; [|exists []; by destruct w].
  destruct (neq d i); [eexists; split; [|done]; done|exists []; by destruct w].
Qed.

(** C5, as the code has it: the requested version is coerced, the
    reported version is parsed.  For a requested version other than
    ["latest"] and a non-empty reported version, when the one coerces
    and the other parses a mismatch signal is raised if and only if the
    two differ, and when the reported version does not parse none is
    raised; for ["latest"] none is raised whatever is installed. *)
Theorem checkDesiredVersion_signals installed w :
  installed <> "" ->
  let desired := getDesiredVersion env in
  let signals := new_events (checkDesiredVersion env (Some installed)) w in
  (desired <> "latest" ->
   forall d, coerce desired = Some d ->
     (forall i, parse installed = Some i ->
        (In (IncorrectVersionPrompt installed desired) signals <-> neq d i = true)) /\
     (parse installed = None -> signals = [])) /\
  (desired = "latest" ->
   forall anyInstalled, new_events (checkDesiredVersion env anyInstalled) w = []).
Proof.
  intros Hne desired signals. split.
  - intros Hd d Hco.
    destruct (checkDesiredVersion_run (Some installed) w) as (l & Hrun & Hl).
    assert (signals = rev l) as ->
      by (apply new_events_app; by rewrite Hrun).
    cbn [truthy_opt default] in Hl. fold desired in Hl.
    rewrite (ResolveFacts.truthy_nonempty _ Hne) in Hl.
    apply String.eqb_neq in Hd. rewrite Hd, Hco in Hl. cbn in Hl.
    split.
    + intros i Hi. rewrite Hi in Hl. subst l.
      destruct (neq d i); cbn; split; intros Hx; try done; auto.
    + intros Hi. rewrite Hi in Hl. by subst l.
  - intros Hd anyInstalled.
    destruct (checkDesiredVersion_run anyInstalled w) as (l & Hrun & Hl).
    erewrite new_events_app; [|by rewrite Hrun].
    fold desired in Hl. rewrite Hd in Hl.
    rewrite andb_false_r in Hl. by subst l.
Qed.

End WithSemver.

Lemma checkDesiredVersion_signals_witness :
  "1.3.0" <> "" /\
  getDesiredVersion Examples.wants_1_2_0 <> "latest" /\
  @coerce NumericSemver.instance (getDesiredVersion Examples.wants_1_2_0)
    = Some (1, 2, 0)%N /\
  @parse NumericSemver.instance "1.3.0" = Some (1, 3, 0)%N /\
  (In (IncorrectVersionPrompt "1.3.0" "1.2.0")
      (new_events (@checkDesiredVersion NumericSemver.instance Examples.wants_1_2_0
                     (Some "1.3.0")) Examples.installed_world)
   <-> @neq NumericSemver.instance (1, 2, 0)%N (1, 3, 0)%N = true) /\
  getDesiredVersion Examples.stylua_2_1_0 = "latest" /\
  new_events (@checkDesiredVersion NumericSemver.instance Examples.stylua_2_1_0
                (Some "1.3.0")) Examples.installed_world = [].
Proof.
  split; [discriminate|]. split; [discriminate|].
  split; [reflexivity|]. split; [reflexivity|]. split.
  - refine (proj1 (proj1 (@checkDesiredVersion_signals NumericSemver.instance
                            Examples.wants_1_2_0 "1.3.0" Examples.installed_world _)
                     _ (1, 2, 0)%N eq_refl) (1, 3, 0)%N eq_refl); discriminate.
  - split; [reflexivity|].
    refine (proj2 (@checkDesiredVersion_signals NumericSemver.instance
                     Examples.stylua_2_1_0 "1.3.0" Examples.installed_world _)
              eq_refl (Some "1.3.0")).
    discriminate.
Defined.

(** C5 fails: ["1.3"] coerces to 1.3.0, which differs from the requested
    1.2.0, but it does not parse, and nothing is raised. *)
Lemma unparsed_version_raises_nothing :
  ~ Stated.mismatch_iff_coerced_differ NumericSemver.instance.
Proof.
  intros Hclaim.
  specialize (Hclaim Examples.wants_1_2_0 "1.3" (1, 2, 0)%N (1, 3, 0)%N
                Examples.installed_world).
  destruct Hclaim as [_ Hraise]; [discriminate|reflexivity|reflexivity|].
  specialize (Hraise eq_refl). vm_compute in Hraise. by destruct Hraise.
Qed.

End ReconcileFacts.

(** ** The asset matcher *)

Module PatternFacts.
Import RegExp RegExpFacts Utilities Observe.

Lemma chars_append s1 s2 :
  list_ascii_of_string (s1 +:+ s2) = list_ascii_of_string s1 ++ list_ascii_of_string s2.
Proof.
  induction s1 as [|c s1 IH]; [done|].
  change (String c s1 +:+ s2) with (String c (s1 +:+ s2)). cbn. by rewrite IH.
Qed.

Lemma lang_lit s : lang (lit s) (list_ascii_of_string s).
Proof.
  induction s as [|c s IH]; cbn; [constructor|].
  change (c :: list_ascii_of_string s) with ([c] ++ list_ascii_of_string s).
  constructor; [constructor|done].
Qed.

Lemma lang_lit_inv s w : lang (lit s) w -> w = list_ascii_of_string s.
Proof.
  revert w. induction s as [|c s IH]; cbn; intros w Hw.
  - by inversion Hw.
  - inversion Hw as [| | | |? ? w1 w2 H1 H2| | | | | | | | |]; subst.
    inversion H1; subst. cbn. f_equal. by apply IH.
Qed.

Lemma lang_seq r1 r2 w1 w2 w :
  lang r1 w1 -> lang r2 w2 -> w = w1 ++ w2 -> lang (Seq r1 r2) w.
Proof. intros H1 H2 ->. by constructor. Qed.

Lemma lang_plus_class items w :
  w <> [] -> forallb (class_matches items) w = true -> lang (Plus (Class items)) w.
Proof.
  induction w as [|c w IH]; [done|]. intros _ Hall.
  cbn in Hall. apply andb_true_iff in Hall as [Hc Hw].
  destruct w as [|c' w].
  - apply L_PlusOne. by constructor.
  - change (c :: c' :: w) with ([c] ++ c' :: w).
    apply L_PlusMore; [by constructor|by apply IH].
Qed.

Lemma platformPattern_fragments platform r :
  platformPattern platform = Ok r ->
  forall w, lang r w <->
            exists frag, In frag (platformFragments platform) /\
                         w = list_ascii_of_string frag.
Proof.
  unfold platformPattern, platformFragments.
  destruct (String.eqb platform "win32").
  { intros [= <-] w. split.
    - intros Hw. inversion Hw as [| | | | | | |? ? Ha| | | | | |]; subst.
      inversion Ha as [| | | | |? ? ? Hl|? ? ? Hl| | | | | | |]; subst.
      * apply (lang_lit_inv "windows") in Hl. exists "windows". cbn; auto.
      * apply (lang_lit_inv "win64") in Hl. exists "win64". cbn; auto.
    - intros (frag & [<-|[<-|[]]] & ->); constructor.
      + apply L_AltL, (lang_lit "windows").
      + apply L_AltR, (lang_lit "win64"). }
  destruct (String.eqb platform "linux").
  { intros [= <-] w. split.
    - intros Hw%(lang_lit_inv "linux"). exists "linux". split; [by left|done].
    - intros (frag & [<-|[]] & ->). apply (lang_lit "linux"). }
  destruct (String.eqb platform "darwin"); [|done].
  intros [= <-] w. split.
  - intros Hw%(lang_lit_inv "macos"). exists "macos". split; [by left|done].
  - intros (frag & [<-|[]] & ->). apply (lang_lit "macos").
Qed.




(** The architecture segment is optional: the names of releases that
    predate it, [stylua-<ver>-<platform>.zip], match for every
    architecture. *)
Lemma pattern_accepts_without_architecture platform architecture pattern ver frag :
  getAssetFilenamePatternForPlatform platform architecture = Ok pattern ->
  ver <> "" -> version_chars ver = true ->
  In frag (platformFragments platform) ->
  test pattern ("stylua-" +:+ ver +:+ "-" +:+ frag +:+ ".zip") = true.
Proof.
  unfold getAssetFilenamePatternForPlatform.
  destruct (platformPattern platform) as [r|] eqn:Hr; [|done].
  intros [= <-] Hne Hver Hfrag. unfold test. apply search_spec.
  exists [], (list_ascii_of_string ("stylua-" +:+ ver +:+ "-" +:+ frag +:+ ".zip")), [].
  split; [by rewrite app_nil_r|].
  rewrite !chars_append.
  change (list_ascii_of_string "stylua-") with (list_ascii_of_string "stylua" ++ ["-"%char]).
  rewrite <- !app_assoc.
  unfold patternHead.
  eapply lang_seq; [eapply lang_seq; [apply lang_lit| |reflexivity]| |].
  - eapply lang_seq; [apply L_OptSome, L_Group| |reflexivity].
    + eapply lang_seq; [apply L_Chr| |reflexivity].
      apply lang_plus_class; [|exact Hver].
      destruct ver; [done|discriminate].
    + apply L_Chr.
  - eapply lang_seq; [|eapply lang_seq; [|eapply lang_seq|]|].
    + apply (platformPattern_fragments _ _ Hr). eauto.
    + apply L_OptNone.
    + by apply (L_Dot "."%char).
    + apply (lang_lit "zip").
    + reflexivity.
    + reflexivity.
    + reflexivity.
  - cbn. rewrite <- !app_assoc. reflexivity.
Qed.






Section Avoid.
Variable y : ascii.

Let avoids (l : list ascii) : bool := forallb (fun c => negb (Ascii.eqb c y)) l.




End Avoid.



Lemma source_lit s : source (lit s) = s.
Proof.
  induction s as [|c s IH]; [done|]. cbn [lit source]. by rewrite IH.
Qed.

(** The pattern is the one [new RegExp] receives in [utilities.ts]. *)
Lemma pattern_source platform architecture pattern :
  getAssetFilenamePatternForPlatform platform architecture = Ok pattern ->
  exists platformText,
    In (platform, platformText)
       [("win32", "(windows|win64)"); ("linux", "linux"); ("darwin", "macos")] /\
    source pattern =
      "stylua(-[\dw\-\.]+)?-" +:+ platformText +:+ "(-"
        +:+ architectureFragment architecture +:+ ")?.zip".
Proof.
  unfold getAssetFilenamePatternForPlatform, platformPattern, architecturePattern,
    architectureFragment.
  destruct (String.eqb_spec platform "win32") as [->|_];
    [|destruct (String.eqb_spec platform "linux") as [->|_];
      [|destruct (String.eqb_spec platform "darwin") as [->|_]; [|done]]];
    intros [= <-]; eexists; (split; [cbn [In]; eauto 6|]);
    destruct (String.eqb architecture "arm64"); try reflexivity;
    destruct (String.eqb architecture "x64"); reflexivity.
Qed.




End PatternFacts.

(** ** The retry of line 150 happens at most once *)

Module RetryFacts.
Import JsString Utilities GitHub Download Observe.

Lemma keeps_ret {A} (a : A) : keeps_credential (ret a).
Proof. by intros w. Qed.

Lemma keeps_reject {A} e : keeps_credential (@reject A e).
Proof. by intros w. Qed.

Lemma keeps_pending {A} : keeps_credential (@pending A).
Proof. by intros w. Qed.

Lemma keeps_emit e : keeps_credential (emit e).
Proof. by intros w. Qed.

Lemma keeps_get_world : keeps_credential get_world.
Proof. by intros w. Qed.

Lemma keeps_write_file path data : keeps_credential (write_file path data).
Proof. by intros w. Qed.

Lemma keeps_lift {A} (r : result A) : keeps_credential (lift r).
Proof. destruct r; by intros w. Qed.

Lemma keeps_bind {A B} (m : M A) (k : A -> M B) :
  keeps_credential m -> (forall a, keeps_credential (k a)) -> keeps_credential (bind m k).
Proof.
  intros Hm Hk w. unfold bind. specialize (Hm w).
  destruct (m w) as [[a|e|] w']; cbn in *; [|done..].
  by rewrite (Hk a w').
Qed.

Lemma keeps_try_catch {A} (m : M A) (h : error -> M A) :
  keeps_credential m -> (forall e, keeps_credential (h e)) ->
  keeps_credential (try_catch m h).
Proof.
  intros Hm Hh w. unfold try_catch. specialize (Hm w).
  destruct (m w) as [[a|e|] w']; cbn in *; [done| |done].
  by rewrite (Hh e w').
Qed.

Create HintDb keeps.
#[local] Hint Resolve keeps_ret keeps_reject keeps_pending keeps_emit keeps_get_world
  keeps_write_file keeps_lift : keeps.

Ltac keeps :=
  repeat first
    [ progress intros
    | apply keeps_bind
    | apply keeps_try_catch
    | solve [auto with keeps]
    | case_match ].

Lemma keeps_fetchJson env url token : keeps_credential (fetchJson env url token).
Proof. unfold fetchJson. keeps. Qed.
#[local] Hint Resolve keeps_fetchJson : keeps.

Lemma keeps_getAllReleases env : keeps_credential (getAllReleases env).
Proof. unfold getAllReleases. keeps. Qed.
#[local] Hint Resolve keeps_getAllReleases : keeps.

Lemma keeps_getRelease env version : keeps_credential (getRelease env version).
Proof. unfold getRelease. keeps. Qed.
#[local] Hint Resolve keeps_getRelease : keeps.

Lemma keeps_getStyluaVersion env path cwd : keeps_credential (getStyluaVersion env path cwd).
Proof. unfold getStyluaVersion, executeStylua. keeps. Qed.
#[local] Hint Resolve keeps_getStyluaVersion : keeps.

Lemma keeps_fileExists path : keeps_credential (fileExists path).
Proof. unfold fileExists. keeps. Qed.
#[local] Hint Resolve keeps_fileExists : keeps.

Lemma keeps_pipeEntry env url outputFilename file :
  keeps_credential (pipeEntry env url outputFilename file).
Proof. unfold pipeEntry. keeps. Qed.
#[local] Hint Resolve keeps_pipeEntry : keeps.

Lemma keeps_downloadAssets env pattern outputFilename assets :
  keeps_credential (downloadAssets env pattern outputFilename assets).
Proof. induction assets as [|a l IH]; cbn [downloadAssets]; keeps. Qed.
#[local] Hint Resolve keeps_downloadAssets : keeps.

Lemma keeps_downloadStyluaVisual env version :
  keeps_credential (downloadStyluaVisual env version).
Proof. unfold downloadStyluaVisual, downloadStylua. keeps. Qed.
#[local] Hint Resolve keeps_downloadStyluaVisual : keeps.

Lemma keeps_acquireIfMissing env path : keeps_credential (acquireIfMissing env path).
Proof. unfold acquireIfMissing. keeps. Qed.
#[local] Hint Resolve keeps_acquireIfMissing : keeps.

Lemma keeps_findStylua env cwd : keeps_credential (findStylua env cwd).
Proof. unfold findStylua. keeps. Qed.
#[local] Hint Resolve keeps_findStylua : keeps.

(** Two continuations that agree on the worlds [m] can leave behind. *)
Lemma bind_agree {A B} (m : M A) (k1 k2 : A -> M B) (w : World) :
  keeps_credential m ->
  (forall a w', credential w' = credential w -> k1 a w' = k2 a w') ->
  bind m k1 w = bind m k2 w.
Proof.
  intros Hm Hk. unfold bind. specialize (Hm w).
  destruct (m w) as [[a|e|] w']; cbn in *; [|done..]. by apply Hk.
Qed.

Lemma bind_ext {A B} (m : M A) (k1 k2 : A -> M B) (w : World) :
  (forall a w', k1 a w' = k2 a w') -> bind m k1 w = bind m k2 w.
Proof.
  intros Hk. unfold bind. destruct (m w) as [[a|e|] w']; [|done..]. by apply Hk.
Qed.

(** [authenticate] settles, and answers [true] only with a session held. *)
Lemma authenticate_granted env create w :
  exists granted w',
    authenticate env create w = (Fulfilled granted, w') /\
    (granted = true -> authenticated (credential w') = true).
Proof.
  unfold authenticate, bind, emit, set_credential, get_world, ret. cbn.
  destruct (get_session env create); eexists _, _; (split; [reflexivity|]);
    cbn; done.
Qed.

Section WithSemver.
Context `{Semver} (env : Env).

Lemma keeps_checkDesiredVersion installed :
  keeps_credential (checkDesiredVersion env installed).
Proof. unfold checkDesiredVersion. keeps. Qed.

(** With a session held, the retry is never reached. *)
Lemma retry_unreachable retry1 retry2 stylua w :
  authenticated (credential w) = true ->
  checkLatestVersion env retry1 stylua w = checkLatestVersion env retry2 stylua w.
Proof.
  intros Hauth. unfold checkLatestVersion.
  destruct (disableVersionCheck (config env)); [done|].
  unfold try_catch.
  match goal with |- context [bind (getRelease env "latest") ?k] =>
    assert (keeps_credential (bind (getRelease env "latest") k)) as Hk by keeps;
    specialize (Hk w);
    destruct (bind (getRelease env "latest") k w) as [[a|e|] w'] end;
    cbn in Hk; [done| |done].
  unfold bind, emit, get_world. cbn. by rewrite Hk, Hauth.
Qed.

(** Retries matter only through what they do with a session held. *)
Lemma retry_agree retry1 retry2 stylua w :
  (forall w', authenticated (credential w') = true -> retry1 w' = retry2 w') ->
  checkLatestVersion env retry1 stylua w = checkLatestVersion env retry2 stylua w.
Proof.
  intros Hretry. unfold checkLatestVersion.
  destruct (disableVersionCheck (config env)); [done|].
  unfold try_catch.
  match goal with |- context [bind (getRelease env "latest") ?k] =>
    destruct (bind (getRelease env "latest") k w) as [[a|e|] w'] end;
    [done| |done].
  apply bind_ext. intros _ w1.
  apply bind_ext. intros w0 w2.
  destruct (negb _); [|done].
  apply bind_ext. intros _ w3.
  destruct (picks_authenticate env); [|done].
  unfold bind.
  destruct (authenticate_granted env true w3) as (granted & w4 & -> & Hg).
  destruct granted; [|done]. by apply Hretry, Hg.
Qed.

Lemma pass_agree fuel1 fuel2 cwd styluaType w :
  (forall w', credential w' = credential w ->
     forall stylua,
       checkLatestVersion env (ensureStyluaExists_fuel env fuel1 cwd Standard) stylua w'
       = checkLatestVersion env (ensureStyluaExists_fuel env fuel2 cwd Standard) stylua w') ->
  ensureStyluaExists_fuel env (S fuel1) cwd styluaType w
  = ensureStyluaExists_fuel env (S fuel2) cwd styluaType w.
Proof.
  intros Hcheck. cbn [ensureStyluaExists_fuel].
  apply bind_agree; [by auto with keeps|]. intros stylua w1 E1.
  destruct (resolveMode stylua); [|done..].
  apply bind_agree; [by auto with keeps|]. intros _ w2 E2.
  apply bind_agree; [by auto with keeps|]. intros v w3 E3.
  apply bind_agree; [apply keeps_checkDesiredVersion|]. intros _ w4 E4.
  apply Hcheck. congruence.
Qed.

(** With a session held, one pass is all there is. *)
Lemma one_pass_when_authenticated fuel cwd styluaType w :
  authenticated (credential w) = true ->
  ensureStyluaExists_fuel env (S fuel) cwd styluaType w
  = ensureStyluaExists_fuel env 1 cwd styluaType w.
Proof.
  intros Hauth. apply pass_agree. intros w' E stylua.
  apply retry_unreachable. by rewrite E.
Qed.

(** X17: The recursion of [ensureStyluaExists] is bounded.  The retry of
    line 150 runs only while no session is held and only after one has
    been obtained, so a run makes at most two passes: allowing more
    changes nothing. *)
Theorem ensureStyluaExists_two_passes fuel cwd styluaType w :
  ensureStyluaExists_fuel env (2 + fuel) cwd styluaType w
  = ensureStyluaExists env cwd styluaType w.
Proof.
  unfold ensureStyluaExists. apply pass_agree. intros w' _ stylua.
  apply retry_agree. intros w'' Hauth.
  by apply one_pass_when_authenticated.
Qed.

(** A bundled resolution is followed by acquisition, the version query
    and the two checks. *)
Lemma ensureStyluaExists_bundled fuel cwd styluaType w stylua w1 :
  findStylua env cwd w = (Fulfilled stylua, w1) ->
  resolveMode stylua = Bundled ->
  ensureStyluaExists_fuel env (S fuel) cwd styluaType w =
    (acquireIfMissing env (pick styluaType (paths stylua)) ;;
     let* v := getStyluaVersion env (pick styluaType (paths stylua)) cwd in
     checkDesiredVersion env v ;;
     checkLatestVersion env (ensureStyluaExists_fuel env fuel cwd Standard)
       (with_version stylua v)) w1.
Proof.
  intros Hfind Hmode. cbn [ensureStyluaExists_fuel]. unfold bind at 1.
  by rewrite Hfind, Hmode.
Qed.

End WithSemver.

End RetryFacts.

(** ** Whole runs on the examples of the written specification *)

Module ExampleRuns.
Import Download Examples GitHub.

(** Requested 1.2.0, installed 1.2.0: no mismatch signal. *)
Example requested_equals_installed :
  signals_of (bundled_env (Some "1.2.0") "1.2.0" no_api true)
  = [LogInfo "Falling back to bundled StyLua version";
     Stat "/storage/stylua"; Exec "/storage/stylua" None; HideUpdate].
Proof. reflexivity. Qed.

(** Requested 1.2.0, installed 1.3.0: a mismatch signal. *)
Example requested_differs_from_installed :
  signals_of (bundled_env (Some "1.2.0") "1.3.0" no_api true)
  = [LogInfo "Falling back to bundled StyLua version";
     Stat "/storage/stylua"; Exec "/storage/stylua" None;
     IncorrectVersionPrompt "1.3.0" "1.2.0"; HideUpdate].
Proof. reflexivity. Qed.

(** Requested ["latest"]: no mismatch signal, whatever is installed. *)
Example latest_requested :
  signals_of (bundled_env None "1.3.0" no_api true)
  = [LogInfo "Falling back to bundled StyLua version";
     Stat "/storage/stylua"; Exec "/storage/stylua" None; HideUpdate].
Proof. reflexivity. Qed.

(** Latest release v2.0.0, installed 2.0.0: no update signal. *)
Example installed_is_latest :
  signals_of (bundled_env None "2.0.0" (latest_api (release_json "v2.0.0" [])) false)
  = [LogInfo "Falling back to bundled StyLua version";
     Stat "/storage/stylua"; Exec "/storage/stylua" None;
     HttpJson RELEASES_URL_LATEST None; HideUpdate].
Proof. reflexivity. Qed.

(** Latest release v2.0.0, installed 1.9.0: the update signal carries the
    release. *)
Example installed_is_older :
  signals_of (bundled_env None "1.9.0" (latest_api (release_json "v2.0.0" [])) false)
  = [LogInfo "Falling back to bundled StyLua version";
     Stat "/storage/stylua"; Exec "/storage/stylua" None;
     HttpJson RELEASES_URL_LATEST None; UpdateAvailable release_2_0_0].
Proof. reflexivity. Qed.

(** The release query fails and the user declines to authenticate: a
    warning, the offer, and the run still ends with the installed binary. *)
Example release_query_fails :
  @ensureStyluaExists NumericSemver.instance (bundled_env None "1.9.0" no_api false)
    None Standard installed_world
  = (Fulfilled (Some (bundled (Some "1.9.0"))),
     mkWorld (fs installed_world) (credential installed_world)
       [InformationMessage "Authenticating with GitHub can fix rate limits.";
        WarningMessage
          "Error checking the selected StyLua version, falling back to the currently installed version:"
          FetchError;
        HttpJson RELEASES_URL_LATEST None;
        Exec "/storage/stylua" None; Stat "/storage/stylua";
        LogInfo "Falling back to bundled StyLua version"]).
Proof. reflexivity. Qed.

(** A missing bundled binary is downloaded, then queried. *)
Example missing_binary_is_acquired :
  let run := @ensureStyluaExists NumericSemver.instance
               (env_with (config_with None None false None true)
                  (Some ("stylua 2.1.0" +:+ LF))
                  (latest_api (release_json "v2.1.0" ["stylua-linux-x86_64.zip"]))
                  (Some [("LICENSE", "MPL-2.0"); ("stylua", "NEW BINARY")]))
               None Standard empty_world in
  fst run = Fulfilled (Some (bundled (Some "2.1.0"))) /\
  fs (snd run) !! "/storage/stylua" = Some "NEW BINARY".
Proof. split; reflexivity. Qed.

End ExampleRuns.

(* ===================================================================== *)
(** * Part III: further properties of the code                            *)
(* ===================================================================== *)

(** ** [utilities.ts] *)

Module UtilitiesFacts.
Import JsString RegExp RegExpFacts Utilities Observe Shape PatternFacts.

(** X1: [getDownloadOutputFilename] and [getAssetFilenamePatternForPlatform]
    support the same platforms: on [win32], [linux] and [darwin] both
    return, everywhere else both throw [BadPlatformError]. *)
Theorem platform_support_agrees platform architecture :
  (In platform ["win32"; "linux"; "darwin"] /\
   (exists pattern, getAssetFilenamePatternForPlatform platform architecture = Ok pattern) /\
   (exists name, getDownloadOutputFilenameFor platform = Ok name /\
                 (name = "stylua.exe" <-> platform = "win32"))) \/
  (~ In platform ["win32"; "linux"; "darwin"] /\
   getAssetFilenamePatternForPlatform platform architecture = Throw BadPlatformError /\
   getDownloadOutputFilenameFor platform = Throw BadPlatformError).
Proof.
  unfold getAssetFilenamePatternForPlatform, platformPattern,
    getDownloadOutputFilenameFor.
  destruct (String.eqb_spec platform "win32") as [->|Hw].
  { left. split; [cbn; auto|]. split; [by eexists|].
    eexists. split; [reflexivity|]. done. }
  destruct (String.eqb_spec platform "linux") as [->|Hl].
  { left. split; [cbn; auto|]. split; [by eexists|].
    eexists. split; [reflexivity|]. split; discriminate. }
  destruct (String.eqb_spec platform "darwin") as [->|Hd].
  { left. split; [cbn; auto|]. split; [by eexists|].
    eexists. split; [reflexivity|]. split; discriminate. }
  right. split; [|done]. cbn. intros [?|[?|[?|[]]]]; congruence.
Qed.

Lemma trimStart_all_white s : all_white s = true -> trimStart s = "".
Proof.
  induction s as [|c s IH]; [done|]. cbn.
  intros [Hc Hs]%andb_true_iff. rewrite Hc. by apply IH.
Qed.

Lemma trimStart_not_all_white s :
  all_white s = false ->
  exists c rest, trimStart s = String c rest /\ is_white_space c = false.
Proof.
  induction s as [|c s IH]; [done|]. cbn.
  destruct (is_white_space c) eqn:Hc; cbn.
  - apply IH.
  - intros _. by exists c, s.
Qed.

Lemma trimEnd_head c s :
  is_white_space c = false -> trimEnd (String c s) = String c (trimEnd s).
Proof. intros Hc. cbn. by rewrite Hc. Qed.

Lemma trimEnd_clean s : endsWithWhiteSpace (trimEnd s) = false.
Proof.
  induction s as [|c s IH]; [done|]. cbn [trimEnd].
  destruct (is_white_space c && is_empty (trimEnd s)) eqn:E; [done|].
  cbn [endsWithWhiteSpace]. destruct (trimEnd s) as [|c' t] eqn:Ht; [|exact IH].
  cbn in E. rewrite andb_true_r in E. exact E.
Qed.

(** X2: [getDesiredVersion]: a blank [targetReleaseVersion] (unset, empty or
    all white space) defers to the deprecated [releaseVersion], and to
    ["latest"] when that is unset too; any other target wins over
    [releaseVersion] and is returned without the white space around
    it, so it is never empty. *)
Theorem getDesiredVersion_cases env :
  let target := default "" (targetReleaseVersion (config env)) in
  (all_white target = true ->
   getDesiredVersion env = default "latest" (releaseVersion (config env))) /\
  (all_white target = false ->
   getDesiredVersion env = trim target /\
   getDesiredVersion env <> "" /\
   startsWithWhiteSpace (getDesiredVersion env) = false /\
   endsWithWhiteSpace (getDesiredVersion env) = false).
Proof.
  intros target. unfold getDesiredVersion. fold target. split.
  - intros Hw. unfold trim. by rewrite (trimStart_all_white _ Hw).
  - intros Hw. unfold trim.
    destruct (trimStart_not_all_white _ Hw) as (c & rest & -> & Hc).
    rewrite (trimEnd_head _ _ Hc). cbn [is_empty].
    repeat split; try done.
    rewrite <- (trimEnd_head _ _ Hc). apply trimEnd_clean.
Qed.

Lemma getDesiredVersion_cases_witness :
  all_white (default "" (targetReleaseVersion (config Examples2.plain_config_env))) = true /\
  getDesiredVersion Examples2.plain_config_env = "latest" /\
  all_white (default "" (targetReleaseVersion (config Examples2.padded_target_env))) = false /\
  getDesiredVersion Examples2.padded_target_env = "v2.1.0".
Proof.
  split; [reflexivity|]. split.
  - exact (proj1 (getDesiredVersion_cases Examples2.plain_config_env) eq_refl).
  - split; [reflexivity|].
    exact (proj1 (proj2 (getDesiredVersion_cases Examples2.padded_target_env) eq_refl)).
Defined.

End UtilitiesFacts.

(** ** The asset pattern, segment by segment *)

Module SegmentFacts.
Import RegExp RegExpFacts Utilities Observe Shape PatternFacts.

Lemma chars_hyphenated present text :
  list_ascii_of_string (hyphenated present text)
  = if present then "-"%char :: list_ascii_of_string text else [].
Proof. by destruct present. Qed.

(** X3: The version segment and the architecture segment of the pattern are
    each optional: for a supported platform and any architecture the
    pattern matches [stylua-<platform>.zip],
    [stylua-<platform>-<arch>.zip], [stylua-<ver>-<platform>.zip] and
    [stylua-<ver>-<platform>-<arch>.zip] alike. *)
Theorem pattern_segments_optional platform architecture pattern ver frag
    (withVersion withArchitecture : bool) :
  getAssetFilenamePatternForPlatform platform architecture = Ok pattern ->
  In frag (platformFragments platform) ->
  (withVersion = true -> ver <> "" /\ version_chars ver = true) ->
  test pattern
    (assetName (hyphenated withVersion ver) frag
               (hyphenated withArchitecture (architectureFragment architecture)))
  = true.
Proof.
  unfold getAssetFilenamePatternForPlatform.
  destruct (platformPattern platform) as [r|] eqn:Hr; [|done].
  intros [= <-] Hfrag Hver. unfold test. apply search_spec.
  assert (lang (Opt (Group (Seq (Chr "-") (Plus (Class versionClass)))))
               (list_ascii_of_string (hyphenated withVersion ver))) as Hv.
  { destruct withVersion; [|apply L_OptNone].
    destruct (Hver eq_refl) as [Hne Hchars].
    apply L_OptSome, L_Group.
    eapply lang_seq; [apply L_Chr| |reflexivity].
    apply lang_plus_class; [|exact Hchars].
    destruct ver; [done|discriminate]. }
  assert (lang (Opt (Group (Seq (Chr "-") (architecturePattern architecture))))
               (list_ascii_of_string
                  (hyphenated withArchitecture (architectureFragment architecture))))
    as Ha.
  { destruct withArchitecture; [|apply L_OptNone].
    apply L_OptSome, L_Group.
    eapply lang_seq; [apply L_Chr|apply lang_lit|reflexivity]. }
  eexists [], _, []. split; [by rewrite app_nil_r|].
  unfold assetName. rewrite !chars_append.
  unfold patternHead.
  eapply lang_seq; [eapply lang_seq; [apply (lang_lit "stylua")| |reflexivity]| |].
  - eapply lang_seq; [exact Hv|apply L_Chr|reflexivity].
  - eapply lang_seq; [|eapply lang_seq; [exact Ha|eapply lang_seq|]|].
    + apply (platformPattern_fragments _ _ Hr). eauto.
    + by apply (L_Dot "."%char).
    + apply (lang_lit "zip").
    + reflexivity.
    + reflexivity.
    + reflexivity.
  - cbn. rewrite <- !app_assoc. reflexivity.
Qed.

Lemma pattern_segments_optional_witness :
  (exists pattern,
     getAssetFilenamePatternForPlatform "darwin" "arm64" = Ok pattern /\
     test pattern "stylua-macos.zip" = true /\
     test pattern "stylua-macos-aarch64.zip" = true /\
     test pattern "stylua-0.12.0-macos.zip" = true /\
     test pattern "stylua-2.1.0-macos-aarch64.zip" = true).
Proof.
  eexists. split; [reflexivity|].
  assert (In "macos" (platformFragments "darwin")) as Hin by (cbn; auto).
  split; [|split; [|split]].
  - refine (pattern_segments_optional "darwin" "arm64" _ "" "macos" false false
              eq_refl Hin _). discriminate.
  - refine (pattern_segments_optional "darwin" "arm64" _ "" "macos" false true
              eq_refl Hin _). discriminate.
  - refine (pattern_segments_optional "darwin" "arm64" _ "0.12.0" "macos" true false
              eq_refl Hin _). intros _. split; [discriminate|reflexivity].
  - refine (pattern_segments_optional "darwin" "arm64" _ "2.1.0" "macos" true true
              eq_refl Hin _). intros _. split; [discriminate|reflexivity].
Defined.






Section Avoid.
Variable y : ascii.

Let avoids (l : list ascii) : bool := forallb (fun c => negb (Ascii.eqb c y)) l.




End Avoid.







End SegmentFacts.

(** ** [github.ts] *)

Module ClientFacts.
Import JsString Json GitHub Payload Sessions Observe.

Lemma lookup_foreign key others fields :
  foreign others = true ->
  existsb (String.eqb key) read_keys = true ->
  lookup_field key (others ++ fields) = lookup_field key fields.
Proof.
  intros Hf Hk. induction others as [|[k v] others IH]; [done|].
  cbn in Hf. apply andb_true_iff in Hf as [Hkv Hf]. cbn [app lookup_field].
  destruct (String.eqb_spec k key) as [->|_]; [|by apply IH].
  cbn in Hk, Hkv. by rewrite Hk in Hkv.
Qed.

Lemma assetFromJson_payload others a :
  foreign others = true -> assetFromJson (asset_payload others a) = Ok a.
Proof.
  intros Hf. unfold assetFromJson, asset_payload, member. cbn [result_bind].
  rewrite !(lookup_foreign _ _ _ Hf) by reflexivity. cbn. by destruct a.
Qed.

Lemma result_map_payload others l :
  foreign others = true ->
  result_map assetFromJson (map (asset_payload others) l) = Ok l.
Proof.
  intros Hf. induction l as [|a l IH]; [done|]. cbn [map result_map].
  rewrite (assetFromJson_payload _ _ Hf). cbn [result_bind]. by rewrite IH.
Qed.

(** X5: Decoding loses nothing: a release object that carries [tag_name],
    [html_url] and [assets] with [name] and [browser_download_url], among
    any fields the decoder does not read, decodes to exactly that tag,
    address and list of assets, in order. *)
Theorem releaseFromJson_roundtrip others assetOthers r :
  foreign others = true -> foreign assetOthers = true ->
  releaseFromJson (release_payload others assetOthers r) = Ok r.
Proof.
  intros Hf Ha. unfold releaseFromJson, release_payload, member.
  cbn [typeof String.eqb Ascii.eqb Bool.eqb negb result_bind].
  change (String.eqb "object" "object") with true. cbn [negb].
  rewrite !(lookup_foreign _ _ _ Hf) by reflexivity. cbn [lookup_field String.eqb].
  cbn. rewrite (result_map_payload _ _ Ha). cbn. by destruct r.
Qed.

Lemma releaseFromJson_roundtrip_witness :
  foreign [("id", JNumber "1"); ("draft", JBool false)] = true /\
  foreign [("size", JNumber "3145728")] = true /\
  releaseFromJson
    (release_payload [("id", JNumber "1"); ("draft", JBool false)]
                     [("size", JNumber "3145728")] Examples.release_macos_only)
  = Ok Examples.release_macos_only.
Proof.
  split; [reflexivity|]. split; [reflexivity|].
  apply releaseFromJson_roundtrip; reflexivity.
Defined.

Lemma result_map_releases others assetOthers releases :
  foreign others = true -> foreign assetOthers = true ->
  result_map releaseFromJson (map (release_payload others assetOthers) releases)
  = Ok releases.
Proof.
  intros Hf Ha. induction releases as [|r l IH]; [done|]. cbn [map result_map].
  rewrite (releaseFromJson_roundtrip _ _ _ Hf Ha). cbn [result_bind]. by rewrite IH.
Qed.

(** [getAllReleases] returns one record per element of the answered
    list, in the order of the answer. *)
Theorem getAllReleases_keeps_order env w others assetOthers releases :
  foreign others = true -> foreign assetOthers = true ->
  http_json env RELEASES_URL (sent_token w)
    = Some (JArray (map (release_payload others assetOthers) releases)) ->
  fst (getAllReleases env w) = Fulfilled releases.
Proof.
  intros Hf Ha Hj. unfold getAllReleases, fetchJson, bind, emit, get_world, ret.
  cbn. unfold sent_token in Hj. rewrite Hj.
  by rewrite (result_map_releases _ _ _ Hf Ha).
Qed.

Lemma getAllReleases_keeps_order_witness :
  foreign [] = true /\
  http_json Examples.three_releases RELEASES_URL (sent_token Examples.empty_world)
    = Some (JArray (map (release_payload [] [])
                        [mkRelease [] "https://github.com/JohnnyMorganz/StyLua/releases/tag/v2.1.0" "v2.1.0";
                         mkRelease [] "https://github.com/JohnnyMorganz/StyLua/releases/tag/v2.0.2" "v2.0.2";
                         mkRelease [] "https://github.com/JohnnyMorganz/StyLua/releases/tag/v0.20.0" "v0.20.0"])) /\
  fst (getAllReleases Examples.three_releases Examples.empty_world)
    = Fulfilled [mkRelease [] "https://github.com/JohnnyMorganz/StyLua/releases/tag/v2.1.0" "v2.1.0";
                 mkRelease [] "https://github.com/JohnnyMorganz/StyLua/releases/tag/v2.0.2" "v2.0.2";
                 mkRelease [] "https://github.com/JohnnyMorganz/StyLua/releases/tag/v0.20.0" "v0.20.0"].
Proof.
  split; [reflexivity|]. split; [reflexivity|].
  apply (getAllReleases_keeps_order Examples.three_releases Examples.empty_world [] []);
    reflexivity.
Defined.

(** X6: A version asks for the same release with and without its leading
    ["v"]: [getRelease] on [version] and on ["v" + version] run alike,
    down to the message of the error when no tag matches. *)
Theorem getRelease_ignores_leading_v env version w :
  version <> "latest" ->
  startsWith version "v" = false ->
  getRelease env ("v" +:+ version) w = getRelease env version w.
Proof.
  intros Hl Hv. unfold getRelease.
  apply String.eqb_neq in Hl. rewrite Hl.
  change ("v" +:+ version) with (String "v" version).
  assert (String.eqb (String "v" version) "latest" = false) as -> by reflexivity.
  unfold normalize. rewrite Hv.
  assert (startsWith (String "v" version) "v" = true) as ->
    by (unfold startsWith; by destruct version).
  reflexivity.
Qed.

Lemma getRelease_ignores_leading_v_witness :
  "2.0" <> "latest" /\ startsWith "2.0" "v" = false /\
  getRelease Examples.three_releases "v2.0" Examples.empty_world
  = getRelease Examples.three_releases "2.0" Examples.empty_world.
Proof.
  split; [discriminate|]. split; [reflexivity|].
  apply (getRelease_ignores_leading_v Examples.three_releases "2.0" Examples.empty_world);
    [discriminate|reflexivity].
Defined.

(** [getRelease] makes exactly one request, whatever comes of it: to the
    dedicated endpoint for ["latest"], to the listing for any other
    version, and with the token only when one is held and not empty. *)
Theorem getRelease_one_request env version w :
  new_events (getRelease env version) w
  = [HttpJson (if String.eqb version "latest" then RELEASES_URL_LATEST else RELEASES_URL)
              (sent_token w)] /\
  (sent_token w = None <-> truthy_opt (_token (credential w)) = false).
Proof.
  split.
  - apply (new_events_app _ _ [_]).
    unfold getRelease, getAllReleases, fetchJson, sent_token, bind, get_world, emit,
      ret, reject, lift.
    destruct (String.eqb version "latest"); cbn.
    + destruct (http_json env RELEASES_URL_LATEST _) as [j|]; [|done].
      by destruct (releaseFromJson j).
    + destruct (http_json env RELEASES_URL _) as [j|]; [|done].
      destruct j as [| | | |elements|fields]; cbn; try done.
      destruct (result_map releaseFromJson elements); cbn; [|done].
      by destruct (List.find _ _).
  - unfold sent_token. destruct (_token (credential w)) as [t|]; cbn; [|done].
    destruct (truthy t); split; done.
Qed.

(** X7: When the listing answers with something that is not a list, such as
    the object that reports a rate limit, every version other than
    ["latest"] is reported as not found. *)
Theorem getRelease_not_a_list env version w j :
  version <> "latest" ->
  http_json env RELEASES_URL (sent_token w) = Some j ->
  (forall elements, j <> JArray elements) ->
  fst (getRelease env version w)
  = Rejected (NoReleaseFoundError
                ("No release version matches " +:+ normalize version +:+ ".")).
Proof.
  intros Hl Hj Harr. unfold getRelease. apply String.eqb_neq in Hl. rewrite Hl.
  unfold getAllReleases, fetchJson, bind, get_world, emit, ret. cbn.
  unfold sent_token in Hj. rewrite Hj.
  destruct j as [| | | |elements|fields]; try done. by destruct (Harr elements).
Qed.

Lemma getRelease_not_a_list_witness :
  "2.1.0" <> "latest" /\
  http_json Examples2.rate_limited RELEASES_URL (sent_token Examples.empty_world)
    = Some Examples2.rate_limit_answer /\
  fst (getRelease Examples2.rate_limited "2.1.0" Examples.empty_world)
  = Rejected (NoReleaseFoundError "No release version matches v2.1.0.").
Proof.
  split; [discriminate|]. split; [reflexivity|].
  apply (getRelease_not_a_list Examples2.rate_limited "2.1.0" Examples.empty_world
           Examples2.rate_limit_answer); [discriminate|reflexivity|].
  intros elements. discriminate.
Defined.

Lemma authenticate_settles env create w :
  exists answer w',
    authenticate env create w = (Fulfilled answer, w') /\
    fs w' = fs w /\
    credential w' =
      match get_session env create with
      | SessionGranted s => Credential_set s
      | ConsentRefused => mkCredential None None
      | SessionFailure => credential w
      end.
Proof.
  unfold authenticate, bind, emit, set_credential, get_world, ret. cbn.
  destruct (get_session env create); eexists _, _; by repeat split.
Qed.

(** X8: [authenticate] never rejects and never stays pending.  Its answer is
    whether a session is held afterwards; a granted session replaces the
    credential, a refused consent clears it, and any other failure shows
    an error and leaves the credential as it was.  No file changes. *)
Theorem authenticate_reports_credential env create w :
  exists answer w',
    authenticate env create w = (Fulfilled answer, w') /\
    answer = authenticated (credential w') /\
    fs w' = fs w /\
    credential w' =
      match get_session env create with
      | SessionGranted s => Credential_set s
      | ConsentRefused => mkCredential None None
      | SessionFailure => credential w
      end /\
    (In (ErrorMessage "Failed to authenticate with GitHub") (new_events (authenticate env create) w)
     <-> get_session env create = SessionFailure).
Proof.
  assert (exists l,
            authenticate env create w =
              (Fulfilled (authenticated
                            match get_session env create with
                            | SessionGranted s => Credential_set s
                            | ConsentRefused => mkCredential None None
                            | SessionFailure => credential w
                            end),
               mkWorld (fs w)
                       match get_session env create with
                       | SessionGranted s => Credential_set s
                       | ConsentRefused => mkCredential None None
                       | SessionFailure => credential w
                       end
                       (l ++ trace w)) /\
            (In (ErrorMessage "Failed to authenticate with GitHub") l
             <-> get_session env create = SessionFailure)) as (l & Hrun & Hl).
  { unfold authenticate, bind, emit, set_credential, get_world, ret. cbn.
    destruct (get_session env create) as [s| |].
    - exists [GetSession create]. split; [done|].
      split; [intros [?|[]]|]; discriminate.
    - exists [GetSession create]. split; [done|].
      split; [intros [?|[]]|]; discriminate.
    - exists [ErrorMessage "Failed to authenticate with GitHub"; GetSession create].
      split; [done|]. split; [done|]. intros _. by left. }
  eexists _, _. split; [exact Hrun|]. cbn. repeat split; try done.
  - erewrite new_events_app; [|by rewrite Hrun]. rewrite <- Hl. intros Hin.
    by apply in_rev.
  - erewrite new_events_app; [|by rewrite Hrun]. rewrite <- Hl. intros Hin.
    by apply in_rev in Hin.
Qed.

(** X9: After a change of the [github] sessions the credential is the session
    found anew, or none: never the one held before.  A change of another
    provider's sessions changes nothing. *)
Theorem onDidChangeSessions_refreshes env providerId w :
  (providerId = "github" ->
   exists w',
     onDidChangeSessions env providerId w = (Fulfilled tt, w') /\
     fs w' = fs w /\
     credential w' =
       match get_session env false with
       | SessionGranted s => Credential_set s
       | ConsentRefused | SessionFailure => mkCredential None None
       end) /\
  (providerId <> "github" -> onDidChangeSessions env providerId w = (Fulfilled tt, w)).
Proof.
  unfold onDidChangeSessions. split.
  - intros ->. cbn [String.eqb Ascii.eqb Bool.eqb].
    change (String.eqb "github" "github") with true. cbv iota.
    unfold bind at 1. cbn [set_credential].
    match goal with |- context [bind (authenticate env false) _ ?w0] =>
      destruct (authenticate_settles env false w0) as (answer & w' & Hrun & Hfs & Hcred)
    end.
    unfold bind, ret. rewrite Hrun. eexists. split; [reflexivity|].
    split; [exact Hfs|]. rewrite Hcred. cbn. by destruct (get_session env false).
  - intros Hne. apply String.eqb_neq in Hne. by rewrite Hne.
Qed.

Lemma onDidChangeSessions_refreshes_witness :
  (exists w',
     onDidChangeSessions Examples2.session_lost "github" Examples2.signed_in_world
       = (Fulfilled tt, w') /\
     credential w' = mkCredential None None) /\
  onDidChangeSessions Examples2.session_lost "microsoft" Examples2.signed_in_world
    = (Fulfilled tt, Examples2.signed_in_world).
Proof.
  destruct (onDidChangeSessions_refreshes Examples2.session_lost "github"
              Examples2.signed_in_world) as [Hgithub _].
  destruct (onDidChangeSessions_refreshes Examples2.session_lost "microsoft"
              Examples2.signed_in_world) as [_ Hother].
  split.
  - destruct (Hgithub eq_refl) as (w' & Hrun & _ & Hcred). by exists w'.
  - apply Hother. discriminate.
Defined.

End ClientFacts.

(** ** [download.ts]: resolution, tier by tier *)

Module TierFacts.
Import JsString Utilities GitHub Download Observe Tiers ResolveFacts.

Lemma truthy_opt_some o :
  truthy_opt o = true -> exists p, o = Some p /\ p <> "" /\ truthy p = true.
Proof. destruct o as [[|c p]|]; try done. intros _. by eexists. Qed.

(** The second tier: a binary on the search path that reports a version. *)
Lemma findStylua_path env cwd w :
  truthy_opt (styluaPath (config env)) = false ->
  path_usable env w = true ->
  exists resolvedPath,
    which_stylua env = Some resolvedPath /\ resolvedPath <> "" /\
    findStylua env cwd w =
      (Fulfilled (mkInfo (resolvedPath, resolvedPath) Path None),
       mkWorld (fs w) (credential w)
         ([Exec resolvedPath cwd;
           LogInfo ("Stylua found on PATH: " +:+ resolvedPath);
           Which; LogInfo "Searching for stylua on PATH"] ++ trace w)).
Proof.
  intros Hset [[Hsearch Hwhich]%andb_true_iff Hv]%andb_true_iff.
  destruct (truthy_opt_some _ Hwhich) as (rp & Hrp & Hne & Ht).
  exists rp. split; [done|]. split; [done|].
  unfold findStylua. rewrite Hset, Hsearch.
  unfold bind at 1. unfold bind at 1. cbn [emit]. unfold bind at 1. cbn [emit].
  rewrite Hwhich. unfold bind at 1. cbn [emit].
  rewrite Hrp in *. change (default "" (Some rp)) with rp in *.
  unfold bind at 1. rewrite getStyluaVersion_run.
  unfold reported_version in *. cbn [fs credential trace].
  rewrite Hv. reflexivity.
Qed.

(** The third tier: everything else falls back to the bundled binary. *)
Lemma findStylua_fallback env cwd w :
  truthy_opt (styluaPath (config env)) = false ->
  path_usable env w = false ->
  exists l,
    findStylua env cwd w =
      (match getDownloadOutputFilename env with
       | Ok outputFilename =>
           Fulfilled (mkInfo (bundledPath env outputFilename,
                              bundledPath env outputFilename) Bundled None)
       | Throw e => Rejected e
       end,
       mkWorld (fs w) (credential w) (l ++ trace w)) /\
    Forall (fun e => is_local e = true) l /\
    (In Which l <-> searchBinaryInPATH (config env) = true).
Proof.
  intros Hset Hno. unfold path_usable in Hno. unfold findStylua. rewrite Hset.
  destruct (searchBinaryInPATH (config env)) eqn:Hsearch.
  - destruct (truthy_opt (which_stylua env)) eqn:Hwhich.
    + cbn [andb] in Hno.
      unfold bind at 1. unfold bind at 1. cbn [emit]. unfold bind at 1. cbn [emit].
      unfold bind at 1. cbn [emit].
      unfold bind at 1. rewrite getStyluaVersion_run.
      unfold reported_version in *. cbn [fs credential trace].
      rewrite Hno.
      exists [LogInfo "Falling back to bundled StyLua version";
              LogError "Stylua binary found on PATH failed to execute";
              Exec (default "" (which_stylua env)) cwd;
              LogInfo ("Stylua found on PATH: " +:+ default "" (which_stylua env));
              Which; LogInfo "Searching for stylua on PATH"].
      split; [|split; [repeat constructor|cbn; intuition discriminate]].
      unfold bind, emit, ret, lift, reject. cbn.
      by destruct (getDownloadOutputFilename env).
    + exists [LogInfo "Falling back to bundled StyLua version";
              Which; LogInfo "Searching for stylua on PATH"].
      split; [|split; [repeat constructor|cbn; intuition discriminate]].
      unfold bind, emit, ret, lift, reject. cbn.
      by destruct (getDownloadOutputFilename env).
  - exists [LogInfo "Falling back to bundled StyLua version"].
    split; [|split; [repeat constructor|cbn; intuition discriminate]].
    unfold bind, emit, ret, lift, reject. cbn.
    by destruct (getDownloadOutputFilename env).
Qed.

Lemma findStylua_first_tier env cwd w :
  truthy_opt (styluaPath (config env)) = true ->
  exists p message,
    styluaPath (config env) = Some p /\ p <> "" /\
    findStylua env cwd w =
      (Fulfilled (mkInfo (p, configured_secondary env p) Configuration None),
       mkWorld (fs w) (credential w) ([LogInfo message] ++ trace w)).
Proof.
  intros Hset. destruct (truthy_opt_some _ Hset) as (p & Hp & Hne & _).
  destruct (findStylua_configured env cwd w p Hp Hne) as [message Hrun].
  by exists p, message.
Qed.

(** X10: [findStylua] applies its three tiers in order.  A configured path
    wins; otherwise a binary on the search path is taken when the search
    is enabled, a binary is found there and it reports a version;
    otherwise the bundled path under the storage directory is returned
    for both variants, and the call is rejected with [BadPlatformError]
    on a platform without a bundled binary.  The search path is consulted
    exactly when no path is configured and the search is enabled; the call
    changes neither files nor credential, and never stays pending. *)
Theorem findStylua_precedence env cwd w :
  let run := findStylua env cwd w in
  let configured := truthy_opt (styluaPath (config env)) in
  fs (snd run) = fs w /\ credential (snd run) = credential w /\
  (In Which (new_events (findStylua env cwd) w)
   <-> configured = false /\ searchBinaryInPATH (config env) = true) /\
  match fst run with
  | Fulfilled stylua =>
      version stylua = None /\
      match resolveMode stylua with
      | Configuration =>
          configured = true /\
          fst (paths stylua) = default "" (styluaPath (config env))
      | Path =>
          configured = false /\ path_usable env w = true /\
          paths stylua = (default "" (which_stylua env), default "" (which_stylua env))
      | Bundled =>
          configured = false /\ path_usable env w = false /\
          exists outputFilename,
            getDownloadOutputFilename env = Ok outputFilename /\
            paths stylua = (bundledPath env outputFilename, bundledPath env outputFilename)
      end
  | Rejected e =>
      e = BadPlatformError /\ configured = false /\ path_usable env w = false /\
      getDownloadOutputFilename env = Throw BadPlatformError
  | Pending => False
  end.
Proof.
  intros run configured. subst run.
  destruct configured eqn:Hset; subst configured.
  - destruct (findStylua_first_tier env cwd w Hset) as (p & m & Hp & Hne & Hrun).
    rewrite (new_events_app _ _ [LogInfo m]) by (by rewrite Hrun).
    rewrite Hrun, Hp. cbn.
    split; [done|]. split; [done|]. split; [|done].
    split; [intros [?|[]]; discriminate|by intros [? _]].
  - destruct (path_usable env w) eqn:Hus.
    + destruct (findStylua_path env cwd w Hset Hus) as (rp & Hrp & Hne & Hrun).
      erewrite new_events_app by (by rewrite Hrun).
      rewrite Hrun, Hrp. cbn.
      split; [done|]. split; [done|]. split; [|done].
      split; [intros _|auto].
      split; [done|].
      unfold path_usable in Hus. by destruct (searchBinaryInPATH (config env)).
    + destruct (findStylua_fallback env cwd w Hset Hus) as (l & Hrun & Hloc & Hwhich).
      erewrite new_events_app by (by rewrite Hrun).
      rewrite Hrun. cbn [fst snd fs credential].
      split; [done|]. split; [done|]. split.
      { rewrite <- in_rev, Hwhich. intuition. }
      unfold getDownloadOutputFilename, getDownloadOutputFilenameFor.
      destruct (String.eqb (platform env) "win32"); [cbn; eauto 10|].
      destruct (String.eqb (platform env) "linux" || String.eqb (platform env) "darwin");
        cbn; eauto 10.
Qed.

End TierFacts.

(** ** [download.ts]: whole runs of [ensureStyluaExists] *)

Module RunFacts.
Import JsString Utilities GitHub Download Observe Tiers ResolveFacts TierFacts.

Lemma bind_ext_run {A B} (m : M A) (k1 k2 : A -> M B) (w : World) :
  (forall a w', m w = (Fulfilled a, w') -> k1 a w' = k2 a w') ->
  bind m k1 w = bind m k2 w.
Proof.
  intros Hk. unfold bind. destruct (m w) as [[a|e|] w']; [|done..]. by apply Hk.
Qed.

Section WithSemver.
Context `{Semver} (env : Env).

Lemma ensureStyluaExists_on_search_path fuel cwd styluaType w :
  truthy_opt (styluaPath (config env)) = false ->
  path_usable env w = true ->
  exists resolvedPath v,
    which_stylua env = Some resolvedPath /\
    reported_version env w resolvedPath = Some v /\ v <> "" /\
    ensureStyluaExists_fuel env (S fuel) cwd styluaType w =
      (Fulfilled (Some (mkInfo (resolvedPath, resolvedPath) Path (Some v))),
       mkWorld (fs w) (credential w)
         ([Exec resolvedPath cwd; Exec resolvedPath cwd;
           LogInfo ("Stylua found on PATH: " +:+ resolvedPath);
           Which; LogInfo "Searching for stylua on PATH"] ++ trace w)).
Proof.
  intros Hset Hus.
  destruct (findStylua_path env cwd w Hset Hus) as (rp & Hrp & Hne & Hrun).
  unfold path_usable in Hus. rewrite Hrp in Hus.
  change (default "" (Some rp)) with rp in Hus.
  apply andb_true_iff in Hus as [_ Hv].
  destruct (truthy_opt_some _ Hv) as (v & Hrep & Hvne & _).
  exists rp, v. split; [done|]. split; [done|]. split; [done|].
  cbn [ensureStyluaExists_fuel]. unfold bind at 1. rewrite Hrun.
  cbn [resolveMode paths]. unfold bind. rewrite getStyluaVersion_run.
  assert (pick styluaType (rp, rp) = rp) as -> by (by destruct styluaType).
  unfold reported_version in *. cbn [fs credential trace]. rewrite Hrep.
  reflexivity.
Qed.

(** X11: A binary taken from the search path is run once to see whether it
    works and once more for its version, and always comes back with a
    non-empty version.  Nothing else happens: no file is looked up or
    written, no request is made, no signal is raised. *)
Theorem path_tier_run fuel cwd styluaType w :
  truthy_opt (styluaPath (config env)) = false ->
  path_usable env w = true ->
  exists resolvedPath v,
    which_stylua env = Some resolvedPath /\
    reported_version env w resolvedPath = Some v /\ v <> "" /\
    ensureStyluaExists_fuel env (S fuel) cwd styluaType w =
      (Fulfilled (Some (mkInfo (resolvedPath, resolvedPath) Path (Some v))),
       mkWorld (fs w) (credential w)
         ([Exec resolvedPath cwd; Exec resolvedPath cwd;
           LogInfo ("Stylua found on PATH: " +:+ resolvedPath);
           Which; LogInfo "Searching for stylua on PATH"] ++ trace w)).
Proof. apply ensureStyluaExists_on_search_path. Qed.

(** X12: The version checks belong to the bundled tier alone: when
    [findStylua] resolves from the configuration or from the search path,
    a run of [ensureStyluaExists] raises no mismatch or update signal,
    makes no request, and leaves files and credential as they were. *)
Theorem reconciliation_only_in_bundled_tier fuel cwd styluaType w stylua :
  fst (findStylua env cwd w) = Fulfilled stylua ->
  resolveMode stylua <> Bundled ->
  let run := ensureStyluaExists_fuel env (S fuel) cwd styluaType w in
  Forall (fun e => is_reconciliation_signal e = false /\ is_request e = false)
         (new_events (ensureStyluaExists_fuel env (S fuel) cwd styluaType) w) /\
  fs (snd run) = fs w /\ credential (snd run) = credential w.
Proof.
  intros Hfind Hmode run. subst run.
  destruct (truthy_opt (styluaPath (config env))) eqn:Hset.
  - destruct (truthy_opt_some _ Hset) as (p & Hp & Hne & _).
    destruct (ensureStyluaExists_configured env fuel cwd styluaType w p Hp Hne)
      as [message Hrun].
    destruct (bool_decide _) in Hrun.
    + erewrite new_events_app; [|rewrite Hrun; cbn;
        by instantiate (1 := [Exec _ cwd; Stat _; LogInfo message])].
      rewrite Hrun. split; [repeat constructor|done].
    + erewrite new_events_app; [|rewrite Hrun; cbn;
        by instantiate (1 := [ErrorMessage _; Stat _; LogInfo message])].
      rewrite Hrun. split; [repeat constructor|done].
  - destruct (path_usable env w) eqn:Hus.
    + destruct (ensureStyluaExists_on_search_path fuel cwd styluaType w Hset Hus)
        as (rp & v & _ & _ & _ & Hrun).
      erewrite new_events_app; [|by rewrite Hrun].
      rewrite Hrun. split; [repeat constructor|done].
    + destruct (findStylua_fallback env cwd w Hset Hus) as (l & Hrun & _).
      rewrite Hrun in Hfind. cbn in Hfind.
      destruct (getDownloadOutputFilename env); [|discriminate].
      injection Hfind as <-. done.
Qed.

(** X13: A configured path that does not exist is an error, not a reason to
    fall back: the run ends with no binary and an error message that
    names the path, and nothing was run, searched or downloaded, whatever
    is on the search path or in the storage directory. *)
Theorem configured_path_missing fuel cwd styluaType w p :
  styluaPath (config env) = Some p -> p <> "" ->
  let path := pick styluaType (p, configured_secondary env p) in
  fs w !! path = None ->
  exists message,
    ensureStyluaExists_fuel env (S fuel) cwd styluaType w =
      (Fulfilled None,
       mkWorld (fs w) (credential w)
         ([ErrorMessage ("The path given for StyLua (" +:+ path +:+ ") does not exist");
           Stat path; LogInfo message] ++ trace w)).
Proof.
  intros Hp Hne path Hmissing.
  destruct (ensureStyluaExists_configured env fuel cwd styluaType w p Hp Hne)
    as [message Hrun].
  exists message. fold path in Hrun. rewrite Hrun.
  rewrite bool_decide_eq_false_2; [done|].
  rewrite Hmissing. by intros [? ?].
Qed.

Lemma findStylua_same_paths cwd w stylua w1 :
  truthy_opt (styluaRoactPath (config env)) = false ->
  findStylua env cwd w = (Fulfilled stylua, w1) ->
  fst (paths stylua) = snd (paths stylua).
Proof.
  intros Hreact Hrun.
  destruct (truthy_opt (styluaPath (config env))) eqn:Hset.
  - destruct (findStylua_first_tier env cwd w Hset) as (p & m & Hp & Hne & Hrun').
    rewrite Hrun' in Hrun. injection Hrun as <- _.
    unfold configured_secondary. by rewrite Hreact.
  - destruct (path_usable env w) eqn:Hus.
    + destruct (findStylua_path env cwd w Hset Hus) as (rp & Hrp & Hne & Hrun').
      rewrite Hrun' in Hrun. by injection Hrun as <- _.
    + destruct (findStylua_fallback env cwd w Hset Hus) as (l & Hrun' & _).
      rewrite Hrun' in Hrun.
      destruct (getDownloadOutputFilename env); [|discriminate].
      by injection Hrun as <- _.
Qed.

(** X14: The variant asked for matters only when a secondary path is
    configured: without [stylua.styluaRoactPath] both variants resolve
    to the same file, and [ensureStyluaExists] runs alike for them. *)
Theorem variant_needs_secondary_path fuel cwd w :
  truthy_opt (styluaRoactPath (config env)) = false ->
  ensureStyluaExists_fuel env fuel cwd React w
  = ensureStyluaExists_fuel env fuel cwd Standard w.
Proof.
  intros Hreact. destruct fuel as [|fuel]; [done|].
  cbn [ensureStyluaExists_fuel]. apply bind_ext_run. intros stylua w1 Hrun.
  pose proof (findStylua_same_paths cwd w stylua w1 Hreact Hrun) as Hsame.
  assert (pick React (paths stylua) = pick Standard (paths stylua)) as ->
    by (by destruct (paths stylua)).
  reflexivity.
Qed.

End WithSemver.

Lemma path_tier_run_witness :
  truthy_opt (styluaPath (config Examples2.on_search_path)) = false /\
  path_usable Examples2.on_search_path Examples2.search_path_world = true /\
  @ensureStyluaExists_fuel NumericSemver.instance Examples2.on_search_path 1 None
    Standard Examples2.search_path_world
  = (Fulfilled (Some (mkInfo ("/usr/bin/stylua", "/usr/bin/stylua") Path (Some "2.1.0"))),
     mkWorld (fs Examples2.search_path_world) (credential Examples2.search_path_world)
       [Exec "/usr/bin/stylua" None; Exec "/usr/bin/stylua" None;
        LogInfo "Stylua found on PATH: /usr/bin/stylua";
        Which; LogInfo "Searching for stylua on PATH"]).
Proof.
  split; [reflexivity|]. split; [reflexivity|].
  destruct (@path_tier_run NumericSemver.instance Examples2.on_search_path 0 None
              Standard Examples2.search_path_world eq_refl eq_refl)
    as (rp & v & Hrp & Hv & _ & Hrun).
  injection Hrp as <-. injection Hv as <-. exact Hrun.
Defined.

Lemma reconciliation_only_in_bundled_tier_witness :
  fst (findStylua Examples2.on_search_path None Examples2.search_path_world)
    = Fulfilled (mkInfo ("/usr/bin/stylua", "/usr/bin/stylua") Path None) /\
  Path <> Bundled /\
  Forall (fun e => is_reconciliation_signal e = false /\ is_request e = false)
         (new_events (@ensureStyluaExists_fuel NumericSemver.instance
                        Examples2.on_search_path 1 None Standard)
                     Examples2.search_path_world).
Proof.
  split; [reflexivity|]. split; [discriminate|].
  refine (proj1 (@reconciliation_only_in_bundled_tier NumericSemver.instance
                   Examples2.on_search_path 0 None Standard Examples2.search_path_world
                   _ eq_refl _)).
  discriminate.
Defined.

Lemma configured_path_missing_witness :
  styluaPath (config Examples.configured_1_3_0) = Some "/opt/stylua" /\
  "/opt/stylua" <> "" /\
  fs Examples.installed_world !! "/opt/stylua" = None /\
  fst (@ensureStyluaExists_fuel NumericSemver.instance Examples.configured_1_3_0 1 None
         Standard Examples.installed_world) = Fulfilled None.
Proof.
  split; [reflexivity|]. split; [discriminate|]. split; [reflexivity|].
  destruct (@configured_path_missing NumericSemver.instance Examples.configured_1_3_0
              0 None Standard Examples.installed_world "/opt/stylua" eq_refl
              ltac:(discriminate) eq_refl) as [message Hrun].
  by rewrite Hrun.
Defined.

Lemma variant_needs_secondary_path_witness :
  truthy_opt (styluaRoactPath (config Examples.configured_1_3_0)) = false /\
  @ensureStyluaExists_fuel NumericSemver.instance Examples.configured_1_3_0 2 None
    React Examples.configured_world
  = @ensureStyluaExists_fuel NumericSemver.instance Examples.configured_1_3_0 2 None
      Standard Examples.configured_world.
Proof.
  split; [reflexivity|].
  apply (@variant_needs_secondary_path NumericSemver.instance). reflexivity.
Defined.

End RunFacts.

(** ** [download.ts]: runs with the bundled binary in place *)

Module BundledFacts.
Import JsString Utilities GitHub Download Observe Tiers ResolveFacts TierFacts RunFacts.

Lemma getRelease_settles env version w :
  fst (getRelease env version w) <> Pending.
Proof.
  unfold getRelease, getAllReleases, fetchJson, bind, get_world, emit, ret, reject, lift.
  destruct (String.eqb version "latest"); cbn.
  - destruct (http_json env RELEASES_URL_LATEST _) as [j|]; [|done].
    by destruct (releaseFromJson j).
  - destruct (http_json env RELEASES_URL _) as [j|]; [|done].
    destruct j as [| | | |elements|fields]; cbn; try done.
    destruct (result_map releaseFromJson elements); cbn; [|done].
    by destruct (List.find _ _).
Qed.

Lemma authenticate_run env create w :
  exists granted w',
    authenticate env create w = (Fulfilled granted, w') /\
    fs w' = fs w /\
    (granted = true -> authenticated (credential w') = true).
Proof.
  unfold authenticate, bind, emit, set_credential, get_world, ret. cbn.
  destruct (get_session env create); eexists _, _; (split; [reflexivity|]);
    cbn; done.
Qed.

Section WithSemver.
Context `{Semver} (env : Env).

Lemma checkLatestVersion_completes retry stylua w :
  (forall w', fs w' = fs w -> authenticated (credential w') = true ->
              completes env w' (retry w')) ->
  completes env w (checkLatestVersion env retry stylua w).
Proof.
  intros Hretry. unfold checkLatestVersion.
  destruct (disableVersionCheck (config env)).
  { exists (Some stylua). by repeat split. }
  unfold try_catch, bind at 1.
  pose proof (DownloadFacts.getRelease_fs env "latest" w) as Hfs.
  pose proof (getRelease_settles env "latest" w) as Hset.
  destruct (getRelease env "latest" w) as [[release|e|] w1]; cbn in Hfs, Hset;
    [| |done].
  { exists (Some stylua).
    destruct (bool_decide _); cbn; by repeat split. }
  unfold bind at 1. cbn [emit]. unfold bind at 1. cbn [get_world credential].
  destruct (negb (authenticated (credential w1))).
  2:{ exists (Some stylua). cbn. by repeat split. }
  unfold bind at 1. cbn [emit].
  destruct (picks_authenticate env).
  2:{ exists (Some stylua). cbn. by repeat split. }
  match goal with |- context [bind (authenticate env true) _ ?w0] =>
    destruct (authenticate_run env true w0) as (granted & w2 & Hrun & Hfs2 & Hg) end.
  unfold bind. rewrite Hrun. cbn in Hfs2.
  destruct granted.
  - destruct (Hretry w2) as (r & Hr & Hrfs & Hnone); [congruence|by apply Hg|].
    exists r. split; [done|]. split; [congruence|done].
  - exists (Some stylua). cbn. split; [done|]. split; [congruence|done].
Qed.

(** A bundled run with the binary in place, up to the version check. *)
Lemma bundled_reaches_check fuel cwd styluaType w outputFilename :
  truthy_opt (styluaPath (config env)) = false ->
  path_usable env w = false ->
  getDownloadOutputFilename env = Ok outputFilename ->
  is_Some (fs w !! bundledPath env outputFilename) ->
  exists l,
    Forall (fun e => is_local e = true \/
                     exists current requested, e = IncorrectVersionPrompt current requested) l /\
    ensureStyluaExists_fuel env (S fuel) cwd styluaType w =
      checkLatestVersion env (ensureStyluaExists_fuel env fuel cwd Standard)
        (mkInfo (bundledPath env outputFilename, bundledPath env outputFilename) Bundled
                (reported_version env w (bundledPath env outputFilename)))
        (mkWorld (fs w) (credential w) (l ++ trace w)).
Proof.
  intros Hset Hus Hout Hpresent.
  destruct (findStylua_fallback env cwd w Hset Hus) as (l1 & Hfind & Hl1 & _).
  rewrite Hout in Hfind.
  cbn [ensureStyluaExists_fuel]. unfold bind at 1. rewrite Hfind.
  cbn [resolveMode paths].
  assert (pick styluaType (bundledPath env outputFilename, bundledPath env outputFilename)
          = bundledPath env outputFilename) as -> by (by destruct styluaType).
  unfold bind at 1. unfold acquireIfMissing, bind at 1. rewrite fileExists_run.
  cbn [fs]. rewrite bool_decide_eq_true_2 by done. cbn [negb ret].
  unfold bind at 1. rewrite getStyluaVersion_run. cbn [fs credential trace].
  unfold bind at 1.
  match goal with |- context [checkDesiredVersion env ?v ?w0] =>
    destruct (ReconcileFacts.checkDesiredVersion_run env v w0) as (l2 & Hcheck & Hl2)
  end.
  rewrite Hcheck. cbn [fs credential trace with_version paths resolveMode].
  exists (l2 ++ [Exec (bundledPath env outputFilename) cwd;
                 Stat (bundledPath env outputFilename)] ++ l1).
  split.
  - apply Forall_app. split.
    + subst l2.
      repeat case_match;
        first [ solve [constructor]
              | constructor; [right; eauto|constructor] ].
    + apply Forall_app. split.
      * constructor; [by left|]. constructor; [by left|]. constructor.
      * eapply Forall_impl; [exact Hl1|]. intros e He. by left.
  - unfold reported_version. cbn [fs]. rewrite <- !app_assoc. reflexivity.
Qed.

Lemma pass_completes fuel cwd styluaType w outputFilename :
  getDownloadOutputFilename env = Ok outputFilename ->
  is_Some (fs w !! bundledPath env outputFilename) ->
  (forall stylua w', fs w' = fs w -> credential w' = credential w ->
     completes env w'
       (checkLatestVersion env (ensureStyluaExists_fuel env fuel cwd Standard)
          stylua w')) ->
  completes env w (ensureStyluaExists_fuel env (S fuel) cwd styluaType w).
Proof.
  intros Hout Hpresent Hcheck.
  destruct (truthy_opt (styluaPath (config env))) eqn:Hset.
  - destruct (truthy_opt_some _ Hset) as (p & Hp & Hne & _).
    destruct (ensureStyluaExists_configured env fuel cwd styluaType w p Hp Hne)
      as [message Hrun].
    rewrite Hrun. destruct (bool_decide _); eexists; by repeat split.
  - destruct (path_usable env w) eqn:Hus.
    + destruct (ensureStyluaExists_on_search_path env fuel cwd styluaType w Hset Hus)
        as (rp & v & _ & _ & _ & Hrun).
      rewrite Hrun. eexists; by repeat split.
    + destruct (bundled_reaches_check fuel cwd styluaType w outputFilename
                  Hset Hus Hout Hpresent) as (l & _ & Hrun).
      rewrite Hrun.
      match goal with |- context [checkLatestVersion env _ ?s ?w0] =>
        destruct (Hcheck s w0 eq_refl eq_refl) as (r & Hr & Hfs & Hnone) end.
      exists r. by repeat split.
Qed.

Lemma authenticated_run_completes fuel cwd styluaType w outputFilename :
  getDownloadOutputFilename env = Ok outputFilename ->
  is_Some (fs w !! bundledPath env outputFilename) ->
  authenticated (credential w) = true ->
  completes env w (ensureStyluaExists_fuel env (S fuel) cwd styluaType w).
Proof.
  intros Hout Hpresent Hauth.
  apply (pass_completes _ _ _ _ outputFilename); [done..|].
  intros stylua w' Hfs Hcred.
  rewrite (RetryFacts.retry_unreachable env _ (ret (Some stylua)))
    by (by rewrite Hcred).
  apply checkLatestVersion_completes. intros w'' _ _.
  exists (Some stylua). by repeat split.
Qed.

Lemma installed_run_completes cwd styluaType w outputFilename :
  getDownloadOutputFilename env = Ok outputFilename ->
  is_Some (fs w !! bundledPath env outputFilename) ->
  exists r w',
    ensureStyluaExists env cwd styluaType w = (Fulfilled r, w') /\
    fs w' = fs w /\
    (r = None -> truthy_opt (styluaPath (config env)) = true).
Proof.
  intros Hout Hpresent.
  assert (completes env w (ensureStyluaExists env cwd styluaType w))
    as (r & Hr & Hfs & Hnone).
  { unfold ensureStyluaExists.
    apply (pass_completes _ _ _ _ outputFilename); [done..|].
    intros stylua w' Hfs Hcred. apply checkLatestVersion_completes.
    intros w'' Hfs' Hauth.
    apply (authenticated_run_completes _ _ _ _ outputFilename); [done| |done].
    by rewrite Hfs', Hfs. }
  destruct (ensureStyluaExists env cwd styluaType w) as [o w'].
  exists r, w'. cbn in *. by subst.
Qed.

(** X15: With the bundled binary in place [ensureStyluaExists] always comes
    back with a result: a failing release query, an offer to
    authenticate that is declined or that fails, a binary that cannot
    report its version all end in a fulfilled promise, with a binary
    unless a configured path is missing, and no file is created, changed
    or removed. *)
Theorem installed_binary_run_completes cwd styluaType w outputFilename :
  getDownloadOutputFilename env = Ok outputFilename ->
  is_Some (fs w !! bundledPath env outputFilename) ->
  exists r w',
    ensureStyluaExists env cwd styluaType w = (Fulfilled r, w') /\
    fs w' = fs w /\
    (r = None -> truthy_opt (styluaPath (config env)) = true).
Proof. apply installed_run_completes. Qed.

(** X16: With [stylua.disableVersionCheck] set and the bundled binary in
    place, a run of [ensureStyluaExists] makes no request over the
    network, whichever tier resolves. *)
Theorem disabled_check_makes_no_request fuel cwd styluaType w outputFilename :
  disableVersionCheck (config env) = true ->
  getDownloadOutputFilename env = Ok outputFilename ->
  is_Some (fs w !! bundledPath env outputFilename) ->
  Forall (fun e => is_request e = false)
         (new_events (ensureStyluaExists_fuel env (S fuel) cwd styluaType) w).
Proof.
  intros Hoff Hout Hpresent.
  destruct (truthy_opt (styluaPath (config env))) eqn:Hset.
  - destruct (truthy_opt_some _ Hset) as (p & Hp & Hne & _).
    destruct (ensureStyluaExists_configured env fuel cwd styluaType w p Hp Hne)
      as [message Hrun].
    destruct (bool_decide _) in Hrun.
    + erewrite new_events_app; [|rewrite Hrun; cbn;
        by instantiate (1 := [Exec _ cwd; Stat _; LogInfo message])].
      repeat constructor.
    + erewrite new_events_app; [|rewrite Hrun; cbn;
        by instantiate (1 := [ErrorMessage _; Stat _; LogInfo message])].
      repeat constructor.
  - destruct (path_usable env w) eqn:Hus.
    + destruct (ensureStyluaExists_on_search_path env fuel cwd styluaType w Hset Hus)
        as (rp & v & _ & _ & _ & Hrun).
      erewrite new_events_app; [|by rewrite Hrun]. repeat constructor.
    + destruct (bundled_reaches_check fuel cwd styluaType w outputFilename
                  Hset Hus Hout Hpresent) as (l & Hl & Hrun).
      erewrite (new_events_app _ _ (HideUpdate :: l)).
      2:{ rewrite Hrun. unfold checkLatestVersion. by rewrite Hoff. }
      apply Forall_rev. constructor; [done|].
      eapply Forall_impl; [exact Hl|]. intros e [He|(c & r & ->)]; [|done].
      by destruct e.
Qed.

End WithSemver.

Lemma installed_binary_run_completes_witness :
  getDownloadOutputFilename (Examples.bundled_env None "2.1.0" Examples.no_api false)
    = Ok "stylua" /\
  fs Examples.installed_world !! "/storage/stylua" = Some "ELF" /\
  exists r w',
    @ensureStyluaExists NumericSemver.instance
      (Examples.bundled_env None "2.1.0" Examples.no_api false) None Standard
      Examples.installed_world = (Fulfilled r, w') /\
    fs w' = fs Examples.installed_world.
Proof.
  split; [reflexivity|]. split; [reflexivity|].
  destruct (@installed_binary_run_completes NumericSemver.instance
              (Examples.bundled_env None "2.1.0" Examples.no_api false) None Standard
              Examples.installed_world "stylua" eq_refl (ex_intro _ "ELF" eq_refl))
    as (r & w' & Hrun & Hfs & _).
  by exists r, w'.
Defined.

Lemma disabled_check_makes_no_request_witness :
  disableVersionCheck (config (Examples.bundled_env (Some "1.2.0") "2.1.0"
                                 Examples.no_api true)) = true /\
  fs Examples.installed_world !! "/storage/stylua" = Some "ELF" /\
  Forall (fun e => is_request e = false)
         (new_events (@ensureStyluaExists_fuel NumericSemver.instance
                        (Examples.bundled_env (Some "1.2.0") "2.1.0" Examples.no_api true)
                        2 None Standard)
                     Examples.installed_world).
Proof.
  split; [reflexivity|]. split; [reflexivity|].
  exact (@disabled_check_makes_no_request NumericSemver.instance
           (Examples.bundled_env (Some "1.2.0") "2.1.0" Examples.no_api true)
           1 None Standard Examples.installed_world "stylua" eq_refl eq_refl
           (ex_intro _ "ELF" eq_refl)).
Defined.

End BundledFacts.

(** ** [download.ts]: what a download can and cannot do *)

Module AcquireFacts.
Import JsString Json Utilities GitHub Download Observe Tiers Payload Acquisition.

Lemma releaseFromJson_throws j e : releaseFromJson j = Throw e -> e = TypeError.
Proof.
  assert (forall l, result_map assetFromJson l = Throw e -> e = TypeError) as Hassets.
  { induction l as [|a l IH]; cbn; [done|].
    destruct (assetFromJson a) eqn:Ha; cbn.
    - destruct (result_map assetFromJson l); cbn; [done|].
      intros [= <-]. by apply IH.
    - intros [= <-]. unfold assetFromJson, member in Ha.
      destruct a; cbn in Ha; congruence. }
  unfold releaseFromJson. destruct (negb _); [done|].
  destruct j as [| | | |elements|fields]; cbn; try congruence.
  destruct (lookup_field "assets" fields) as [[| | | |l|]|]; cbn; try done.
  destruct (result_map assetFromJson l) eqn:Hl; cbn; [done|].
  intros [= <-]. by apply (Hassets l).
Qed.

Lemma result_map_throws l e :
  result_map releaseFromJson l = Throw e -> e = TypeError.
Proof.
  induction l as [|j l IH]; cbn; [done|].
  destruct (releaseFromJson j) eqn:Hj; cbn.
  - destruct (result_map releaseFromJson l); cbn; [done|].
    intros [= <-]. by apply IH.
  - intros [= <-]. by apply (releaseFromJson_throws j).
Qed.

(** A run of [getRelease]: one request, an outcome that depends on the
    credential alone, and nothing else. *)
Lemma getRelease_run env version w :
  exists o,
    (match o with
     | Fulfilled _ => True
     | Rejected e => e = FetchError \/ e = TypeError \/ exists m, e = NoReleaseFoundError m
     | Pending => False
     end) /\
    forall w', credential w' = credential w ->
      getRelease env version w' =
        (o, mkWorld (fs w') (credential w')
              (HttpJson (release_url version) (sent_token w) :: trace w')).
Proof.
  unfold getRelease, release_url, getAllReleases, fetchJson, sent_token.
  destruct (String.eqb version "latest").
  - destruct (http_json env RELEASES_URL_LATEST
                (if truthy_opt (_token (credential w)) then _token (credential w) else None))
      as [j|] eqn:Hj.
    + destruct (releaseFromJson j) as [release|e] eqn:Hrel.
      * exists (Fulfilled release). split; [done|]. intros w' Hc.
        unfold bind, get_world, emit, ret, lift. cbn. by rewrite Hc, Hj, Hrel.
      * exists (Rejected e). split; [right; left; by apply (releaseFromJson_throws j)|].
        intros w' Hc.
        unfold bind, get_world, emit, ret, lift. cbn. by rewrite Hc, Hj, Hrel.
    + exists (Rejected FetchError). split; [by left|]. intros w' Hc.
      unfold bind, get_world, emit, ret, lift. cbn. by rewrite Hc, Hj.
  - destruct (http_json env RELEASES_URL
                (if truthy_opt (_token (credential w)) then _token (credential w) else None))
      as [j|] eqn:Hj.
    2:{ exists (Rejected FetchError). split; [by left|]. intros w' Hc.
        unfold bind, get_world, emit, ret, lift. cbn. by rewrite Hc, Hj. }
    assert (exists releases : result (list GitHubRelease),
              forall w0 : World,
                match j with
                | JArray elements => lift (result_map releaseFromJson elements)
                | _ => ret []
                end w0 = lift releases w0) as [parsed Hreleases].
    { destruct j; try (by exists (Ok [])). by eexists. }
    destruct parsed as [releases|e].
    + destruct (List.find (fun release => startsWith (tagName release) (normalize version))
                  releases) as [release|] eqn:Hfind.
      * exists (Fulfilled release). split; [done|]. intros w' Hc.
        unfold bind, get_world, emit, ret. cbn. rewrite Hc, Hj, Hreleases. cbn.
        by rewrite Hfind.
      * eexists (Rejected (NoReleaseFoundError _)). split; [right; right; by eexists|].
        intros w' Hc.
        unfold bind, get_world, emit, ret. cbn. rewrite Hc, Hj, Hreleases. cbn.
        by rewrite Hfind.
    + exists (Rejected e). split.
      { right; left.
        specialize (Hreleases (mkWorld ∅ (mkCredential None None) [])).
        unfold lift, ret, reject in Hreleases.
        destruct j as [| | | |elements|fields]; try discriminate.
        destruct (result_map releaseFromJson elements) eqn:Hl; [discriminate|].
        injection Hreleases as ->. by apply (result_map_throws elements). }
      intros w' Hc.
      unfold bind, get_world, emit, ret. cbn. by rewrite Hc, Hj, Hreleases.
Qed.

Lemma pattern_throws env e :
  getAssetFilenamePattern env = Throw e -> e = BadPlatformError.
Proof.
  unfold getAssetFilenamePattern, getAssetFilenamePatternForPlatform, platformPattern.
  repeat (destruct (String.eqb _ _); [done|]). cbn. congruence.
Qed.

Lemma filename_throws env e :
  getDownloadOutputFilename env = Throw e -> e = BadPlatformError.
Proof.
  unfold getDownloadOutputFilename, getDownloadOutputFilenameFor.
  destruct (String.eqb _ _); [done|]. destruct (_ || _); [done|]. congruence.
Qed.

(** [downloadStylua] once the release is there. *)
Lemma downloadStylua_after_release env version w release w1 pattern outputFilename :
  getRelease env version w = (Fulfilled release, w1) ->
  getAssetFilenamePattern env = Ok pattern ->
  getDownloadOutputFilename env = Ok outputFilename ->
  downloadStylua env version w =
    match List.find (fun a => RegExp.test pattern (name a)) (assets release) with
    | None => (Fulfilled tt, w1)
    | Some asset =>
        pipeEntry env (downloadUrl asset) outputFilename (bundledPath env outputFilename)
          (mkWorld (<[bundledPath env outputFilename := ""]> (fs w1)) (credential w1)
                   (CreateWriteStream (bundledPath env outputFilename) :: trace w1))
    end.
Proof.
  intros Hrel Hpat Hout. unfold downloadStylua, bind. rewrite Hrel, Hpat, Hout. cbn.
  by rewrite DownloadFacts.downloadAssets_first_match.
Qed.

(** What [pipeEntry] leaves in the file it writes. *)
Lemma pipeEntry_run env url outputFilename file w :
  pipeEntry env url outputFilename file w =
    let w0 := mkWorld (fs w) (credential w) (HttpArchive url :: trace w) in
    match entry_bytes env url outputFilename with
    | None => (Pending, w0)
    | Some bytes =>
        match write_fault env file with
        | None =>
            (Fulfilled tt,
             mkWorld (<[file := bytes]> (fs w)) (credential w) (HttpArchive url :: trace w))
        | Some n =>
            (Rejected WriteError,
             mkWorld (<[file := take n bytes]> (fs w)) (credential w)
                     (HttpArchive url :: trace w))
        end
    end.
Proof.
  unfold pipeEntry, entry_bytes, bind, emit, pending, write_file, reject. cbn.
  destruct (http_archive env url) as [entries|]; [|done].
  destruct (List.find _ entries) as [[entry bytes]|]; [|done].
  by destruct (write_fault env file).
Qed.

Lemma pipeEntry_cases env url outputFilename file w :
  let run := pipeEntry env url outputFilename file w in
  credential (snd run) = credential w /\
  match fst run with
  | Fulfilled _ =>
      delivers env url outputFilename = true /\ write_fault env file = None /\
      exists bytes, fs (snd run) = <[file := bytes]> (fs w)
  | Rejected e =>
      e = WriteError /\ delivers env url outputFilename = true /\
      exists bytes, fs (snd run) = <[file := bytes]> (fs w)
  | Pending => delivers env url outputFilename = false /\ fs (snd run) = fs w
  end.
Proof.
  cbn zeta. rewrite pipeEntry_run. unfold delivers.
  destruct (entry_bytes env url outputFilename) as [bytes|]; [|done].
  rewrite bool_decide_eq_true_2 by done.
  destruct (write_fault env file) as [n|]; cbn; eauto 10.
Qed.

(** What a run of [downloadStylua] leaves behind, by how it ends. *)
Lemma downloadStylua_fs_cases env version w :
  let run := downloadStylua env version w in
  credential (snd run) = credential w /\
  match fst run with
  | Fulfilled _ =>
      fs (snd run) = fs w \/
      exists outputFilename bytes,
        getDownloadOutputFilename env = Ok outputFilename /\
        fs (snd run) = <[bundledPath env outputFilename := bytes]> (fs w)
  | Rejected e =>
      (e = WriteError /\
       exists outputFilename bytes,
         getDownloadOutputFilename env = Ok outputFilename /\
         fs (snd run) = <[bundledPath env outputFilename := bytes]> (fs w)) \/
      (fs (snd run) = fs w /\
       (e = FetchError \/ e = TypeError \/ (exists m, e = NoReleaseFoundError m) \/
        e = BadPlatformError))
  | Pending =>
      exists outputFilename,
        getDownloadOutputFilename env = Ok outputFilename /\
        fs (snd run) = <[bundledPath env outputFilename := ""]> (fs w)
  end.
Proof.
  intros run. subst run.
  destruct (getRelease_run env version w) as (o & Ho & Hrun).
  specialize (Hrun w eq_refl).
  destruct o as [release|e|]; [| |done].
  2:{ unfold downloadStylua, bind. rewrite Hrun. cbn. split; [done|].
      right. split; [done|]. tauto. }
  destruct (getAssetFilenamePattern env) as [pattern|e] eqn:Hpat.
  2:{ unfold downloadStylua, bind. rewrite Hrun, Hpat. cbn. split; [done|].
      right. split; [done|]. rewrite (pattern_throws env e Hpat). tauto. }
  destruct (getDownloadOutputFilename env) as [outputFilename|e] eqn:Hout.
  2:{ unfold downloadStylua, bind. rewrite Hrun, Hpat, Hout. cbn. split; [done|].
      right. split; [done|]. rewrite (filename_throws env e Hout). tauto. }
  rewrite (downloadStylua_after_release env version w release _ pattern outputFilename
             Hrun Hpat Hout).
  destruct (List.find _ (assets release)) as [asset|]; [|cbn; by eauto].
  match goal with |- context [pipeEntry env ?u ?o ?f ?w0] =>
    pose proof (pipeEntry_cases env u o f w0) as [Hcred Hpipe];
    destruct (pipeEntry env u o f w0) as [[[]|e|] w2] end;
    cbn [fst snd fs credential] in *.
  - destruct Hpipe as (_ & _ & bytes & ->). rewrite insert_insert_eq. eauto 10.
  - destruct Hpipe as (-> & _ & bytes & ->). rewrite insert_insert_eq. eauto 10.
  - destruct Hpipe as (_ & ->). eauto.
Qed.

(** X18: [downloadStylua] writes to one file only, the bundled binary under
    the storage directory: a file whose contents differ after a run,
    however the run ends, is that one.  The credential is not touched. *)
Theorem downloadStylua_touches_one_file env version w path :
  fs (snd (downloadStylua env version w)) !! path <> fs w !! path ->
  exists outputFilename,
    getDownloadOutputFilename env = Ok outputFilename /\
    path = bundledPath env outputFilename.
Proof.
  intros Hdiff.
  destruct (downloadStylua_fs_cases env version w) as [_ Hcases].
  assert (forall outputFilename bytes,
            getDownloadOutputFilename env = Ok outputFilename ->
            fs (snd (downloadStylua env version w))
              = <[bundledPath env outputFilename := bytes]> (fs w) ->
            exists outputFilename,
              getDownloadOutputFilename env = Ok outputFilename /\
              path = bundledPath env outputFilename) as Hone.
  { intros outputFilename bytes Hout Hfs. exists outputFilename. split; [done|].
    destruct (decide (path = bundledPath env outputFilename)) as [|Hne]; [done|].
    exfalso. apply Hdiff. rewrite Hfs. by rewrite lookup_insert_ne. }
  destruct (fst (downloadStylua env version w)) as [[]|e|].
  - destruct Hcases as [Hfs|(o & b & Hout & Hfs)]; [by rewrite Hfs in Hdiff|eauto].
  - destruct Hcases as [(_ & o & b & Hout & Hfs)|[Hfs _]];
      [eauto|by rewrite Hfs in Hdiff].
  - destruct Hcases as (o & Hout & Hfs). eauto.
Qed.

Lemma downloadStylua_touches_one_file_witness :
  fs (snd (downloadStylua Examples.download_works "latest" Examples.previous_world))
    !! "/storage/stylua" <> fs Examples.previous_world !! "/storage/stylua" /\
  exists outputFilename,
    getDownloadOutputFilename Examples.download_works = Ok outputFilename /\
    "/storage/stylua" = bundledPath Examples.download_works outputFilename.
Proof.
  split; [vm_compute; discriminate|].
  apply (downloadStylua_touches_one_file Examples.download_works "latest"
           Examples.previous_world "/storage/stylua").
  vm_compute. discriminate.
Defined.

(** X19: How [downloadStylua] can fail.  A rejection comes from the release
    query, from an unsupported platform or from the write; only the last
    one has touched a file.  A run that never settles has emptied the
    binary. *)
Theorem downloadStylua_failure_modes env version w :
  let run := downloadStylua env version w in
  match fst run with
  | Fulfilled _ => True
  | Rejected e =>
      (e = FetchError \/ e = TypeError \/ (exists m, e = NoReleaseFoundError m) \/
       e = BadPlatformError \/ e = WriteError) /\
      (e <> WriteError -> fs (snd run) = fs w)
  | Pending =>
      exists outputFilename,
        getDownloadOutputFilename env = Ok outputFilename /\
        fs (snd run) !! bundledPath env outputFilename = Some ""
  end.
Proof.
  intros run. subst run.
  destruct (downloadStylua_fs_cases env version w) as [_ Hcases].
  destruct (fst (downloadStylua env version w)) as [[]|e|]; [done| |].
  - destruct Hcases as [(-> & _)|[Hfs He]]; [split; [tauto|done]|].
    split; [tauto|done].
  - destruct Hcases as (o & Hout & Hfs). exists o. split; [done|].
    rewrite Hfs. by rewrite lookup_insert_eq.
Qed.

(** X20: An answer of the release API that is an object without a list of
    assets, such as the message sent when the rate limit is hit, is taken
    for a release without assets: [downloadStylua("latest")] is fulfilled
    after the one request, and nothing is written or reported. *)
Theorem download_of_error_answer env w j outputFilename :
  http_json env RELEASES_URL_LATEST (sent_token w) = Some j ->
  object_without_assets j = true ->
  getDownloadOutputFilename env = Ok outputFilename ->
  downloadStylua env "latest" w =
    (Fulfilled tt,
     mkWorld (fs w) (credential w)
             (HttpJson RELEASES_URL_LATEST (sent_token w) :: trace w)).
Proof.
  intros Hj Hobj Hout.
  assert (exists release, releaseFromJson j = Ok release /\ assets release = [])
    as (release & Hrel & Hassets).
  { destruct j as [| | | |elements|fields]; try done.
    unfold releaseFromJson, object_without_assets in *. cbn.
    destruct (lookup_field "assets" fields) as [[| | | |l|]|]; cbn; try done;
      by eexists. }
  assert (exists pattern, getAssetFilenamePattern env = Ok pattern) as [pattern Hpat].
  { unfold getAssetFilenamePattern, getAssetFilenamePatternForPlatform, platformPattern,
      getDownloadOutputFilename, getDownloadOutputFilenameFor in *.
    destruct (String.eqb (platform env) "win32"); [by eexists|].
    destruct (String.eqb (platform env) "linux"); [by eexists|].
    destruct (String.eqb (platform env) "darwin"); [by eexists|done]. }
  rewrite (downloadStylua_after_release env "latest" w release
             (mkWorld (fs w) (credential w)
                (HttpJson RELEASES_URL_LATEST (sent_token w) :: trace w))
             pattern outputFilename); [by rewrite Hassets| |done..].
  unfold getRelease, fetchJson, bind, get_world, emit, ret. cbn.
  unfold sent_token in *. rewrite Hj. cbn. by rewrite Hrel.
Qed.

Lemma download_of_error_answer_witness :
  object_without_assets Examples2.rate_limit_answer = true /\
  downloadStylua Examples2.rate_limited "latest" Examples.previous_world =
    (Fulfilled tt,
     mkWorld (fs Examples.previous_world) (credential Examples.previous_world)
             [HttpJson RELEASES_URL_LATEST None]).
Proof.
  split; [reflexivity|].
  exact (download_of_error_answer Examples2.rate_limited Examples.previous_world
           Examples2.rate_limit_answer "stylua" eq_refl eq_refl eq_refl).
Defined.

End AcquireFacts.

(** ** [download.ts]: runs that find the bundled binary missing *)

Module MissingFacts.
Import JsString Utilities GitHub Download Observe Tiers Acquisition.
Import Runs ResolveFacts TierFacts RunFacts BundledFacts AcquireFacts.

Section WithSemver.
Context `{Semver} (env : Env).

(** A bundled run whose binary is missing, up to the download. *)
Lemma bundled_reaches_download fuel cwd styluaType w outputFilename :
  truthy_opt (styluaPath (config env)) = false ->
  path_usable env w = false ->
  getDownloadOutputFilename env = Ok outputFilename ->
  fs w !! bundledPath env outputFilename = None ->
  exists l,
    Forall (fun e => is_local e = true) l /\
    ensureStyluaExists_fuel env (S fuel) cwd styluaType w =
      bind (downloadStylua env (getDesiredVersion env))
        (fun _ =>
           let* v := getStyluaVersion env (bundledPath env outputFilename) cwd in
           checkDesiredVersion env v ;;
           checkLatestVersion env (ensureStyluaExists_fuel env fuel cwd Standard)
             (mkInfo (bundledPath env outputFilename, bundledPath env outputFilename)
                     Bundled v))
        (mkWorld (fs w) (credential w)
           ([Progress ("Downloading StyLua (" +:+ getDesiredVersion env +:+ ")");
             CreateDirectory (storageDirectory env);
             Stat (bundledPath env outputFilename)] ++ l ++ trace w)).
Proof.
  intros Hset Hus Hout Hmissing.
  destruct (findStylua_fallback env cwd w Hset Hus) as (l & Hfind & Hl & _).
  rewrite Hout in Hfind. exists l. split; [done|].
  cbn [ensureStyluaExists_fuel]. unfold bind at 1. rewrite Hfind.
  cbn [resolveMode paths].
  assert (pick styluaType (bundledPath env outputFilename, bundledPath env outputFilename)
          = bundledPath env outputFilename) as -> by (by destruct styluaType).
  unfold acquireIfMissing, downloadStyluaVisual.
  unfold bind at 1. unfold bind at 1. rewrite fileExists_run.
  cbn [fs credential trace]. rewrite bool_decide_eq_false_2
    by (rewrite Hmissing; by intros [? ?]).
  cbn [negb].
  reflexivity.
Qed.

(** A release found for [w] is found for every world with the same
    credential. *)
Lemma getRelease_same_credential version w release w' :
  fst (getRelease env version w) = Fulfilled release ->
  credential w' = credential w ->
  getRelease env version w' =
    (Fulfilled release,
     mkWorld (fs w') (credential w')
             (HttpJson (release_url version) (sent_token w) :: trace w')).
Proof.
  intros Hrel Hcred.
  destruct (getRelease_run env version w) as (o & _ & Hrun).
  rewrite (Hrun w eq_refl) in Hrel. cbn in Hrel. subst o. by apply Hrun.
Qed.


(** A version check that cannot reach its retry. *)
Lemma checkLatestVersion_no_retry retry stylua w :
  disableVersionCheck (config env) || negb (picks_authenticate env) = true ->
  exists l,
    checkLatestVersion env retry stylua w =
      (Fulfilled (Some stylua), mkWorld (fs w) (credential w) (l ++ trace w)).
Proof.
  intros Hno. unfold checkLatestVersion.
  destruct (disableVersionCheck (config env)).
  { by exists [HideUpdate]. }
  cbn in Hno. apply negb_true_iff in Hno. rewrite Hno.
  destruct (getRelease_run env "latest" w) as (o & Ho & Hrun).
  specialize (Hrun w eq_refl).
  unfold try_catch, bind at 1. rewrite Hrun.
  destruct o as [release|e|]; [| |done].
  - destruct (bool_decide _); by eexists [_; _].
  - unfold bind, emit, get_world, ret. cbn.
    destruct (negb (authenticated (credential w))); [by eexists [_; _; _]|].
    by eexists [_; _].
Qed.

(** X21: When the request for the archive fails, or the archive lacks the
    binary, the run of [ensureStyluaExists] that wanted the binary never
    settles and leaves an empty file where the binary should be.  Every
    later run finds a file there and so does not download again: it is
    fulfilled with a binary, and the file stays empty. *)
Theorem failed_download_is_not_retried cwd styluaType w outputFilename pattern
    release asset :
  truthy_opt (styluaPath (config env)) = false ->
  path_usable env w = false ->
  getDownloadOutputFilename env = Ok outputFilename ->
  getAssetFilenamePattern env = Ok pattern ->
  fs w !! bundledPath env outputFilename = None ->
  fst (getRelease env (getDesiredVersion env) w) = Fulfilled release ->
  List.find (fun a => RegExp.test pattern (name a)) (assets release) = Some asset ->
  delivers env (downloadUrl asset) outputFilename = false ->
  let run := ensureStyluaExists env cwd styluaType w in
  fst run = Pending /\
  fs (snd run) = <[bundledPath env outputFilename := ""]> (fs w) /\
  forall cwd' styluaType' w1,
    fs w1 = fs (snd run) ->
    exists stylua w2,
      ensureStyluaExists env cwd' styluaType' w1 = (Fulfilled (Some stylua), w2) /\
      fs w2 = fs w1.
Proof.
  intros Hset Hus Hout Hpat Hmissing Hrel Hfind Hfail run.
  assert (exists w', run = (Pending, w') /\
            fs w' = <[bundledPath env outputFilename := ""]> (fs w))
    as (w' & Hrun & Hfs).
  { subst run. unfold ensureStyluaExists.
    destruct (bundled_reaches_download 1 cwd styluaType w outputFilename
                Hset Hus Hout Hmissing) as (l & _ & ->).
    match goal with |- context [bind _ _ ?w0] => set (w0' := w0) end.
    pose proof (getRelease_same_credential (getDesiredVersion env) w release w0'
                  Hrel eq_refl) as Hrel0.
    unfold bind at 1.
    rewrite (downloadStylua_after_release env _ w0' release _ pattern outputFilename
               Hrel0 Hpat Hout), Hfind.
    match goal with |- context [pipeEntry env ?u ?o ?f ?w1] =>
      pose proof (pipeEntry_cases env u o f w1) as [_ Hpipe];
      destruct (pipeEntry env u o f w1) as [[[]|e|] w2] end;
      cbn [fst snd] in *.
    - destruct Hpipe as (Hd & _). congruence.
    - destruct Hpipe as (_ & Hd & _). congruence.
    - destruct Hpipe as (_ & Hfs). by exists w2. }
  rewrite Hrun. cbn [fst snd].
  split; [done|]. split; [done|].
  intros cwd' styluaType' w1 Hw1.
  destruct (installed_run_completes env cwd' styluaType' w1 outputFilename Hout)
    as (r & w2 & Hrun2 & Hfs2 & Hnone).
  { rewrite Hw1, Hfs. rewrite lookup_insert_eq. by eexists. }
  destruct r as [stylua|]; [by exists stylua, w2|].
  rewrite Hnone in Hset; done.
Qed.

(** X22: When the release has no asset for this platform, the run that
    wanted the binary is fulfilled all the same: it returns the bundled
    path with no version, and the file is still not there. *)
Theorem missing_binary_without_asset cwd styluaType w outputFilename pattern release :
  truthy_opt (styluaPath (config env)) = false ->
  path_usable env w = false ->
  getDownloadOutputFilename env = Ok outputFilename ->
  getAssetFilenamePattern env = Ok pattern ->
  fs w !! bundledPath env outputFilename = None ->
  fst (getRelease env (getDesiredVersion env) w) = Fulfilled release ->
  List.find (fun a => RegExp.test pattern (name a)) (assets release) = None ->
  disableVersionCheck (config env) || negb (picks_authenticate env) = true ->
  let run := ensureStyluaExists env cwd styluaType w in
  fst run =
    Fulfilled (Some (mkInfo (bundledPath env outputFilename, bundledPath env outputFilename)
                            Bundled None)) /\
  fs (snd run) = fs w /\
  fs (snd run) !! bundledPath env outputFilename = None.
Proof.
  intros Hset Hus Hout Hpat Hmissing Hrel Hfind Hno run.
  assert (exists w',
            run = (Fulfilled (Some (mkInfo (bundledPath env outputFilename,
                                            bundledPath env outputFilename)
                                           Bundled None)), w') /\
            fs w' = fs w) as (w' & -> & Hfs); [|cbn [fst snd]; by rewrite Hfs].
  subst run. unfold ensureStyluaExists.
  destruct (bundled_reaches_download 1 cwd styluaType w outputFilename
              Hset Hus Hout Hmissing) as (l & _ & ->).
  match goal with |- context [bind _ _ ?w0] => set (w0' := w0) end.
  pose proof (getRelease_same_credential (getDesiredVersion env) w release w0'
                Hrel eq_refl) as Hrel0.
  unfold bind at 1.
  rewrite (downloadStylua_after_release env _ w0' release _ pattern outputFilename
             Hrel0 Hpat Hout), Hfind.
  unfold bind at 1. rewrite getStyluaVersion_run.
  unfold reported_version. subst w0'. cbn [fs credential trace]. rewrite Hmissing.
  unfold bind at 1. unfold checkDesiredVersion. cbn [truthy_opt andb ret].
  match goal with |- context [checkLatestVersion env ?retry ?s ?w1] =>
    destruct (checkLatestVersion_no_retry retry s w1 Hno) as [l' ->] end.
  by eexists.
Qed.

(** A bundled run with the binary in place and the version check on,
    when the release API answers. *)
Lemma bundled_check_run fuel cwd styluaType w outputFilename j release :
  truthy_opt (styluaPath (config env)) = false ->
  path_usable env w = false ->
  getDownloadOutputFilename env = Ok outputFilename ->
  is_Some (fs w !! bundledPath env outputFilename) ->
  disableVersionCheck (config env) = false ->
  http_json env RELEASES_URL_LATEST (sent_token w) = Some j ->
  releaseFromJson j = Ok release ->
  let installed := reported_version env w (bundledPath env outputFilename) in
  exists l,
    Forall (fun e => is_local e = true \/
                     exists current requested,
                       e = IncorrectVersionPrompt current requested) l /\
    ensureStyluaExists_fuel env (S fuel) cwd styluaType w =
      (Fulfilled (Some (mkInfo (bundledPath env outputFilename,
                                bundledPath env outputFilename) Bundled installed)),
       mkWorld (fs w) (credential w)
         ([if bool_decide (installed = Some (strip_v (tagName release)))
           then HideUpdate else UpdateAvailable release;
           HttpJson RELEASES_URL_LATEST (sent_token w)] ++ l ++ trace w)).
Proof.
  intros Hset Hus Hout Hpresent Hon Hj Hrel installed.
  destruct (bundled_reaches_check env fuel cwd styluaType w outputFilename
              Hset Hus Hout Hpresent) as (l & Hl & Hrun).
  exists l. split; [done|]. rewrite Hrun.
  unfold checkLatestVersion. rewrite Hon.
  unfold try_catch, bind at 1.
  unfold getRelease, fetchJson, bind at 1 2 3, get_world, emit, ret. cbn.
  unfold sent_token in Hj. rewrite Hj. cbn. rewrite Hrel. cbn.
  fold installed. by destruct (bool_decide _).
Qed.

(** With the bundled binary in place and the version check on, a run of
    [ensureStyluaExists] asks for the latest release once and, when the
    answer is a release, returns the binary with the version it reports
    and offers the release as an update exactly when its tag, without a
    leading [v], is not that version.  Nothing else is requested, written
    or asked of the user. *)
Theorem bundled_run_offers_update cwd styluaType w outputFilename j release :
  truthy_opt (styluaPath (config env)) = false ->
  path_usable env w = false ->
  getDownloadOutputFilename env = Ok outputFilename ->
  is_Some (fs w !! bundledPath env outputFilename) ->
  disableVersionCheck (config env) = false ->
  http_json env RELEASES_URL_LATEST (sent_token w) = Some j ->
  releaseFromJson j = Ok release ->
  let installed := reported_version env w (bundledPath env outputFilename) in
  exists l,
    Forall (fun e => is_local e = true \/
                     exists current requested,
                       e = IncorrectVersionPrompt current requested) l /\
    ensureStyluaExists env cwd styluaType w =
      (Fulfilled (Some (mkInfo (bundledPath env outputFilename,
                                bundledPath env outputFilename) Bundled installed)),
       mkWorld (fs w) (credential w)
         ([if bool_decide (installed = Some (strip_v (tagName release)))
           then HideUpdate else UpdateAvailable release;
           HttpJson RELEASES_URL_LATEST (sent_token w)] ++ l ++ trace w)).
Proof. apply bundled_check_run. Qed.

(** X23: An answer of the release API that carries no release, such as the
    message sent when the rate limit is hit, is not treated as a failure:
    the run shows no warning and does not offer to authenticate.  It
    offers an update instead, to a release with an empty tag and no
    assets, whenever the installed binary reports a version. *)
Theorem error_answer_offers_update cwd styluaType w outputFilename j :
  truthy_opt (styluaPath (config env)) = false ->
  path_usable env w = false ->
  getDownloadOutputFilename env = Ok outputFilename ->
  is_Some (fs w !! bundledPath env outputFilename) ->
  disableVersionCheck (config env) = false ->
  http_json env RELEASES_URL_LATEST (sent_token w) = Some j ->
  Payload.object_without_assets j = true ->
  untagged j = true ->
  truthy_opt (reported_version env w (bundledPath env outputFilename)) = true ->
  let events := new_events (ensureStyluaExists env cwd styluaType) w in
  (exists htmlUrl, In (UpdateAvailable (mkRelease [] htmlUrl "")) events) /\
  Forall (fun e => is_failure_notice e = false) events.
Proof.
  intros Hset Hus Hout Hpresent Hon Hj Hobj Htag Hv events.
  assert (exists htmlUrl, releaseFromJson j = Ok (mkRelease [] htmlUrl ""))
    as [htmlUrl Hrel].
  { destruct j as [| | | |elements|fields]; try done.
    unfold releaseFromJson, Payload.object_without_assets, untagged in *. cbn.
    destruct (Json.lookup_field "assets" fields) as [[| | | |l|]|]; cbn; try done;
      destruct (Json.lookup_field "tag_name" fields) as [[| | | | |]|]; cbn; try done;
      by eexists. }
  destruct (bundled_check_run 1 cwd styluaType w outputFilename j _
              Hset Hus Hout Hpresent Hon Hj Hrel) as (l & Hl & Hrun).
  cbn [tagName] in Hrun.
  rewrite bool_decide_eq_false_2 in Hrun.
  2:{ intros E. rewrite E in Hv. done. }
  subst events. unfold ensureStyluaExists.
  rewrite (new_events_app _ _
             ([UpdateAvailable (mkRelease [] htmlUrl "");
               HttpJson RELEASES_URL_LATEST (sent_token w)] ++ l))
    by (by rewrite Hrun).
  split.
  - exists htmlUrl. rewrite <- in_rev. by left.
  - apply Forall_rev. constructor; [done|]. constructor; [done|].
    eapply Forall_impl; [exact Hl|]. intros e [He|(c & r & ->)]; [|done].
    by destruct e.
Qed.

End WithSemver.

Lemma failed_download_is_not_retried_witness :
  fs Examples.empty_world !! "/storage/stylua" = None /\
  delivers Examples.download_fails "https://example.org/stylua-linux-x86_64.zip" "stylua"
    = false /\
  let run := @ensureStyluaExists NumericSemver.instance Examples.download_fails None
               Standard Examples.empty_world in
  fst run = Pending /\
  fs (snd run) = <["/storage/stylua" := ""]> (fs Examples.empty_world).
Proof.
  split; [reflexivity|]. split; [reflexivity|].
  destruct (@failed_download_is_not_retried NumericSemver.instance
              Examples.download_fails None Standard Examples.empty_world "stylua" _ _ _
              eq_refl eq_refl eq_refl eq_refl eq_refl eq_refl eq_refl eq_refl)
    as (Hp & Hfs & _).
  split; [exact Hp|exact Hfs].
Defined.

Lemma missing_binary_without_asset_witness :
  fs Examples.empty_world !! "/storage/stylua" = None /\
  let run := @ensureStyluaExists NumericSemver.instance Examples.only_macos_asset None
               Standard Examples.empty_world in
  fst run = Fulfilled (Some (Examples.bundled None)) /\
  fs (snd run) !! "/storage/stylua" = None.
Proof.
  split; [reflexivity|].
  destruct (@missing_binary_without_asset NumericSemver.instance
              Examples.only_macos_asset None Standard Examples.empty_world "stylua" _ _
              eq_refl eq_refl eq_refl eq_refl eq_refl eq_refl eq_refl eq_refl)
    as (Hr & _ & Hfs).
  split; [exact Hr|exact Hfs].
Defined.

Lemma bundled_run_offers_update_witness :
  http_json Examples3.behind_latest RELEASES_URL_LATEST
    (sent_token Examples.installed_world)
    = Some (Examples.release_json "v2.1.0" []) /\
  releaseFromJson (Examples.release_json "v2.1.0" []) = Ok Examples3.release_2_1_0 /\
  exists l,
    @ensureStyluaExists NumericSemver.instance Examples3.behind_latest None Standard
      Examples.installed_world =
      (Fulfilled (Some (Examples.bundled (Some "2.0.0"))),
       mkWorld (fs Examples.installed_world) (credential Examples.installed_world)
         ([UpdateAvailable Examples3.release_2_1_0;
           HttpJson RELEASES_URL_LATEST None] ++ l)).
Proof.
  split; [reflexivity|]. split; [reflexivity|].
  destruct (@bundled_run_offers_update NumericSemver.instance Examples3.behind_latest
              None Standard Examples.installed_world "stylua"
              (Examples.release_json "v2.1.0" []) Examples3.release_2_1_0
              eq_refl eq_refl eq_refl (ex_intro _ "ELF" eq_refl) eq_refl eq_refl eq_refl)
    as (l & _ & Hrun).
  exists l. rewrite Hrun. by rewrite app_nil_r.
Defined.

Lemma error_answer_offers_update_witness :
  Payload.object_without_assets Examples2.rate_limit_answer = true /\
  untagged Examples2.rate_limit_answer = true /\
  reported_version Examples3.rate_limited_installed Examples.installed_world
    "/storage/stylua" = Some "2.1.0" /\
  exists htmlUrl,
    In (UpdateAvailable (mkRelease [] htmlUrl ""))
       (new_events (@ensureStyluaExists NumericSemver.instance
                      Examples3.rate_limited_installed None Standard)
                   Examples.installed_world).
Proof.
  split; [reflexivity|]. split; [reflexivity|]. split; [reflexivity|].
  exact (proj1 (@error_answer_offers_update NumericSemver.instance
                  Examples3.rate_limited_installed None Standard
                  Examples.installed_world "stylua" Examples2.rate_limit_answer
                  eq_refl eq_refl eq_refl (ex_intro _ "ELF" eq_refl) eq_refl eq_refl
                  eq_refl eq_refl eq_refl)).
Defined.

End MissingFacts.

(** ** [download.ts]: [getStyluaVersion] and [getStyluaPath] *)

Module ProbeFacts.
Import JsString Utilities GitHub Download Observe Tiers Downloader.
Import Runs ResolveFacts TierFacts.

Lemma slice_short n s : String.length s <= n -> slice n s = "".
Proof.
  induction n as [|n IH] in s |- *; destruct s as [|c s]; cbn; try done; [lia|].
  intros Hlen. apply IH. lia.
Qed.

(** X24: [getStyluaVersion] never fails and never stays pending.  It gives
    no version exactly when the binary is missing or does not run, which
    it cannot tell apart, and the empty version when the binary prints
    seven characters or fewer, the length of ["stylua "]. *)
Theorem getStyluaVersion_never_rejects env path cwd w :
  exists v,
    getStyluaVersion env path cwd w =
      (Fulfilled v, mkWorld (fs w) (credential w) (Exec path cwd :: trace w)) /\
    (v = None <->
     forall binary, fs w !! path = Some binary -> version_stdout env binary = None) /\
    (forall binary stdout,
       fs w !! path = Some binary -> version_stdout env binary = Some stdout ->
       String.length (trim stdout) <= 7 -> v = Some "" /\ truthy_opt v = false).
Proof.
  exists (reported_version env w path). split; [apply getStyluaVersion_run|].
  unfold reported_version.
  destruct (fs w !! path) as [binary|]; [|split; [done|congruence]].
  destruct (version_stdout env binary) as [stdout|] eqn:Hstdout.
  - split.
    + split; [done|]. intros Hnone. specialize (Hnone binary eq_refl). congruence.
    + intros b s [= <-] Hs Hlen. rewrite Hstdout in Hs. injection Hs as <-.
      change (String.length "stylua ") with 7. by rewrite slice_short.
  - split; [|congruence]. split; [|done]. intros _ b [= <-]. done.
Qed.


End ProbeFacts.

(** ** [extension.ts]: the command [stylua.reinstall] *)

Module CommandFacts.
Import JsString Utilities GitHub Download Observe Tiers Acquisition Commands.
Import Runs ResolveFacts TierFacts RunFacts BundledFacts AcquireFacts MissingFacts.

Section WithSemver.
Context `{Semver} (env : Env).

Lemma resolveBoth_completes cwd w outputFilename :
  getDownloadOutputFilename env = Ok outputFilename ->
  is_Some (fs w !! bundledPath env outputFilename) ->
  exists r w',
    resolveBoth env cwd w = (Fulfilled r, w') /\ fs w' = fs w /\
    (r = None -> truthy_opt (styluaPath (config env)) = true).
Proof.
  intros Hout Hpresent. unfold resolveBoth.
  destruct (installed_run_completes env cwd Standard w outputFilename Hout Hpresent)
    as (r & w1 & Hrun1 & Hfs1 & Hnone).
  destruct (installed_run_completes env None React w1 outputFilename Hout)
    as (r2 & w2 & Hrun2 & Hfs2 & _); [by rewrite Hfs1|].
  exists r, w2. unfold bind. rewrite Hrun1, Hrun2. cbn.
  split; [done|]. split; [congruence|done].
Qed.

(** X26: [stylua.reinstall] downloads whether or not a binary is there, and
    resolves only when the download is fulfilled.  With an asset for this
    platform in the release: when the archive arrives and is written, the
    command ends with the new binary in place and a resolution result;
    when the write fails the command is rejected and a truncated file is
    left; when the archive does not arrive the command never finishes and
    the file is left empty.  In the last two cases nothing is resolved
    again. *)
Theorem reinstall_outcome cwd w outputFilename pattern release asset :
  getDownloadOutputFilename env = Ok outputFilename ->
  getAssetFilenamePattern env = Ok pattern ->
  fst (getRelease env (getDesiredVersion env) w) = Fulfilled release ->
  List.find (fun a => RegExp.test pattern (name a)) (assets release) = Some asset ->
  let file := bundledPath env outputFilename in
  let run := reinstall env cwd w in
  match entry_bytes env (downloadUrl asset) outputFilename with
  | None => fst run = Pending /\ fs (snd run) = <[file := ""]> (fs w)
  | Some bytes =>
      match write_fault env file with
      | Some n =>
          fst run = Rejected WriteError /\
          fs (snd run) = <[file := take n bytes]> (fs w)
      | None =>
          exists r,
            fst run = Fulfilled r /\ fs (snd run) = <[file := bytes]> (fs w) /\
            (r = None -> truthy_opt (styluaPath (config env)) = true)
      end
  end.
Proof.
  intros Hout Hpat Hrel Hfind file run.
  pose (w0 := mkWorld (fs w) (credential w)
                (Progress ("Downloading StyLua (" +:+ getDesiredVersion env +:+ ")")
                 :: trace w)).
  pose proof (getRelease_same_credential env (getDesiredVersion env) w release w0
                Hrel eq_refl) as Hrel0.
  pose proof (downloadStylua_after_release env _ w0 release _ pattern outputFilename
                Hrel0 Hpat Hout) as Hdl.
  rewrite Hfind, pipeEntry_run in Hdl. fold file in Hdl.
  assert (run = bind (downloadStylua env (getDesiredVersion env))
                     (fun _ => resolveBoth env cwd) w0) as -> by reflexivity.
  unfold bind. rewrite Hdl. subst w0. cbn [fs credential trace].
  destruct (entry_bytes env (downloadUrl asset) outputFilename) as [bytes|]; [|done].
  destruct (write_fault env file) as [n|]; cbn [fst snd fs];
    rewrite ?insert_insert_eq; [done|].
  match goal with |- context [resolveBoth env cwd ?w1] =>
    destruct (resolveBoth_completes cwd w1 outputFilename Hout)
      as (r & w2 & Hrun & Hfs & Hnone) end.
  { cbn. fold file. rewrite lookup_insert_eq. by eexists. }
  exists r. rewrite Hrun. done.
Qed.

End WithSemver.

Lemma reinstall_outcome_witness :
  fs Examples.previous_world !! "/storage/stylua" = Some "PREVIOUS BINARY" /\
  entry_bytes Examples.download_fails "https://example.org/stylua-linux-x86_64.zip"
    "stylua" = None /\
  let run := @reinstall NumericSemver.instance Examples.download_fails None
               Examples.previous_world in
  fst run = Pending /\
  fs (snd run) = <["/storage/stylua" := ""]> (fs Examples.previous_world).
Proof.
  split; [reflexivity|]. split; [reflexivity|].
  exact (@reinstall_outcome NumericSemver.instance Examples.download_fails None
           Examples.previous_world "stylua" _ _ _ eq_refl eq_refl eq_refl eq_refl).
Defined.

End CommandFacts.

(** ** [stylua.ts]: the arguments and the promise of [formatCode] *)

Module FormatterFacts.
Import JsString Formatter.

Lemma fold_listen_settled events f s :
  settled f = Some s -> settled (fold_left listen events f) = Some s.
Proof.
  induction events as [|e events IH] in f |- *; [done|]. intros Hs. cbn.
  apply IH. destruct e; cbn; [done| |]; unfold settle; by rewrite Hs.
Qed.

Lemma fold_listen_data events f :
  forallb is_stdout_data events = true ->
  fold_left listen events f = mkFormatting (output f +:+ stdout_of events) (settled f).
Proof.
  induction events as [|e events IH] in f |- *; intros Hall.
  - cbn. destruct f as [o s]. cbn. f_equal.
    induction o as [|c o IHo]; [done|].
    change (String c o +:+ "") with (String c (o +:+ "")). by rewrite <- IHo.
  - destruct e as [data| |]; try done. cbn in Hall |- *. rewrite IH by done. cbn.
    f_equal. induction (output f) as [|c o IHo]; [done|].
    change (String c o +:+ data) with (String c (o +:+ data)).
    change (String c (o +:+ data) +:+ stdout_of events)
      with (String c ((o +:+ data) +:+ stdout_of events)).
    change (String c o +:+ data +:+ stdout_of events)
      with (String c (o +:+ data +:+ stdout_of events)).
    by rewrite IHo.
Qed.

(** X27: The promise of [formatCode] is settled by the first event that is
    not a chunk of stdout, and nothing after it matters.  If stdout ends
    first, the promise is resolved with the chunks received so far; if a
    chunk arrives on stderr first, the promise is rejected with that
    chunk, whatever the process prints afterwards.  Until then the
    promise is pending. *)
Theorem formatCode_first_settles before e after :
  forallb is_stdout_data before = true ->
  is_stdout_data e = false ->
  formatCode before = None /\
  formatCode (before ++ e :: after) =
    Some (match e with
          | StderrData data => RejectedWith data
          | _ => Resolved (stdout_of before)
          end).
Proof.
  intros Hdata He. unfold formatCode. split.
  - by rewrite fold_listen_data.
  - destruct e as [data| |data]; [done| |];
      rewrite fold_left_app, (fold_listen_data before) by done; cbn;
      by apply fold_listen_settled.
Qed.

Lemma formatCode_first_settles_witness :
  formatCode [StdoutData "local x "; StdoutData "= 1"] = None /\
  formatCode [StdoutData "local x "; StdoutData "= 1"; StderrData "warning";
              StdoutData "!"; StdoutClose]
    = Some (RejectedWith "warning").
Proof.
  exact (formatCode_first_settles [StdoutData "local x "; StdoutData "= 1"]
           (StderrData "warning") [StdoutData "!"; StdoutClose] eq_refl eq_refl).
Defined.

(** X28: The arguments of a formatting run always start with
    [--respect-ignores] and end with [-].  An offset of zero is dropped
    like a missing one, so a range that ends at offset zero is formatted
    as the whole file; an empty file path and a configuration path of
    white space only are dropped too, while any other configuration path
    is passed on as it was typed. *)
Theorem formatArguments_edges settings filePath startPosition finishPosition :
  (exists options,
     formatArguments settings filePath startPosition finishPosition
       = ["--respect-ignores"] ++ options ++ ["-"]) /\
  formatArguments settings filePath (Some 0%N) finishPosition
    = formatArguments settings filePath None finishPosition /\
  formatArguments settings filePath startPosition (Some 0%N)
    = formatArguments settings filePath startPosition None /\
  formatArguments settings (Some "") startPosition finishPosition
    = formatArguments settings None startPosition finishPosition /\
  (forall path,
     configPath settings = Some path ->
     if String.eqb (trim path) ""
     then formatArguments settings filePath startPosition finishPosition
          = formatArguments
              (mkFormatSettings None (searchParentDirectories settings) (verify settings))
              filePath startPosition finishPosition
     else exists before after,
            formatArguments settings filePath startPosition finishPosition
              = before ++ ["--config-path"; path] ++ after).
Proof.
  split; [|split; [done|split; [done|split; [done|]]]].
  - exists (push_if (verify settings) ["--verify"]
           (push_if (searchParentDirectories settings) ["--search-parent-directories"]
           (push_if (truthy_opt (configPath settings)
                     && negb (String.eqb (trim (default "" (configPath settings))) ""))
                    ["--config-path"; default "" (configPath settings)]
           (push_if (truthy_number finishPosition)
                    ["--range-end"; toString (default 0%N finishPosition)]
           (push_if (truthy_number startPosition)
                    ["--range-start"; toString (default 0%N startPosition)]
           (push_if (truthy_opt filePath) ["--stdin-filepath"; default "" filePath]
                    [])))))).
    unfold formatArguments, push_if.
    destruct (truthy_opt filePath), (truthy_number startPosition),
      (truthy_number finishPosition), (truthy_opt (configPath settings) && _),
      (searchParentDirectories settings), (verify settings);
      reflexivity.
  - intros path Hpath. unfold formatArguments. rewrite Hpath.
    change (default "" (Some path)) with path.
    cbn [configPath searchParentDirectories verify].
    destruct (String.eqb (trim path) "") eqn:Hblank.
    + cbn [negb]. rewrite andb_false_r. reflexivity.
    + assert (truthy_opt (Some path) = true) as -> by (by destruct path).
      cbn [andb negb].
      match goal with |- context [push_if true _ ?b] => set (base := b) end.
      exists base,
        (push_if (verify settings) ["--verify"]
           (push_if (searchParentDirectories settings) ["--search-parent-directories"]
                    []) ++ ["-"]).
      clearbody base.
      destruct (searchParentDirectories settings), (verify settings);
        cbn [push_if app]; rewrite <- !app_assoc; reflexivity.
Qed.

End FormatterFacts.

(** ** [extension.ts]: React files *)

Module ReactFacts.
Import RegExp RegExpFacts PatternFacts Json React.

(** The pattern denotes the text that the code hands to [new RegExp]. *)
Lemma baseReactFileRegExp_source :
  source baseReactFileRegExp = reactFileRegExpSource None.
Proof. reflexivity. Qed.

Lemma lang_alternation words m :
  words <> [] ->
  lang (alternation words) m <->
  exists word, In word words /\ m = list_ascii_of_string word.
Proof.
  induction words as [|word rest IH]; [done|]. intros _.
  destruct rest as [|word' rest].
  - cbn. split.
    + intros Hm. exists word. split; [by left|by apply lang_lit_inv].
    + intros (k & [<-|[]] & ->). apply lang_lit.
  - change (alternation (word :: word' :: rest))
      with (Alt (lit word) (alternation (word' :: rest))).
    split.
    + intros Hm. inversion Hm as [| | | | |? ? ? Hl|? ? ? Hr| | | | | | |]; subst.
      * exists word. split; [by left|by apply lang_lit_inv].
      * apply IH in Hr as (k & Hk & ->); [|done]. exists k. split; [by right|done].
    + intros (k & [<-|Hk] & ->).
      * apply L_AltL, lang_lit.
      * apply L_AltR, IH; [done|]. by exists k.
Qed.

Lemma string_of_chars_app l1 l2 :
  string_of_list_ascii (l1 ++ l2) = string_of_list_ascii l1 +:+ string_of_list_ascii l2.
Proof. induction l1 as [|c l1 IH]; [done|]. cbn. by rewrite IH. Qed.

(** X29: With the built-in keywords, a file is a React file exactly when its
    text contains one of them somewhere: inside a longer name, a string
    or a comment as well as on its own. *)
Theorem react_file_iff_keyword_occurs text :
  test baseReactFileRegExp text = true <->
  exists keyword before after,
    In keyword REACT_KEYWORDS_SET /\ text = before +:+ keyword +:+ after.
Proof.
  unfold test, baseReactFileRegExp. rewrite search_spec. split.
  - intros (pre & m & post & Htext & Hm).
    apply lang_alternation in Hm as (keyword & Hin & ->); [|done].
    exists keyword, (string_of_list_ascii pre), (string_of_list_ascii post).
    split; [done|].
    rewrite <- (string_of_list_ascii_of_string text), Htext.
    by rewrite !string_of_chars_app, string_of_list_ascii_of_string.
  - intros (keyword & before & after & Hin & ->).
    exists (list_ascii_of_string before), (list_ascii_of_string keyword),
      (list_ascii_of_string after).
    split; [by rewrite !chars_append|].
    apply lang_alternation; [done|]. by exists keyword.
Qed.

Lemma existsb_eqb_In value set :
  existsb (String.eqb value) set = true <-> In value set.
Proof.
  rewrite existsb_exists. split.
  - intros (x & Hx & ->%String.eqb_eq). done.
  - intros Hin. exists value. split; [done|]. apply String.eqb_refl.
Qed.

Lemma Set_of_fold values set :
  List.NoDup set ->
  exists extra,
    fold_left (fun set value =>
                 if existsb (String.eqb value) set then set else set ++ [value])
              values set = set ++ extra /\
    List.NoDup extra /\
    forall k, In k extra <-> In k values /\ ~ In k set.
Proof.
  induction values as [|value values IH] in set |- *; intros Hset.
  - exists []. rewrite app_nil_r. split; [done|]. split; [constructor|].
    intros k. cbn. tauto.
  - cbn [fold_left]. destruct (existsb (String.eqb value) set) eqn:Hin.
    + apply existsb_eqb_In in Hin.
      destruct (IH set Hset) as (extra & Hfold & Hnodup & Hextra).
      exists extra. split; [done|]. split; [done|].
      intros k. rewrite Hextra. cbn. split; [tauto|].
      intros [[<-|Hk] Hno]; tauto.
    + assert (~ In value set) as Hnew.
      { intros Hv%existsb_eqb_In. congruence. }
      destruct (IH (set ++ [value])) as (extra & Hfold & Hnodup & Hextra).
      { apply List.NoDup_app; [done| |].
        - constructor; [intros []|constructor].
        - intros a Ha [<-|[]]. done. }
      exists (value :: extra). rewrite Hfold, <- app_assoc. split; [done|].
      split.
      * constructor; [|done]. rewrite Hextra. intros [_ Hno]. apply Hno.
        apply in_app_iff. right. by left.
      * intros k. cbn. rewrite Hextra, in_app_iff. cbn.
        destruct (String.string_dec value k) as [<-|Hne]; tauto.
Qed.

(** X30: The words of the pattern for React files are the built-in keywords,
    in their order, followed by the configured keywords that are new,
    each once.  A setting that is not an array of strings, even if only
    one element is not a string, adds nothing at all. *)
Theorem reactKeywordList_extends reactKeywords :
  exists extra,
    reactKeywordList reactKeywords = REACT_KEYWORDS_SET ++ extra /\
    List.NoDup extra /\
    forall k,
      In k extra <->
      (exists value,
         reactKeywords = Some value /\ isStringArray value = true /\
         In k (strings_of value)) /\
      ~ In k REACT_KEYWORDS_SET.
Proof.
  assert (List.NoDup REACT_KEYWORDS_SET) as Hbuiltin.
  { apply NoDup_ListNoDup. apply (bool_decide_unpack _). by vm_compute. }
  destruct reactKeywords as [value|].
  2:{ exists []. rewrite app_nil_r. split; [done|]. split; [constructor|].
      intros k. split; [done|]. by intros [(v & Hv & _) _]. }
  unfold reactKeywordList. destruct (isStringArray value) eqn:Harr.
  2:{ exists []. rewrite app_nil_r. split; [done|]. split; [constructor|].
      intros k. split; [done|]. intros [(v & [= <-] & Hv & _) _]. congruence. }
  unfold Set_of. rewrite fold_left_app.
  change (fold_left _ REACT_KEYWORDS_SET []) with REACT_KEYWORDS_SET.
  destruct (Set_of_fold (strings_of value) REACT_KEYWORDS_SET Hbuiltin)
    as (extra & Hfold & Hnodup & Hextra).
  exists extra. split; [done|]. split; [done|].
  intros k. rewrite Hextra. split.
  - intros [Hk Hno]. split; [by exists value|done].
  - intros [(v & [= <-] & _ & Hk) Hno]. done.
Qed.

End ReactFacts.
